(** * Job orchestration of the orchest-api: a shallow embedding

    The development embeds the job part of
    [services/orchest-api/app/app/apis/namespace_jobs.py]: the retention
    pruner [_delete_non_retained_pipeline_runs] and the two-phase functions
    [RunJob], [AbortJob], [UpdateJob], [UpdateJobPipelineRun], [PauseCronJob]
    and [ResumeCronJob], together with the REST handlers that wrap them.
    It also embeds [CreateJob], [DeleteJob], [DeleteJobPipelineRun], the
    scheduler query and the run list of the same file, the image build of
    [core/image_utils.py] and the queries of
    [apis/namespace_environment_images.py].

    - The relational store is a record of tables.  The [jobs] table is a finite
      map keyed by its primary key; the run and step tables are lists of rows in
      the order the store returns them for a query without [ORDER BY].
    - A transaction phase is a function from the store to either a returned
      value with the new store, or a raised exception (state and error passing).
    - A collateral phase produces a trace of external effects and either
      returns or raises.
    - Everything that lives outside of the file (croniter, requests, celery,
      the pipeline builder, configuration constants) is gathered in the record
      [Externals] and stays a parameter of every definition and theorem. *)

From stdpp Require Import gmap strings list list_numbers fin_maps pretty sorting.
From Stdlib Require Import ZArith Lia.

Open Scope string_scope.
Open Scope list_scope.
Open Scope Z_scope.

(** ** Values *)

(** Schema-less JSON blobs (parameters, strategy json, serialised pipelines). *)
#[warnings="-register-all"]
Inductive json :=
| JNull
| JBool (b : bool)
| JNum (z : Z)
| JStr (s : string)
| JArr (items : list json)
| JObj (items : list (string * json)).

(** A Python [dict] with string keys whose iteration order matters is the list
    of its items; [d.get(k, default)] reads the first item with that key. *)
Definition dict_get {A} (k : string) (default : A) (d : list (string * A)) : A :=
  match list_find (λ kv, kv.1 = k) d with
  | Some (_, kv) => kv.2
  | None => default
  end.

(** The line feed of Python's ["\n"]. *)
Definition newline : string := String (Ascii.ascii_of_nat 10) EmptyString.

(** Timestamps are seconds on the UTC time line. *)
Abbreviation datetime := Z (only parsing).

(** The exceptions the embedded code raises or lets through. *)
Inductive exn :=
| ValueError (msg : string)
| KeyError (key : string)
| NoResultFound
| ImageNotFound (msg : string)
| RequestException (msg : string)
| ExternalError (msg : string).

(** ** Pipeline definitions *)

Module StepDef.
Record t := mk { environment : string; parameters : json }.
Definition set_parameters (v : json) (s : t) : t := mk (environment s) v.
End StepDef.

Module PipelineDef.
Record t := mk { parameters : json; steps : gmap string StepDef.t }.
Definition set_parameters (v : json) (p : t) : t := mk v (steps p).
Definition set_steps (v : gmap string StepDef.t) (p : t) : t := mk (parameters p) v.
End PipelineDef.

Module RunConfig.
Record t := mk {
    base : json;
    env_uuid_docker_id_mappings : option (gmap string string);
    user_env_variables : option (gmap string string) }.
End RunConfig.

Module PipelineRunSpec.
Record t := mk {
    pipeline_definition : option PipelineDef.t;
    run_config : RunConfig.t }.
Definition set_pipeline_definition (v : PipelineDef.t) (s : t) : t :=
    mk (Some v) (run_config s).
End PipelineRunSpec.

(** The value built by [construct_pipeline]: the uuids of its steps, in order
    ([s.properties["uuid"] for s in pipeline.steps]) and its [to_dict()]. *)
Module Pipeline.
Record t := mk { steps : list string; to_dict : json }.
End Pipeline.

(** ** The models *)

Module Job.
Record t := mk {
    uuid : string;
    name : string;
    project_uuid : string;
    pipeline_uuid : string;
    schedule : option string;
    parameters : list (list (string * json));
    env_variables : gmap string string;
    pipeline_definition : PipelineDef.t;
    pipeline_run_spec : PipelineRunSpec.t;
    status : string;
    next_scheduled_time : option datetime;
    last_scheduled_time : option datetime;
    total_scheduled_executions : Z;
    total_scheduled_pipeline_runs : Z;
    max_retained_pipeline_runs : Z;
    strategy_json : json }.

Definition set_name (v : string) (j : t) : t :=
    let '(mk a _ c d e f g h i k l m n o p q) := j in mk a v c d e f g h i k l m n o p q.
Definition set_schedule (v : option string) (j : t) : t :=
    let '(mk a b c d _ f g h i k l m n o p q) := j in mk a b c d v f g h i k l m n o p q.
Definition set_parameters (v : list (list (string * json))) (j : t) : t :=
    let '(mk a b c d e _ g h i k l m n o p q) := j in mk a b c d e v g h i k l m n o p q.
Definition set_env_variables (v : gmap string string) (j : t) : t :=
    let '(mk a b c d e f _ h i k l m n o p q) := j in mk a b c d e f v h i k l m n o p q.
Definition set_status (v : string) (j : t) : t :=
    let '(mk a b c d e f g h i _ l m n o p q) := j in mk a b c d e f g h i v l m n o p q.
Definition set_next_scheduled_time (v : option datetime) (j : t) : t :=
    let '(mk a b c d e f g h i k _ m n o p q) := j in mk a b c d e f g h i k v m n o p q.
Definition set_last_scheduled_time (v : option datetime) (j : t) : t :=
    let '(mk a b c d e f g h i k l _ n o p q) := j in mk a b c d e f g h i k l v n o p q.
Definition set_total_scheduled_executions (v : Z) (j : t) : t :=
    let '(mk a b c d e f g h i k l m _ o p q) := j in mk a b c d e f g h i k l m v o p q.
Definition set_total_scheduled_pipeline_runs (v : Z) (j : t) : t :=
    let '(mk a b c d e f g h i k l m n _ p q) := j in mk a b c d e f g h i k l m n v p q.
Definition set_max_retained_pipeline_runs (v : Z) (j : t) : t :=
    let '(mk a b c d e f g h i k l m n o _ q) := j in mk a b c d e f g h i k l m n o v q.
Definition set_strategy_json (v : json) (j : t) : t :=
    let '(mk a b c d e f g h i k l m n o p _) := j in mk a b c d e f g h i k l m n o p v.
End Job.

Module NonInteractivePipelineRun.
Record t := mk {
    job_uuid : string;
    uuid : string;
    pipeline_uuid : string;
    project_uuid : string;
    status : string;
    parameters : list (string * json);
    job_run_index : Z;
    job_run_pipeline_run_index : Z;
    pipeline_run_index : Z;
    env_variables : gmap string string }.

Definition set_status (v : string) (r : t) : t :=
    let '(mk a b c d _ f g h i k) := r in mk a b c d v f g h i k.
End NonInteractivePipelineRun.

Module PipelineRunStep.
Record t := mk { run_uuid : string; step_uuid : string; status : string }.
Definition set_status (v : string) (s : t) : t := mk (run_uuid s) (step_uuid s) v.
End PipelineRunStep.

Module JobImageMapping.
Record t := mk {
    job_uuid : string;
    orchest_environment_uuid : string;
    docker_img_id : string }.
End JobImageMapping.

(** ** The store *)

Record DB := mkDB {
  jobs : gmap string Job.t;
  pipeline_runs : list NonInteractivePipelineRun.t;
  pipeline_run_steps : list PipelineRunStep.t;
  job_image_mappings : list JobImageMapping.t }.

Definition set_jobs (v : gmap string Job.t) (db : DB) : DB :=
  mkDB v (pipeline_runs db) (pipeline_run_steps db) (job_image_mappings db).
Definition set_pipeline_runs (v : list NonInteractivePipelineRun.t) (db : DB) : DB :=
  mkDB (jobs db) v (pipeline_run_steps db) (job_image_mappings db).
Definition set_pipeline_run_steps (v : list PipelineRunStep.t) (db : DB) : DB :=
  mkDB (jobs db) (pipeline_runs db) v (job_image_mappings db).

(** ** Transactions: state and exception passing *)

Inductive result (A : Type) :=
| Returned (a : A) (db : DB)
| Raised (e : exn).
Arguments Returned {A} a db.
Arguments Raised {A} e.

Definition M (A : Type) : Type := DB → result A.

Definition ret {A} (a : A) : M A := λ db, Returned a db.
Definition raise {A} (e : exn) : M A := λ _, Raised e.
Definition bind {A B} (c : M A) (k : A → M B) : M B :=
  λ db, match c db with
        | Returned a db' => k a db'
        | Raised e => Raised e
        end.
Definition get_db : M DB := λ db, Returned db db.
Definition modify_db (f : DB → DB) : M unit := λ db, Returned tt (f db).
Definition lift {A} (x : exn + A) : M A :=
  match x with inl e => raise e | inr a => ret a end.

Declare Scope tx_scope.
Delimit Scope tx_scope with tx.
Notation "x <- c ;; k" := (bind c (λ x, k))
  (at level 100, c at next level, right associativity) : tx_scope.
Notation "c ;; k" := (bind c (λ _, k))
  (at level 100, right associativity) : tx_scope.
Open Scope tx_scope.

(** [Query.one()] on the primary key of the job table. *)
Definition query_job_one (job_uuid : string) : M Job.t :=
  db <- get_db ;;
  match jobs db !! job_uuid with
  | Some job => ret job
  | None => raise NoResultFound
  end.

(** Writing the attributes of a loaded job row back to the store (the flush of
    the unit of work). *)
Definition flush_job (job_uuid : string) (job : Job.t) : M unit :=
  modify_db (λ db, set_jobs (<[job_uuid := job]> (jobs db)) db).

(** ** Collateral effects: a trace of external effects and an outcome *)

Inductive effect :=
| log_info (msg : string)
| log_error (msg : string)
| http_delete (url : string)
| celery_send_task (task_id : string) (job_uuid project_uuid : string)
    (pipeline_definition : json) (run_config : RunConfig.t)
| celery_forget (task_id : string)
| celery_revoke (task_ids : list string)
| celery_abort (task_id : string)
| stale_environment_images (project_uuid : string).

Definition C (A : Type) : Type := list effect * (exn + A).

Definition cret {A} (a : A) : C A := ([], inr a).
Definition craise {A} (e : exn) : C A := ([], inl e).
Definition emit (e : effect) : C unit := ([e], inr tt).
Definition cbind {A B} (c : C A) (k : A → C B) : C B :=
  match c with
  | (tr, inr a) => let '(tr', r) := k a in (tr ++ tr', r)
  | (tr, inl e) => (tr, inl e)
  end.

Declare Scope collateral_scope.
Delimit Scope collateral_scope with col.
Notation "x <- c ;; k" := (cbind c (λ x, k))
  (at level 100, c at next level, right associativity) : collateral_scope.
Notation "c ;; k" := (cbind c (λ _, k))
  (at level 100, right associativity) : collateral_scope.

(** [for x in xs: body(x)] in the collateral monad. *)
Fixpoint cfor {A} (xs : list A) (body : A → C unit) : C unit :=
  match xs with
  | [] => cret tt
  | x :: rest => (body x ;; cfor rest body)%col
  end.

(** ** External collaborators *)

(** The payload of a status update (the body of the status PUT requests). *)
Module StatusUpdate.
Record t := mk {
  status : string;
  started_time : option string;
  finished_time : option string }.
End StatusUpdate.

(** What [requests.delete] gives back: a response with its status code, or an
    exception of the transport (no response at all). *)
Inductive http_outcome :=
| Response (status_code : Z)
| NoResponse (msg : string).

(** The collaborators the module imports and the configuration it reads.
    [update_status_db] ([app.utils]) is used at two models: on runs and on
    steps; the rows it is applied to are given by its [filter_by] and it
    touches the table of its [model] only. *)
Record Externals := mkExternals {
  PIPELINE_PARAMETERS_RESERVED_KEY : string;
  ORCHEST_WEBSERVER_ADDRESS : string;
  croniter_is_valid : string → bool;
  croniter_get_next : string → datetime → datetime;
  fromisoformat : string → exn + datetime;
  are_environment_variables_valid : gmap string string → bool;
  get_env_uuids_missing_image : string → gset string → list string;
  construct_pipeline : PipelineRunSpec.t → exn + Pipeline.t;
  update_status_db_runs :
    StatusUpdate.t → (NonInteractivePipelineRun.t → bool) →
    list NonInteractivePipelineRun.t → list NonInteractivePipelineRun.t;
  update_status_db_steps :
    StatusUpdate.t → (PipelineRunStep.t → bool) →
    list PipelineRunStep.t → list PipelineRunStep.t;
  requests_delete_outcome : string → http_outcome;
  celery_send_task_outcome : string → option exn;
  process_stale_environment_images_outcome : string → option exn }.

(** [requests.delete(url)]: the request goes out, then either a response comes
    back or the call raises. *)
Definition requests_delete (E : Externals) (url : string) : C Z :=
  (emit (http_delete url) ;;
   match requests_delete_outcome E url with
   | Response status_code => cret status_code
   | NoResponse msg => craise (RequestException msg)
   end)%col.

Definition process_stale_environment_images (E : Externals) (project_uuid : string)
  : C unit :=
  (emit (stale_environment_images project_uuid) ;;
   match process_stale_environment_images_outcome E project_uuid with
   | None => cret tt
   | Some e => craise e
   end)%col.

(** ** Retention pruner *)

(** The rows selected by the query of [_delete_non_retained_pipeline_runs]
    (their [uuid] column), in the order of the table: the query has no
    [ORDER BY]. *)
Definition runs_to_be_deleted (job_uuid : string) (job : Job.t) (db : DB)
  : list string :=
  NonInteractivePipelineRun.uuid <$>
    filter (λ run,
      NonInteractivePipelineRun.job_uuid run = job_uuid
      ∧ NonInteractivePipelineRun.status run ∈ ["SUCCESS"; "FAILURE"; "ABORTED"]
      ∧ NonInteractivePipelineRun.pipeline_run_index run
        ≤ (Job.total_scheduled_pipeline_runs job - 1)
          - Job.max_retained_pipeline_runs job)
      (pipeline_runs db).

(** The body of the deletion loop, for one selected run. *)
Definition delete_run (E : Externals) (job_uuid run_uuid : string) : C unit :=
  (emit (log_info ("Deleting run " +:+ run_uuid +:+ ".")) ;;
   let path := "/catch/api-proxy/api/jobs/cleanup/" +:+ job_uuid +:+ "/" +:+ run_uuid in
   let base_url := ORCHEST_WEBSERVER_ADDRESS E +:+ path in
   status_code <- requests_delete E base_url ;;
   if bool_decide (status_code ∉ [200; 404]) then
     emit (log_error ("Unexpected status code (" +:+ pretty status_code
                      +:+ ") while deleting run " +:+ run_uuid +:+ "."))
   else
     emit (log_info ("Successfully deleted run " +:+ run_uuid +:+ ".")))%col.

Definition _delete_non_retained_pipeline_runs (E : Externals) (job_uuid : string)
    (db : DB) : C unit :=
  match jobs db !! job_uuid with
  | None => craise NoResultFound
  | Some job =>
    let max_retained_pipeline_runs := Job.max_retained_pipeline_runs job in
    (emit (log_info ("Deleting non retained runs for job " +:+ job_uuid
                     +:+ ", max retained pipeline runs: "
                     +:+ pretty max_retained_pipeline_runs +:+ ".")) ;;
     if bool_decide (max_retained_pipeline_runs < 0) then
       emit (log_info "Nothing to do.")
     else
       cfor (runs_to_be_deleted job_uuid job db) (delete_run E job_uuid))%col
  end.

(** The address the deletion of one run is requested at. *)
Definition cleanup_url (E : Externals) (job_uuid run_uuid : string) : string :=
  ORCHEST_WEBSERVER_ADDRESS E
  +:+ ("/catch/api-proxy/api/jobs/cleanup/" +:+ job_uuid +:+ "/" +:+ run_uuid).

(** The rows behind [runs_to_be_deleted]. *)
Definition selected_runs (job_uuid : string) (job : Job.t) (db : DB)
  : list NonInteractivePipelineRun.t :=
  filter (λ run,
    NonInteractivePipelineRun.job_uuid run = job_uuid
    ∧ NonInteractivePipelineRun.status run ∈ ["SUCCESS"; "FAILURE"; "ABORTED"]
    ∧ NonInteractivePipelineRun.pipeline_run_index run
      ≤ (Job.total_scheduled_pipeline_runs job - 1)
        - Job.max_retained_pipeline_runs job)
    (pipeline_runs db).

(** The webserver answers every deletion request, whatever the status code. *)
Definition always_responds (E : Externals) : Prop :=
  ∀ url, ∃ status_code, requests_delete_outcome E url = Response status_code.

(** The deletion requests of a trace, in the order they were issued. *)
Definition deletion_requests (tr : list effect) : list string :=
  omap (λ e, match e with http_delete url => Some url | _ => None end) tr.

(** ** RunJob *)

Module RunJob.
(** The collateral arguments of [RunJob].  [job] is [job.as_dict()]; [None]
    stands for the empty [dict()] (and for a key not set yet). *)
Record kwargs := mk {
  job : option Job.t;
  run_config : option RunConfig.t;
  tasks_to_launch : list (string * Pipeline.t) }.
Definition set_job (v : option Job.t) (kw : kwargs) : kwargs :=
  mk v (run_config kw) (tasks_to_launch kw).
Definition set_run_config (v : option RunConfig.t) (kw : kwargs) : kwargs :=
  mk (job kw) v (tasks_to_launch kw).
Definition set_tasks_to_launch (v : list (string * Pipeline.t)) (kw : kwargs) : kwargs :=
  mk (job kw) (run_config kw) v.
End RunJob.

(** [pipeline_def["steps"][step_uuid]["parameters"] = step_parameters] for one
    item of [run_parameters]; the subscript raises [KeyError] when the pipeline
    has no such step. *)
Definition set_step_parameters (E : Externals) (pipeline_def : exn + PipelineDef.t)
    (item : string * json) : exn + PipelineDef.t :=
  match pipeline_def with
  | inl e => inl e
  | inr pipeline_def =>
    let '(step_uuid, step_parameters) := item in
    if bool_decide (step_uuid ≠ PIPELINE_PARAMETERS_RESERVED_KEY E) then
      match PipelineDef.steps pipeline_def !! step_uuid with
      | None => inl (KeyError step_uuid)
      | Some step =>
        inr (PipelineDef.set_steps
               (<[step_uuid := StepDef.set_parameters step_parameters step]>
                  (PipelineDef.steps pipeline_def))
               pipeline_def)
      end
    else inr pipeline_def
  end.

(** The pipeline definition of one run: the job's definition with the
    pipeline-level and the step-level parameters of [run_parameters]. *)
Definition run_pipeline_def (E : Externals) (job : Job.t)
    (run_parameters : list (string * json)) : exn + PipelineDef.t :=
  let pipeline_def := Job.pipeline_definition job in
  let pipeline_def :=
    PipelineDef.set_parameters
      (dict_get (PIPELINE_PARAMETERS_RESERVED_KEY E) (JObj []) run_parameters)
      pipeline_def in
  foldl (set_step_parameters E) (inr pipeline_def) run_parameters.

(** The loop [for run_index, run_parameters in enumerate(job.parameters)].
    [uuid4 i] is the i-th value [uuid.uuid4()] gives during the call. *)
Fixpoint RunJob_loop (E : Externals) (uuid4 : nat → string) (job_uuid : string)
    (run_index : nat) (parameters : list (list (string * json)))
    (job : Job.t) (tasks_to_launch : list (string * Pipeline.t))
  : M (Job.t * list (string * Pipeline.t)) :=
  match parameters with
  | [] => ret (job, tasks_to_launch)
  | run_parameters :: rest =>
    pipeline_def <- lift (run_pipeline_def E job run_parameters) ;;
    let pipeline_run_spec :=
      PipelineRunSpec.set_pipeline_definition pipeline_def (Job.pipeline_run_spec job) in
    pipeline <- lift (construct_pipeline E pipeline_run_spec) ;;
    let task_id := uuid4 run_index in
    let tasks_to_launch := tasks_to_launch ++ [(task_id, pipeline)] in
    let non_interactive_run :=
      {| NonInteractivePipelineRun.job_uuid := Job.uuid job;
         NonInteractivePipelineRun.uuid := task_id;
         NonInteractivePipelineRun.pipeline_uuid := Job.pipeline_uuid job;
         NonInteractivePipelineRun.project_uuid := Job.project_uuid job;
         NonInteractivePipelineRun.status := "PENDING";
         NonInteractivePipelineRun.parameters := run_parameters;
         NonInteractivePipelineRun.job_run_index := Job.total_scheduled_executions job;
         NonInteractivePipelineRun.job_run_pipeline_run_index := Z.of_nat run_index;
         NonInteractivePipelineRun.pipeline_run_index :=
           Job.total_scheduled_pipeline_runs job;
         NonInteractivePipelineRun.env_variables := Job.env_variables job |} in
    let job :=
      Job.set_total_scheduled_pipeline_runs
        (Job.total_scheduled_pipeline_runs job + 1) job in
    modify_db (λ db, set_pipeline_runs (pipeline_runs db ++ [non_interactive_run]) db) ;;
    flush_job job_uuid job ;;
    let pipeline_steps :=
      (λ step_uuid, PipelineRunStep.mk task_id step_uuid "PENDING")
        <$> Pipeline.steps pipeline in
    modify_db (λ db, set_pipeline_run_steps (pipeline_run_steps db ++ pipeline_steps) db) ;;
    RunJob_loop E uuid4 job_uuid (S run_index) rest job tasks_to_launch
  end.

(** [{mapping.orchest_environment_uuid: mapping.docker_img_id for mapping in
    job.image_mappings}]: a later mapping of a key replaces an earlier one. *)
Definition image_mappings (job_uuid : string) (db : DB) : gmap string string :=
  foldl (λ acc mapping,
           <[JobImageMapping.orchest_environment_uuid mapping :=
               JobImageMapping.docker_img_id mapping]> acc)
        ∅
        (filter (λ mapping, JobImageMapping.job_uuid mapping = job_uuid)
                (job_image_mappings db)).

Definition RunJob_transaction (E : Externals) (uuid4 : nat → string)
    (job_uuid : string) : M RunJob.kwargs :=
  job <- query_job_one job_uuid ;;
  let collateral_kwargs := RunJob.mk None None [] in
  let collateral_kwargs :=
    if bool_decide (Job.status job = "ABORTED") then
      RunJob.set_run_config None
        (RunJob.set_tasks_to_launch [] (RunJob.set_job None collateral_kwargs))
    else collateral_kwargs in
  let job :=
    if bool_decide (Job.status job = "PENDING") then Job.set_status "STARTED" job
    else job in
  let tasks_to_launch := [] in
  looped <- RunJob_loop E uuid4 job_uuid 0 (Job.parameters job) job tasks_to_launch ;;
  let '(job, tasks_to_launch) := looped in
  let job :=
    Job.set_total_scheduled_executions (Job.total_scheduled_executions job + 1) job in
  flush_job job_uuid job ;;
  let collateral_kwargs := RunJob.set_job (Some job) collateral_kwargs in
  db <- get_db ;;
  let mappings := image_mappings (Job.uuid job) db in
  let run_config := PipelineRunSpec.run_config (Job.pipeline_run_spec job) in
  let run_config :=
    RunConfig.mk (RunConfig.base run_config) (Some mappings)
                 (Some (Job.env_variables job)) in
  let collateral_kwargs := RunJob.set_run_config (Some run_config) collateral_kwargs in
  let collateral_kwargs := RunJob.set_tasks_to_launch tasks_to_launch collateral_kwargs in
  ret collateral_kwargs.

(** One task sent through celery: [celery.send_task], then [res.forget()]. *)
Definition launch_task (E : Externals) (job_uuid project_uuid : string)
    (run_config : RunConfig.t) (task : string * Pipeline.t) : C unit :=
  let '(task_id, pipeline) := task in
  (emit (celery_send_task task_id job_uuid project_uuid
           (Pipeline.to_dict pipeline) run_config) ;;
   match celery_send_task_outcome E task_id with
   | Some e => craise e
   | None => emit (celery_forget task_id)
   end)%col.

Definition RunJob_collateral (E : Externals) (kw : RunJob.kwargs) (db : DB) : C unit :=
  match RunJob.tasks_to_launch kw with
  | [] => cret tt
  | _ :: _ =>
    match RunJob.job kw, RunJob.run_config kw with
    | Some job, Some run_config =>
      (_delete_non_retained_pipeline_runs E (Job.uuid job) db ;;
       cfor (RunJob.tasks_to_launch kw)
            (launch_task E (Job.uuid job) (Job.project_uuid job) run_config))%col
    | _, _ => craise (KeyError "uuid")
    end
  end.

(** The tasks a trace dispatched to the queue. *)
Definition dispatched_tasks (tr : list effect) : list string :=
  omap (λ e, match e with celery_send_task task_id _ _ _ _ => Some task_id | _ => None end) tr.

(** [RunJob._revert]: a one-off job is marked FAILURE, and so are the runs and
    the steps of the tasks of this attempt. *)
Definition RunJob_revert (kw : RunJob.kwargs) (db : DB) : DB :=
  match RunJob.job kw with
  | None => db
  | Some job =>
    let db :=
      if bool_decide (Job.schedule job = None) then
        set_jobs (alter (Job.set_status "FAILURE") (Job.uuid job) (jobs db)) db
      else db in
    let tasks_ids := fst <$> RunJob.tasks_to_launch kw in
    let db :=
      set_pipeline_run_steps
        ((λ step, if bool_decide (PipelineRunStep.run_uuid step ∈ tasks_ids)
                  then PipelineRunStep.set_status "FAILURE" step else step)
           <$> pipeline_run_steps db) db in
    set_pipeline_runs
      ((λ run, if bool_decide (NonInteractivePipelineRun.uuid run ∈ tasks_ids)
               then NonInteractivePipelineRun.set_status "FAILURE" run else run)
         <$> pipeline_runs db) db
  end.

(** ** AbortJob *)

Module AbortJob.
Record kwargs := mk {
  run_uuids : list string;
  job_uuid : string;
  project_uuid : option string }.
End AbortJob.

(** One iteration of the second loop of [AbortJob._transaction]: the run with
    this uuid, then its steps, go through [update_status_db] with the status
    ABORTED. *)
Definition abort_run_and_steps (E : Externals) (db : DB) (run_uuid : string) : DB :=
  let status_update := StatusUpdate.mk "ABORTED" None None in
  let db :=
    set_pipeline_runs
      (update_status_db_runs E status_update
         (λ run, bool_decide (NonInteractivePipelineRun.uuid run = run_uuid))
         (pipeline_runs db)) db in
  set_pipeline_run_steps
    (update_status_db_steps E status_update
       (λ step, bool_decide (PipelineRunStep.run_uuid step = run_uuid))
       (pipeline_run_steps db)) db.

(** The Python return value is [False], [None] or [True]: [Some false], [None]
    and [Some true]. *)
Definition AbortJob_transaction (E : Externals) (job_uuid : string)
  : M (option bool * AbortJob.kwargs) :=
  let run_uuids := [] in
  let collateral_kwargs := AbortJob.mk run_uuids job_uuid None in
  db <- get_db ;;
  match jobs db !! job_uuid with
  | None => ret (Some false, collateral_kwargs)
  | Some job =>
    let collateral_kwargs :=
      AbortJob.mk run_uuids job_uuid (Some (Job.project_uuid job)) in
    if bool_decide (Job.status job ∈ ["SUCCESS"; "FAILURE"; "ABORTED"]) then
      ret (None, collateral_kwargs)
    else
      let job := Job.set_status "ABORTED" job in
      let job := Job.set_next_scheduled_time None job in
      flush_job job_uuid job ;;
      let run_uuids :=
        NonInteractivePipelineRun.uuid <$>
          filter (λ run, NonInteractivePipelineRun.status run ∈ ["PENDING"; "STARTED"])
            (filter (λ run, NonInteractivePipelineRun.job_uuid run = Job.uuid job)
               (pipeline_runs db)) in
      modify_db (λ db, foldl (abort_run_and_steps E) db run_uuids) ;;
      ret (Some true,
           AbortJob.mk run_uuids job_uuid (Some (Job.project_uuid job)))
  end.

Definition AbortJob_collateral (E : Externals) (kw : AbortJob.kwargs) (db : DB)
  : C unit :=
  (emit (celery_revoke (AbortJob.run_uuids kw)) ;;
   cfor (AbortJob.run_uuids kw) (λ run_uuid, emit (celery_abort run_uuid)) ;;
   match AbortJob.project_uuid kw with
   | Some project_uuid => process_stale_environment_images E project_uuid
   | None => cret tt
   end)%col.

(** ** UpdateJob *)

Definition UpdateJob_transaction (E : Externals) (now : datetime)
    (uuid4 : nat → string) (job_uuid : string)
    (name : option string)
    (cron_schedule : option string)
    (parameters : option (list (list (string * json))))
    (env_variables : option (gmap string string))
    (next_scheduled_time : option string)
    (strategy_json : option json)
    (max_retained_pipeline_runs : option Z)
    (confirm_draft : bool) : M (option RunJob.kwargs) :=
  job <- query_job_one job_uuid ;;
  let job := match name with Some name => Job.set_name name job | None => job end in
  job <-
    match cron_schedule with
    | Some cron_schedule =>
      if bool_decide (Job.schedule job = None ∧ Job.status job ≠ "DRAFT") then
        raise (ValueError
          ("Failed update operation. Cannot set the schedule of a "
           +:+ "job which is not a cron job already."))
      else if negb (croniter_is_valid E cron_schedule) then
        raise (ValueError
          ("Failed update operation. Invalid cron schedule: " +:+ cron_schedule))
      else
        let job := Job.set_schedule (Some cron_schedule) job in
        ret (Job.set_next_scheduled_time
               (Some (croniter_get_next E cron_schedule now)) job)
    | None => ret job
    end ;;
  job <-
    match parameters with
    | Some parameters =>
      if bool_decide (Job.schedule job = None ∧ Job.status job ≠ "DRAFT") then
        raise (ValueError
          ("Failed update operation. Cannot update the parameters of "
           +:+ "a job which is not a cron job."))
      else ret (Job.set_parameters parameters job)
    | None => ret job
    end ;;
  job <-
    match env_variables with
    | Some env_variables =>
      if bool_decide (Job.schedule job = None ∧ Job.status job ≠ "DRAFT") then
        raise (ValueError
          ("Failed update operation. Cannot update the env variables of "
           +:+ "a job which is not a cron job."))
      else if negb (are_environment_variables_valid E env_variables) then
        raise (ValueError "Invalid environment variables definition.")
      else ret (Job.set_env_variables env_variables job)
    | None => ret job
    end ;;
  job <-
    match next_scheduled_time with
    | Some next_scheduled_time =>
      if bool_decide (Job.status job ≠ "DRAFT") then
        raise (ValueError
          ("Failed update operation. Cannot set the next scheduled "
           +:+ "time of a job which is not a draft."))
      else if bool_decide (Job.schedule job ≠ None ∧ cron_schedule ≠ None) then
        raise (ValueError
          ("Failed update operation. Cannot set the next scheduled "
           +:+ "time of a cron job."))
      else
        let job :=
          if bool_decide (cron_schedule = None) then Job.set_schedule None job
          else job in
        time <- lift (fromisoformat E next_scheduled_time) ;;
        ret (Job.set_next_scheduled_time (Some time) job)
    | None => ret job
    end ;;
  let job :=
    if bool_decide (Job.status job = "DRAFT"
                    ∧ next_scheduled_time = None ∧ cron_schedule = None) then
      Job.set_next_scheduled_time None (Job.set_schedule None job)
    else job in
  job <-
    match strategy_json with
    | Some strategy_json =>
      if bool_decide (Job.schedule job = None ∧ Job.status job ≠ "DRAFT") then
        raise (ValueError
          ("Failed update operation. Cannot set the strategy json"
           +:+ "of a job which is not a draft nor a cron job."))
      else ret (Job.set_strategy_json strategy_json job)
    | None => ret job
    end ;;
  job <-
    match max_retained_pipeline_runs with
    | Some max_retained_pipeline_runs =>
      if bool_decide (Job.schedule job = None ∧ Job.status job ≠ "DRAFT") then
        raise (ValueError
          ("Failed update operation. Cannot update the "
           +:+ "max_retained_pipeline_runs of a job which is not a draft nor "
           +:+ "a cron job."))
      else if bool_decide (max_retained_pipeline_runs < -1) then
        raise (ValueError
          ("Failed update operation. Invalid max_retained_pipeline_runs: "
           +:+ pretty max_retained_pipeline_runs +:+ "."))
      else ret (Job.set_max_retained_pipeline_runs max_retained_pipeline_runs job)
    | None => ret job
    end ;;
  if confirm_draft then
    if bool_decide (Job.status job ≠ "DRAFT") then
      raise (ValueError "Failed update operation. The job is not a draft.")
    else
      let pipeline_def := Job.pipeline_definition job in
      let environment_uuids : gset string :=
        list_to_set
          (StepDef.environment <$> (map_to_list (PipelineDef.steps pipeline_def)).*2) in
      let env_uuids_missing_image :=
        get_env_uuids_missing_image E (Job.project_uuid job) environment_uuids in
      match env_uuids_missing_image with
      | _ :: _ =>
        let env_uuids_missing_image := String.concat ", " env_uuids_missing_image in
        raise (ImageNotFound
          ("Pipeline references environments that do not exist in the"
           +:+ " project. The following environments do not exist:"
           +:+ " [" +:+ env_uuids_missing_image +:+ "]." +:+ newline +:+ newline
           +:+ " Please make sure all"
           +:+ " pipeline steps are assigned an environment that exists"
           +:+ " in the project."))
      | [] =>
        if bool_decide (Job.schedule job = None) then
          let job := Job.set_status "PENDING" job in
          if bool_decide (Job.next_scheduled_time job = None) then
            let job := Job.set_last_scheduled_time (Some now) job in
            flush_job job_uuid job ;;
            kw <- RunJob_transaction E uuid4 (Job.uuid job) ;;
            ret (Some kw)
          else
            let job := Job.set_last_scheduled_time (Job.next_scheduled_time job) job in
            flush_job job_uuid job ;;
            ret None
        else
          let job := Job.set_last_scheduled_time (Job.next_scheduled_time job) job in
          let job := Job.set_status "STARTED" job in
          flush_job job_uuid job ;;
          ret None
      end
  else
    flush_job job_uuid job ;;
    ret None.

(** The job row the field blocks of [UpdateJob._transaction] build when none
    of them raises, block after block: name, cron schedule, parameters, env
    variables, next scheduled time, the clearing of a draft that brings neither
    a cron schedule nor a next scheduled time, strategy json, retention. *)
Definition edited_job (E : Externals) (now : datetime) (job : Job.t)
    (name cron_schedule : option string)
    (parameters : option (list (list (string * json))))
    (env_variables : option (gmap string string))
    (next_scheduled_time : option string)
    (strategy_json : option json)
    (max_retained_pipeline_runs : option Z) : Job.t :=
  let job := match name with Some name => Job.set_name name job | None => job end in
  let job :=
    match cron_schedule with
    | Some cron_schedule =>
      Job.set_next_scheduled_time (Some (croniter_get_next E cron_schedule now))
        (Job.set_schedule (Some cron_schedule) job)
    | None => job
    end in
  let job :=
    match parameters with
    | Some parameters => Job.set_parameters parameters job
    | None => job
    end in
  let job :=
    match env_variables with
    | Some env_variables => Job.set_env_variables env_variables job
    | None => job
    end in
  let job :=
    match next_scheduled_time with
    | Some next_scheduled_time =>
      Job.set_next_scheduled_time
        (match fromisoformat E next_scheduled_time with
         | inr time => Some time
         | inl _ => None
         end)
        (if bool_decide (cron_schedule = None) then Job.set_schedule None job else job)
    | None => job
    end in
  let job :=
    if bool_decide (Job.status job = "DRAFT"
                    ∧ next_scheduled_time = None ∧ cron_schedule = None) then
      Job.set_next_scheduled_time None (Job.set_schedule None job)
    else job in
  let job :=
    match strategy_json with
    | Some strategy_json => Job.set_strategy_json strategy_json job
    | None => job
    end in
  match max_retained_pipeline_runs with
  | Some max_retained_pipeline_runs =>
    Job.set_max_retained_pipeline_runs max_retained_pipeline_runs job
  | None => job
  end.

(** ** UpdateJobPipelineRun *)

Module UpdateJobPipelineRun.
Record kwargs := mk {
  project_uuid : option string;
  job_uuid : option string;
  completed : bool }.
End UpdateJobPipelineRun.

(** The number of runs of the job that still have to reach an end state: the
    [count()] of the runs of the job with a status in PENDING, STARTED. *)
Definition runs_to_complete (job_uuid : string) (db : DB) : nat :=
  length
    (filter (λ run, NonInteractivePipelineRun.status run ∈ ["PENDING"; "STARTED"])
       (filter (λ run, NonInteractivePipelineRun.job_uuid run = job_uuid)
          (pipeline_runs db))).

(** [Job.query.filter_by(uuid=job_uuid).filter(Job.status.not_in([...]))
    .update({"status": "SUCCESS"})]. *)
Definition set_job_success (job_uuid : string) (db : DB) : DB :=
  set_jobs
    (alter (λ job,
              if bool_decide (Job.status job ∉ ["SUCCESS"; "ABORTED"; "FAILURE"])
              then Job.set_status "SUCCESS" job else job)
           job_uuid (jobs db)) db.

(** The transaction returns the pair of a message and the code 200.  The
    [logger.info] line of the one-off branch only reports the count and is
    left out. *)
Definition UpdateJobPipelineRun_transaction (E : Externals)
    (job_uuid run_uuid : string) (status_update : StatusUpdate.t)
  : M ((string * Z) * UpdateJobPipelineRun.kwargs) :=
  let collateral_kwargs := UpdateJobPipelineRun.mk None None false in
  modify_db (λ db,
    set_pipeline_runs
      (update_status_db_runs E status_update
         (λ run, bool_decide (NonInteractivePipelineRun.job_uuid run = job_uuid
                               ∧ NonInteractivePipelineRun.uuid run = run_uuid))
         (pipeline_runs db)) db) ;;
  collateral_kwargs <-
    (if bool_decide (StatusUpdate.status status_update ∈ ["SUCCESS"; "FAILURE"; "ABORTED"])
     then
       job <- query_job_one job_uuid ;;
       let collateral_kwargs :=
         UpdateJobPipelineRun.mk (Some (Job.project_uuid job)) (Some (Job.uuid job))
           false in
       if bool_decide (Job.schedule job = None) then
         db <- get_db ;;
         let runs_to_complete := runs_to_complete job_uuid db in
         if bool_decide (runs_to_complete = 0%nat) then
           modify_db (set_job_success job_uuid) ;;
           ret (UpdateJobPipelineRun.mk (Some (Job.project_uuid job))
                  (Some (Job.uuid job)) true)
         else ret collateral_kwargs
       else ret collateral_kwargs
     else ret collateral_kwargs) ;;
  ret (("Status was updated successfully", 200), collateral_kwargs).

Definition UpdateJobPipelineRun_collateral (E : Externals)
    (kw : UpdateJobPipelineRun.kwargs) (db : DB) : C unit :=
  ((match UpdateJobPipelineRun.completed kw, UpdateJobPipelineRun.project_uuid kw with
    | true, Some project_uuid => process_stale_environment_images E project_uuid
    | _, _ => cret tt
    end) ;;
   match UpdateJobPipelineRun.job_uuid kw with
   | Some job_uuid => _delete_non_retained_pipeline_runs E job_uuid db
   | None => cret tt
   end)%col.

(** ** PauseCronJob and ResumeCronJob *)

(** The row of [filter_by(uuid=job_uuid, status=status)
    .filter(Job.schedule.isnot(None)).one_or_none()]. *)
Definition query_cron_job (job_uuid status : string) (db : DB) : option Job.t :=
  match jobs db !! job_uuid with
  | Some job =>
    if bool_decide (Job.status job = status ∧ Job.schedule job ≠ None)
    then Some job else None
  | None => None
  end.

Definition PauseCronJob_transaction (job_uuid : string) : M bool :=
  db <- get_db ;;
  match query_cron_job job_uuid "STARTED" db with
  | None => ret false
  | Some job =>
    let job := Job.set_status "PAUSED" job in
    let job := Job.set_next_scheduled_time None job in
    flush_job job_uuid job ;;
    ret true
  end.

(** The transaction returns [None] or the new [next_scheduled_time]. *)
Definition ResumeCronJob_transaction (E : Externals) (now : datetime)
    (job_uuid : string) : M (option datetime) :=
  db <- get_db ;;
  match query_cron_job job_uuid "PAUSED" db with
  | None => ret None
  | Some job =>
    let job := Job.set_status "STARTED" job in
    match Job.schedule job with
    | None => raise (ExternalError "croniter: no expression")
    | Some schedule =>
      let next := croniter_get_next E schedule now in
      let job := Job.set_next_scheduled_time (Some next) job in
      flush_job job_uuid job ;;
      ret (Some next)
    end
  end.

(** ** The two-phase executor and the request handlers *)

(** Modelled from the spec: [TwoPhaseExecutor] and [TwoPhaseFunction] of
    [_orchest.internals.two_phase_executor], which is not part of the sources
    at hand.  The transaction phase runs against the store; when it raises the
    store is rolled back and neither collateral nor revert runs; otherwise the
    store is committed and the collateral phase runs; when the collateral phase
    raises, revert runs and the exception is raised again. *)
Definition TwoPhaseExecutor {A K} (transaction : M (A * K))
    (collateral : K → DB → C unit) (revert : K → DB → DB) (db : DB)
  : (exn + A) * DB * list effect :=
  match transaction db with
  | Raised e => (inl e, db, [])
  | Returned (a, kw) db' =>
    match collateral kw db' with
    | (tr, inr _) => (inr a, db', tr)
    | (tr, inl e) => (inl e, revert kw db', tr)
    end
  end.

(** [str(e)] for the body of the error responses. *)
Definition str (e : exn) : string :=
  match e with
  | ValueError msg => msg
  | KeyError key => "'" +:+ key +:+ "'"
  | NoResultFound => "No row was found when one was required"
  | ImageNotFound msg => msg
  | RequestException msg => msg
  | ExternalError msg => msg
  end.

Inductive body :=
| message (msg : string)
| next_scheduled_time_of (time : datetime).

Definition response : Type := body * Z.

(** [Job.put]: the update of a job. *)
Definition Job_put (E : Externals) (now : datetime) (uuid4 : nat → string)
    (job_uuid : string)
    (name cron_schedule : option string)
    (parameters : option (list (list (string * json))))
    (env_variables : option (gmap string string))
    (next_scheduled_time : option string)
    (strategy_json : option json)
    (max_retained_pipeline_runs : option Z)
    (confirm_draft : bool) (db : DB) : response * DB * list effect :=
  let '(outcome, db', tr) :=
    TwoPhaseExecutor
      (kw <- UpdateJob_transaction E now uuid4 job_uuid name cron_schedule
               parameters env_variables next_scheduled_time strategy_json
               max_retained_pipeline_runs confirm_draft ;;
       ret (tt, kw))
      (λ kw db, match kw with Some kw => RunJob_collateral E kw db | None => cret tt end)
      (λ kw db, match kw with Some kw => RunJob_revert kw db | None => db end)
      db in
  match outcome with
  | inl e => ((message (str e), 500), db', tr)
  | inr _ => ((message "Job was updated successfully", 200), db', tr)
  end.

(** [Job.delete]: the abortion of a job. *)
Definition Job_delete (E : Externals) (job_uuid : string) (db : DB)
  : response * DB * list effect :=
  let '(outcome, db', tr) :=
    TwoPhaseExecutor (AbortJob_transaction E job_uuid) (AbortJob_collateral E)
      (λ _ db, db) db in
  match outcome with
  | inl e => ((message (str e), 500), db', tr)
  | inr (Some true) => ((message "Job termination was successful.", 200), db', tr)
  | inr _ => ((message "Job does not exist or is already completed.", 404), db', tr)
  end.

(** [CronJobPause.post]. *)
Definition CronJobPause_post (job_uuid : string) (db : DB)
  : response * DB * list effect :=
  let '(outcome, db', tr) :=
    TwoPhaseExecutor (could_pause <- PauseCronJob_transaction job_uuid ;; ret (could_pause, tt))
      (λ _ _, cret tt) (λ _ db, db) db in
  match outcome with
  | inl e => ((message (str e), 500), db', tr)
  | inr true => ((message "Cron job pausing was successful.", 200), db', tr)
  | inr false => ((message "Could not pause cron job.", 409), db', tr)
  end.

(** [CronJobResume.post]. *)
Definition CronJobResume_post (E : Externals) (now : datetime) (job_uuid : string)
    (db : DB) : response * DB * list effect :=
  let '(outcome, db', tr) :=
    TwoPhaseExecutor
      (next_scheduled_time <- ResumeCronJob_transaction E now job_uuid ;;
       ret (next_scheduled_time, tt))
      (λ _ _, cret tt) (λ _ db, db) db in
  match outcome with
  | inl e => ((message (str e), 500), db', tr)
  | inr (Some next_scheduled_time) =>
    ((next_scheduled_time_of next_scheduled_time, 200), db', tr)
  | inr None => ((message "Could not resume cron job.", 409), db', tr)
  end.

(** [PipelineRun.put]: the status update of a run of a job. *)
Definition PipelineRun_put (E : Externals) (job_uuid run_uuid : string)
    (status_update : StatusUpdate.t) (db : DB) : response * DB * list effect :=
  let '(outcome, db', tr) :=
    TwoPhaseExecutor (UpdateJobPipelineRun_transaction E job_uuid run_uuid status_update)
      (UpdateJobPipelineRun_collateral E) (λ _ db, db) db in
  match outcome with
  | inl e => ((message (str e), 500), db', tr)
  | inr _ => ((message "Status was updated successfully", 200), db', tr)
  end.

(** The pipeline of every parameter set of the job can be built: the step keys
    exist in the definition and [construct_pipeline] accepts the result. *)
Definition pipelines_build (E : Externals) (job : Job.t) : Prop :=
  Forall (λ run_parameters,
            ∃ pipeline_def pipeline,
              run_pipeline_def E job run_parameters = inr pipeline_def
              ∧ construct_pipeline E
                  (PipelineRunSpec.set_pipeline_definition pipeline_def
                     (Job.pipeline_run_spec job)) = inr pipeline)
         (Job.parameters job).

(** The job row [RunJob] leaves: PENDING became STARTED, the run counter
    advanced by the number of parameter sets, the execution counter by one. *)
Definition job_after_RunJob (job : Job.t) : Job.t :=
  Job.set_total_scheduled_executions (Job.total_scheduled_executions job + 1)
    (Job.set_total_scheduled_pipeline_runs
       (Job.total_scheduled_pipeline_runs job + Z.of_nat (length (Job.parameters job)))
       (if bool_decide (Job.status job = "PENDING") then Job.set_status "STARTED" job
        else job)).

(** ** Histories of a job *)

(** What one [RunJob] invocation did: the number of parameter sets of the job
    when it ran, the job's [total_scheduled_executions] when it started, and
    the run rows it created, in creation order. *)
Record invocation := mkInvocation {
  parameter_sets : nat;
  executions_at_start : Z;
  created_runs : list NonInteractivePipelineRun.t }.

(** Any other committed change of the store that leaves the two counters of
    the job alone: deletions of runs, status updates, edits of the job. *)
Definition keeps_counters (job_uuid : string) (db db' : DB) : Prop :=
  Job.total_scheduled_pipeline_runs <$> jobs db' !! job_uuid
  = Job.total_scheduled_pipeline_runs <$> jobs db !! job_uuid
  ∧ Job.total_scheduled_executions <$> jobs db' !! job_uuid
    = Job.total_scheduled_executions <$> jobs db !! job_uuid.

(** The stores reachable from [db0] by committed [RunJob] transactions on the
    job, interleaved with other changes, and the invocations on the way. *)
Inductive history (E : Externals) (job_uuid : string)
  : DB → list invocation → DB → Prop :=
| history_start db0 :
    history E job_uuid db0 [] db0
| history_RunJob db0 invocations db job uuid4 kw db' :
    history E job_uuid db0 invocations db →
    jobs db !! job_uuid = Some job →
    RunJob_transaction E uuid4 job_uuid db = Returned kw db' →
    history E job_uuid db0
      (invocations ++
         [mkInvocation (length (Job.parameters job))
            (Job.total_scheduled_executions job)
            (drop (length (pipeline_runs db)) (pipeline_runs db'))])
      db'
| history_other db0 invocations db db' :
    history E job_uuid db0 invocations db →
    keeps_counters job_uuid db db' →
    history E job_uuid db0 invocations db'.

(** The cascade of [db.session.delete(run)]: the row of the run and the rows
    of its steps go. *)
Definition delete_run_row (run_uuid : string) (db : DB) : DB :=
  set_pipeline_run_steps
    (filter (λ step, PipelineRunStep.run_uuid step ≠ run_uuid) (pipeline_run_steps db))
    (set_pipeline_runs
       (filter (λ run, NonInteractivePipelineRun.uuid run ≠ run_uuid) (pipeline_runs db))
       db).

(** ** Concrete collaborators and stores for the examples *)

(** Modelled from the spec: [update_status_db] of [app.utils] (the status
    updater), which is not part of the sources at hand.  It applies the status
    of the update to the rows selected by [filter_by] that have not reached an
    end state yet; [AbortJob] relies on rows in an end state being left
    alone. *)
Definition update_status_db {R} (status : R → string) (set_status : string → R → R)
    (status_update : StatusUpdate.t) (filter_by : R → bool) (rows : list R) : list R :=
  (λ row, if filter_by row && bool_decide (status row ∈ ["PENDING"; "STARTED"])
          then set_status (StatusUpdate.status status_update) row else row) <$> rows.

(** The next occurrence of the cron expression ["0 * * * *"]: the next top of
    the hour strictly after [now]. *)
Definition next_top_of_hour (now : datetime) : datetime := (now `div` 3600 + 1) * 3600.

Definition example_construct_pipeline (spec : PipelineRunSpec.t) : exn + Pipeline.t :=
  match PipelineRunSpec.pipeline_definition spec with
  | Some pipeline_def =>
    inr (Pipeline.mk (map_to_list (PipelineDef.steps pipeline_def)).*1 JNull)
  | None => inl (ExternalError "missing pipeline_definition")
  end.

Definition example_externals : Externals :=
  {| PIPELINE_PARAMETERS_RESERVED_KEY := "pipeline_parameters";
     ORCHEST_WEBSERVER_ADDRESS := "http://orchest-webserver";
     croniter_is_valid := λ expr, bool_decide (expr = "0 * * * *");
     croniter_get_next := λ _ now, next_top_of_hour now;
     fromisoformat := λ s,
       if bool_decide (s = "1970-01-02T00:00:00") then inr 86400
       else inl (ValueError ("Invalid isoformat string: " +:+ s));
     are_environment_variables_valid := λ _, true;
     get_env_uuids_missing_image := λ _ _, [];
     construct_pipeline := example_construct_pipeline;
     update_status_db_runs :=
       update_status_db NonInteractivePipelineRun.status
         NonInteractivePipelineRun.set_status;
     update_status_db_steps :=
       update_status_db PipelineRunStep.status PipelineRunStep.set_status;
     requests_delete_outcome := λ _, Response 200;
     celery_send_task_outcome := λ _, None;
     process_stale_environment_images_outcome := λ _, None |}.

(** The same collaborators behind a webserver that cannot be reached. *)
Definition unreachable_webserver : Externals :=
  {| PIPELINE_PARAMETERS_RESERVED_KEY := PIPELINE_PARAMETERS_RESERVED_KEY example_externals;
     ORCHEST_WEBSERVER_ADDRESS := ORCHEST_WEBSERVER_ADDRESS example_externals;
     croniter_is_valid := croniter_is_valid example_externals;
     croniter_get_next := croniter_get_next example_externals;
     fromisoformat := fromisoformat example_externals;
     are_environment_variables_valid := are_environment_variables_valid example_externals;
     get_env_uuids_missing_image := get_env_uuids_missing_image example_externals;
     construct_pipeline := construct_pipeline example_externals;
     update_status_db_runs := update_status_db_runs example_externals;
     update_status_db_steps := update_status_db_steps example_externals;
     requests_delete_outcome := λ _, NoResponse "Connection refused";
     celery_send_task_outcome := celery_send_task_outcome example_externals;
     process_stale_environment_images_outcome :=
       process_stale_environment_images_outcome example_externals |}.

Definition example_pipeline_def : PipelineDef.t :=
  PipelineDef.mk (JObj []) {[ "step-1" := StepDef.mk "env-1" (JObj []) ]}.

Definition example_job (status : string) (schedule : option string)
    (parameters : list (list (string * json)))
    (total_scheduled_executions total_scheduled_pipeline_runs
       max_retained_pipeline_runs : Z) : Job.t :=
  {| Job.uuid := "job-1";
     Job.name := "nightly";
     Job.project_uuid := "project-1";
     Job.pipeline_uuid := "pipeline-1";
     Job.schedule := schedule;
     Job.parameters := parameters;
     Job.env_variables := ∅;
     Job.pipeline_definition := example_pipeline_def;
     Job.pipeline_run_spec :=
       PipelineRunSpec.mk None (RunConfig.mk JNull None None);
     Job.status := status;
     Job.next_scheduled_time := None;
     Job.last_scheduled_time := None;
     Job.total_scheduled_executions := total_scheduled_executions;
     Job.total_scheduled_pipeline_runs := total_scheduled_pipeline_runs;
     Job.max_retained_pipeline_runs := max_retained_pipeline_runs;
     Job.strategy_json := JObj [] |}.

Definition example_run (uuid status : string) (pipeline_run_index : Z)
  : NonInteractivePipelineRun.t :=
  {| NonInteractivePipelineRun.job_uuid := "job-1";
     NonInteractivePipelineRun.uuid := uuid;
     NonInteractivePipelineRun.pipeline_uuid := "pipeline-1";
     NonInteractivePipelineRun.project_uuid := "project-1";
     NonInteractivePipelineRun.status := status;
     NonInteractivePipelineRun.parameters := [];
     NonInteractivePipelineRun.job_run_index := 0;
     NonInteractivePipelineRun.job_run_pipeline_run_index := pipeline_run_index;
     NonInteractivePipelineRun.pipeline_run_index := pipeline_run_index;
     NonInteractivePipelineRun.env_variables := ∅ |}.

Definition example_db (job : Job.t) (runs : list NonInteractivePipelineRun.t) : DB :=
  mkDB {[ "job-1" := job ]} runs [] [].

Definition example_uuid4 (i : nat) : string := "run-" +:+ pretty i.

(** The store a transaction leaves, or the store it started from when it
    raises (the rollback). *)
Definition committed {A} (db : DB) (r : result A) : DB :=
  match r with Returned _ db' => db' | Raised _ => db end.

(** The reading of "deletion requests are issued in ascending
    [pipeline_run_index] order": of two requests of one pruning invocation, the
    earlier one is for the run with the smaller index. *)
Definition deletes_in_ascending_index_order (E : Externals) (job_uuid : string)
    (db : DB) : Prop :=
  ∀ (i j : nat) run_i run_j,
    run_i ∈ pipeline_runs db → run_j ∈ pipeline_runs db →
    deletion_requests (_delete_non_retained_pipeline_runs E job_uuid db).1 !! i
    = Some (cleanup_url E job_uuid (NonInteractivePipelineRun.uuid run_i)) →
    deletion_requests (_delete_non_retained_pipeline_runs E job_uuid db).1 !! j
    = Some (cleanup_url E job_uuid (NonInteractivePipelineRun.uuid run_j)) →
    (i < j)%nat →
    NonInteractivePipelineRun.pipeline_run_index run_i
    < NonInteractivePipelineRun.pipeline_run_index run_j.

(** The reading of "a failure of the deletion call never makes the pruning
    invocation fail": pruning an existing job always returns. *)
Definition pruning_never_fails (E : Externals) : Prop :=
  ∀ job_uuid job db,
    jobs db !! job_uuid = Some job →
    (_delete_non_retained_pipeline_runs E job_uuid db).2 = inr tt.

(** Five completed runs of the example job, indices 0 to 4, and the job that
    retains two of them. *)
Definition five_completed_runs : list NonInteractivePipelineRun.t :=
  [example_run "run-0" "SUCCESS" 0; example_run "run-1" "FAILURE" 1;
   example_run "run-2" "SUCCESS" 2; example_run "run-3" "ABORTED" 3;
   example_run "run-4" "SUCCESS" 4].

Definition job_retaining_two : Job.t :=
  example_job "STARTED" (Some "0 * * * *") [[]] 5 5 2.

(** Two completed runs that the store returns in the order 1, 0. *)
Definition db_out_of_order : DB :=
  example_db (example_job "STARTED" (Some "0 * * * *") [[]] 2 2 0)
    [example_run "run-b" "SUCCESS" 1; example_run "run-a" "SUCCESS" 0].

(** A one-off job with two parameter sets that is run, loses its first run,
    and is run again. *)
Definition db_before_first_run : DB :=
  example_db (example_job "PENDING" None [[]; []] 0 0 (-1)) [].

Definition kw_first_run : RunJob.kwargs :=
  match RunJob_transaction example_externals example_uuid4 "job-1" db_before_first_run with
  | Returned kw _ => kw
  | Raised _ => RunJob.mk None None []
  end.

Definition db_after_first_run : DB :=
  committed db_before_first_run
    (RunJob_transaction example_externals example_uuid4 "job-1" db_before_first_run).

Definition db_after_deletion : DB := delete_run_row "run-0" db_after_first_run.

Definition second_uuid4 (i : nat) : string := "again-" +:+ pretty i.

Definition kw_second_run : RunJob.kwargs :=
  match RunJob_transaction example_externals second_uuid4 "job-1" db_after_deletion with
  | Returned kw _ => kw
  | Raised _ => RunJob.mk None None []
  end.

Definition db_after_second_run : DB :=
  committed db_after_deletion
    (RunJob_transaction example_externals second_uuid4 "job-1" db_after_deletion).

(** A job that was aborted after its first batch, with one parameter set. *)
Definition db_aborted_job : DB :=
  example_db (example_job "ABORTED" None [[]] 1 1 (-1))
    [example_run "run-old" "ABORTED" 0].

(** A one-off job whose last running run is about to report a failure. *)
Definition db_last_run_running : DB :=
  example_db (example_job "STARTED" None [[]; []] 1 2 (-1))
    [example_run "run-0" "SUCCESS" 0; example_run "run-1" "STARTED" 1].

(** The same job while its first run is still running too. *)
Definition db_both_runs_running : DB :=
  example_db (example_job "STARTED" None [[]; []] 1 2 (-1))
    [example_run "run-0" "STARTED" 0; example_run "run-1" "STARTED" 1].

(** A started and a paused cron job. *)
Definition db_started_cron_job : DB :=
  example_db (example_job "STARTED" (Some "0 * * * *") [[]] 0 0 (-1)) [].

Definition db_paused_cron_job : DB :=
  example_db (example_job "PAUSED" (Some "0 * * * *") [[]] 0 0 (-1)) [].

(** The contract of croniter that resuming relies on: the next occurrence lies
    strictly after the time it is asked from. *)
Definition croniter_next_is_later (E : Externals) : Prop :=
  ∀ schedule now, now < croniter_get_next E schedule now.

(** A draft that was duplicated from a cron job: it still carries the cron
    schedule and a next scheduled time. *)
Definition draft_of_cron_job : Job.t :=
  Job.set_next_scheduled_time (Some 3600)
    (example_job "DRAFT" (Some "0 * * * *") [[]] 0 0 (-1)).

Definition db_draft_of_cron_job : DB := example_db draft_of_cron_job [].

(** The attributes a payload of [UpdateJob] can bring keep their value in
    [job'] unless the payload brings them. *)
Definition only_supplied_fields_change (job job' : Job.t)
    (name cron_schedule : option string)
    (parameters : option (list (list (string * json))))
    (env_variables : option (gmap string string))
    (next_scheduled_time : option string)
    (strategy_json : option json)
    (max_retained_pipeline_runs : option Z) : Prop :=
  (name = None → Job.name job' = Job.name job)
  ∧ (cron_schedule = None → Job.schedule job' = Job.schedule job)
  ∧ (parameters = None → Job.parameters job' = Job.parameters job)
  ∧ (env_variables = None → Job.env_variables job' = Job.env_variables job)
  ∧ (next_scheduled_time = None →
     Job.next_scheduled_time job' = Job.next_scheduled_time job)
  ∧ (strategy_json = None → Job.strategy_json job' = Job.strategy_json job)
  ∧ (max_retained_pipeline_runs = None →
     Job.max_retained_pipeline_runs job' = Job.max_retained_pipeline_runs job).

(** The reading of "no other UpdateJob branch mutates fields that were not
    supplied in the payload": whenever the update is not the one of a draft
    without cron schedule and next scheduled time, a returned transaction
    changes supplied attributes only. *)
Definition no_other_branch_mutates_unsupplied_fields (E : Externals) : Prop :=
  ∀ now uuid4 job_uuid job db name cron_schedule parameters env_variables
    next_scheduled_time strategy_json max_retained_pipeline_runs confirm_draft
    r db' job',
    jobs db !! job_uuid = Some job →
    ¬ (Job.status job = "DRAFT" ∧ cron_schedule = None ∧ next_scheduled_time = None) →
    UpdateJob_transaction E now uuid4 job_uuid name cron_schedule parameters
      env_variables next_scheduled_time strategy_json max_retained_pipeline_runs
      confirm_draft db
    = Returned r db' →
    jobs db' !! job_uuid = Some job' →
    only_supplied_fields_change job job' name cron_schedule parameters env_variables
      next_scheduled_time strategy_json max_retained_pipeline_runs.

(** The attributes of a job row that only the field blocks of [UpdateJob]
    write. *)
Definition same_payload_fields (job job' : Job.t) : Prop :=
  Job.name job' = Job.name job
  ∧ Job.parameters job' = Job.parameters job
  ∧ Job.env_variables job' = Job.env_variables job
  ∧ Job.strategy_json job' = Job.strategy_json job
  ∧ Job.max_retained_pipeline_runs job' = Job.max_retained_pipeline_runs job
  ∧ Job.schedule job' = Job.schedule job
  ∧ Job.next_scheduled_time job' = Job.next_scheduled_time job.

(** ** CreateJob *)

(** The body of the request that drafts a job.  The keys the transaction
    subscripts are attributes; the keys it reads with [get] or tests with [in]
    are optional. *)
Module JobSpec.
Record t := mk {
  uuid : string;
  name : string;
  project_uuid : string;
  pipeline_uuid : string;
  pipeline_name : string;
  scheduled_start : option string;
  cron_schedule : option string;
  parameters : list (list (string * json));
  env_variables : option (gmap string string);
  pipeline_definition : PipelineDef.t;
  pipeline_run_spec : PipelineRunSpec.t;
  strategy_json : option json;
  max_retained_pipeline_runs : option Z }.
End JobSpec.

Module CreateJob.
(** The [job] dictionary the transaction builds and returns: the attributes of
    the row, and the two attributes [pipeline_name] and [created_time] that
    no operation embedded here reads. *)
Record job := mkjob {
  row : Job.t;
  pipeline_name : string;
  created_time : datetime }.
Record kwargs := mk {
  project_uuid : string;
  job_uuid : string;
  environment_uuids : gset string }.
End CreateJob.

(** The collaborators of [CreateJob] beside those of [Externals]: the
    environment variables of a project and pipeline, the environments of a
    built pipeline, and the locking of the environment images of a job. *)
Record CreateJobExternals := mkCreateJobExternals {
  get_proj_pip_env_variables : string → string → gmap string string;
  get_environments : Pipeline.t → gset string;
  lock_environment_images_for_job : string → string → gset string → C unit }.

(** [db.session.add(models.Job(...))]: the row is keyed by its uuid; a second
    row with the uuid of an existing one is refused by the store when the unit
    of work is flushed.  The attributes the dictionary does not give take the
    defaults of the model: no last scheduled time, a run counter of 0. *)
Definition session_add_job (job : Job.t) : M unit :=
  λ db, match jobs db !! Job.uuid job with
        | Some _ => Raised (ExternalError "IntegrityError: duplicate key value")
        | None => Returned tt (set_jobs (<[Job.uuid job := job]> (jobs db)) db)
        end.

(** [now] is the clock read of the cron branch, [created_time] the one of the
    [created_time] attribute. *)
Definition CreateJob_transaction (E : Externals) (X : CreateJobExternals)
    (now created_time : datetime) (job_spec : JobSpec.t)
  : M (CreateJob.job * CreateJob.kwargs) :=
  let scheduled_start := JobSpec.scheduled_start job_spec in
  let cron_schedule := JobSpec.cron_schedule job_spec in
  next_scheduled_time <-
    match cron_schedule, scheduled_start with
    | None, None => ret None
    | None, Some scheduled_start =>
      time <- lift (fromisoformat E scheduled_start) ;;
      ret (Some time)
    | Some cron_schedule, None =>
      if negb (croniter_is_valid E cron_schedule) then
        raise (ValueError ("Invalid cron schedule: " +:+ cron_schedule))
      else ret (Some (croniter_get_next E cron_schedule now))
    | Some _, Some _ =>
      raise (ValueError "Can't define both cron_schedule and scheduled_start.")
    end ;;
  let job :=
    {| Job.uuid := JobSpec.uuid job_spec;
       Job.name := JobSpec.name job_spec;
       Job.project_uuid := JobSpec.project_uuid job_spec;
       Job.pipeline_uuid := JobSpec.pipeline_uuid job_spec;
       Job.schedule := cron_schedule;
       Job.parameters := JobSpec.parameters job_spec;
       Job.env_variables :=
         match JobSpec.env_variables job_spec with
         | None =>
           get_proj_pip_env_variables X (JobSpec.project_uuid job_spec)
             (JobSpec.pipeline_uuid job_spec)
         | Some env_variables => env_variables
         end;
       Job.pipeline_definition := JobSpec.pipeline_definition job_spec;
       Job.pipeline_run_spec := JobSpec.pipeline_run_spec job_spec;
       Job.status := "DRAFT";
       Job.next_scheduled_time := next_scheduled_time;
       Job.last_scheduled_time := None;
       Job.total_scheduled_executions := 0;
       Job.total_scheduled_pipeline_runs := 0;
       Job.max_retained_pipeline_runs :=
         default (-1) (JobSpec.max_retained_pipeline_runs job_spec);
       Job.strategy_json := default (JObj []) (JobSpec.strategy_json job_spec) |} in
  session_add_job job ;;
  let spec :=
    PipelineRunSpec.set_pipeline_definition (JobSpec.pipeline_definition job_spec)
      (JobSpec.pipeline_run_spec job_spec) in
  pipeline <- lift (construct_pipeline E spec) ;;
  ret (CreateJob.mkjob job (JobSpec.pipeline_name job_spec) created_time,
       CreateJob.mk (JobSpec.project_uuid job_spec) (JobSpec.uuid job_spec)
         (get_environments X pipeline)).

Definition CreateJob_collateral (X : CreateJobExternals) (kw : CreateJob.kwargs)
    (db : DB) : C unit :=
  lock_environment_images_for_job X (CreateJob.job_uuid kw) (CreateJob.project_uuid kw)
    (CreateJob.environment_uuids kw).

(** [Job.query.filter_by(uuid=job_uuid).delete()]. *)
Definition CreateJob_revert (kw : CreateJob.kwargs) (db : DB) : DB :=
  set_jobs (delete (CreateJob.job_uuid kw) (jobs db)) db.

(** [JobList.post]: the answer is the drafted job with 201, or the message of
    the exception with 500. *)
Definition JobList_post (E : Externals) (X : CreateJobExternals)
    (now created_time : datetime) (job_spec : JobSpec.t) (db : DB)
  : (string + CreateJob.job) * Z * DB * list effect :=
  let '(outcome, db', tr) :=
    TwoPhaseExecutor (CreateJob_transaction E X now created_time job_spec)
      (CreateJob_collateral X) CreateJob_revert db in
  match outcome with
  | inl e => (inl (str e), 500, db', tr)
  | inr job => (inr job, 201, db', tr)
  end.

(** ** NextScheduledJob *)

(** [ORDER BY next_scheduled_time] ascending, rows without a time last. *)
Definition scheduled_no_later (job job' : Job.t) : Prop :=
  match Job.next_scheduled_time job, Job.next_scheduled_time job' with
  | Some time, Some time' => time ≤ time'
  | Some _, None => True
  | None, Some _ => False
  | None, None => True
  end.

#[global] Instance scheduled_no_later_dec job job' : Decision (scheduled_no_later job job').
Proof.
  unfold scheduled_no_later.
  destruct (Job.next_scheduled_time job), (Job.next_scheduled_time job'); apply _.
Defined.

(** [NextScheduledJob.get]; [project_uuid] is the optional request argument.
    The answer holds the uuid and the time of the job, or two nulls. *)
Definition NextScheduledJob_get (project_uuid : option string) (db : DB)
  : option string * option datetime :=
  let next_job := (map_to_list (jobs db)).*2 in
  let next_job :=
    match project_uuid with
    | Some project_uuid => filter (λ job, Job.project_uuid job = project_uuid) next_job
    | None => next_job
    end in
  let next_job :=
    head (merge_sort scheduled_no_later
            (filter (λ job, Job.next_scheduled_time job ≠ None)
               (filter (λ job, Job.status job ≠ "DRAFT") next_job))) in
  match next_job with
  | Some next_job => (Some (Job.uuid next_job), Job.next_scheduled_time next_job)
  | None => (None, None)
  end.

(** Every row of the job table is keyed by its own uuid. *)
Definition well_keyed (db : DB) : Prop :=
  ∀ key job, jobs db !! key = Some job → Job.uuid job = key.

(** ** DeleteJob *)

Module DeleteJob.
Record kwargs := mk { project_uuid : option string }.
End DeleteJob.

(** [db.session.delete(job)] with the cascades the source names: the runs of
    the job go, and with them their steps. *)
Definition delete_job_row (job_uuid : string) (job : Job.t) (db : DB) : DB :=
  let runs :=
    NonInteractivePipelineRun.uuid <$>
      filter (λ run, NonInteractivePipelineRun.job_uuid run = Job.uuid job)
        (pipeline_runs db) in
  set_jobs (delete job_uuid (jobs db))
    (set_pipeline_run_steps
       (filter (λ step, PipelineRunStep.run_uuid step ∉ runs) (pipeline_run_steps db))
       (set_pipeline_runs
          (filter (λ run, NonInteractivePipelineRun.job_uuid run ≠ Job.uuid job)
             (pipeline_runs db))
          db)).

(** The transaction returns [False] or [True]; the collateral arguments are
    its own and those of the [AbortJob] it runs inside. *)
Definition DeleteJob_transaction (E : Externals) (job_uuid : string)
  : M (bool * (DeleteJob.kwargs * option AbortJob.kwargs)) :=
  db <- get_db ;;
  match jobs db !! job_uuid with
  | None => ret (false, (DeleteJob.mk None, None))
  | Some job =>
    aborted <- AbortJob_transaction E job_uuid ;;
    modify_db (delete_job_row job_uuid job) ;;
    ret (true, (DeleteJob.mk (Some (Job.project_uuid job)), Some aborted.2))
  end.



(** ** AbortJobPipelineRun and DeleteJobPipelineRun *)

(** [AbortPipelineRun] is the two-phase function of [namespace_runs]; its
    transaction, from a run uuid to whether the run could be aborted, is a
    parameter. *)
Definition AbortJobPipelineRun_transaction (E : Externals)
    (AbortPipelineRun : string → M bool) (job_uuid run_uuid : string)
  : M (bool * option UpdateJobPipelineRun.kwargs) :=
  could_abort <- AbortPipelineRun run_uuid ;;
  if negb could_abort then ret (false, None)
  else
    updated <- UpdateJobPipelineRun_transaction E job_uuid run_uuid
                 (StatusUpdate.mk "ABORTED" None None) ;;
    ret (true, Some updated.2).

(** [Query.one_or_none()] on the rows of a query. *)
Definition one_or_none {A} (rows : list A) : M (option A) :=
  match rows with
  | [] => ret None
  | [row] => ret (Some row)
  | _ :: _ :: _ => raise (ExternalError "MultipleResultsFound")
  end.

Definition DeleteJobPipelineRun_transaction (E : Externals)
    (AbortPipelineRun : string → M bool) (job_uuid run_uuid : string)
  : M (bool * option UpdateJobPipelineRun.kwargs) :=
  db <- get_db ;;
  if negb (bool_decide (is_Some (jobs db !! job_uuid))) then ret (false, None)
  else
    run <- one_or_none
             (filter (λ run, NonInteractivePipelineRun.uuid run = run_uuid)
                (pipeline_runs db)) ;;
    match run with
    | None => ret (false, None)
    | Some run =>
      aborted <- AbortJobPipelineRun_transaction E AbortPipelineRun job_uuid run_uuid ;;
      modify_db (delete_run_row (NonInteractivePipelineRun.uuid run)) ;;
      ret (true, aborted.2)
    end.

(** ** PipelineRunsList *)

(** [ORDER BY job_run_index DESC, job_run_pipeline_run_index DESC]. *)
Definition newer_first (run run' : NonInteractivePipelineRun.t) : Prop :=
  NonInteractivePipelineRun.job_run_index run'
  < NonInteractivePipelineRun.job_run_index run
  ∨ (NonInteractivePipelineRun.job_run_index run'
     = NonInteractivePipelineRun.job_run_index run
     ∧ NonInteractivePipelineRun.job_run_pipeline_run_index run'
       ≤ NonInteractivePipelineRun.job_run_pipeline_run_index run).

(** The page object of [Query.paginate]. *)
Module Pagination.
Record t := mk {
  items : list NonInteractivePipelineRun.t;
  page : Z;
  per_page : Z;
  total : nat }.
End Pagination.

(** [Query.paginate(page, per_page, False)]: the rows from offset
    [(page - 1) * per_page] on, at most [per_page] of them. *)
Definition paginate (page per_page : Z) (rows : list NonInteractivePipelineRun.t)
  : Pagination.t :=
  Pagination.mk
    (take (Z.to_nat per_page) (drop (Z.to_nat ((page - 1) * per_page)) rows))
    page per_page (length rows).

Inductive runs_response :=
| runs_400 (msg : string)
| runs_404 (msg : string)
| runs_200 (pipeline_runs : list NonInteractivePipelineRun.t)
    (pagination_data : option json).

(** [PipelineRunsList.get]; [page] and [page_size] are the parsed request
    arguments, [page_to_pagination_data] is the helper of [app.utils]. *)
Definition PipelineRunsList_get (page_to_pagination_data : Pagination.t → json)
    (page page_size : option Z) (job_uuid : string) (db : DB) : runs_response :=
  if bool_decide ((page ≠ None ∧ page_size = None) ∨ (page = None ∧ page_size ≠ None))
  then runs_400 "Either both page and page_size are defined or none of them."
  else if match page with Some page => bool_decide (page ≤ 0) | None => false end
  then runs_400 "page must be >= 1."
  else if match page_size with
          | Some page_size => bool_decide (page_size ≤ 0)
          | None => false
          end
  then runs_400 "page_size must be >= 1."
  else
    match jobs db !! job_uuid with
    | None => runs_404 "Job not found."
    | Some _ =>
      let job_runs_query :=
        merge_sort newer_first
          (filter (λ run, NonInteractivePipelineRun.job_uuid run = job_uuid)
             (pipeline_runs db)) in
      match page, page_size with
      | Some page, Some page_size =>
        let job_runs_pagination := paginate page page_size job_runs_query in
        runs_200 (Pagination.items job_runs_pagination)
          (Some (page_to_pagination_data job_runs_pagination))
      | _, _ => runs_200 job_runs_query None
      end
    end.

(** ** Stores for the examples of the other operations *)

Definition example_create_externals : CreateJobExternals :=
  {| get_proj_pip_env_variables := λ _ _, {[ "PROJECT" := "demo" ]};
     get_environments := λ _, {[ "env-1" ]};
     lock_environment_images_for_job := λ _ _ _, cret tt |}.

(** The same collaborators when the images cannot be locked. *)
Definition failing_image_lock : CreateJobExternals :=
  {| get_proj_pip_env_variables := get_proj_pip_env_variables example_create_externals;
     get_environments := get_environments example_create_externals;
     lock_environment_images_for_job := λ _ _ _,
       craise (ExternalError "could not lock the images") |}.

Definition example_job_spec (uuid : string) (scheduled_start cron_schedule : option string)
  : JobSpec.t :=
  {| JobSpec.uuid := uuid;
     JobSpec.name := "weekly report";
     JobSpec.project_uuid := "project-1";
     JobSpec.pipeline_uuid := "pipeline-1";
     JobSpec.pipeline_name := "report";
     JobSpec.scheduled_start := scheduled_start;
     JobSpec.cron_schedule := cron_schedule;
     JobSpec.parameters := [[]];
     JobSpec.env_variables := None;
     JobSpec.pipeline_definition := example_pipeline_def;
     JobSpec.pipeline_run_spec := PipelineRunSpec.mk None (RunConfig.mk JNull None None);
     JobSpec.strategy_json := None;
     JobSpec.max_retained_pipeline_runs := None |}.

(** [update_status_db] writes the status of the rows it is given; the columns
    that relate runs to jobs and steps to runs keep their values. *)
Definition update_keeps_keys (E : Externals) : Prop :=
  (∀ status_update filter_by rows,
     (λ run, (NonInteractivePipelineRun.uuid run, NonInteractivePipelineRun.job_uuid run))
       <$> update_status_db_runs E status_update filter_by rows
     = (λ run, (NonInteractivePipelineRun.uuid run, NonInteractivePipelineRun.job_uuid run))
         <$> rows)
  ∧ (∀ status_update filter_by rows,
       PipelineRunStep.run_uuid <$> update_status_db_steps E status_update filter_by rows
       = PipelineRunStep.run_uuid <$> rows).

(** Two jobs, the first with a finished and a running run and their steps, the
    second with one run and its step. *)
Definition run_of (job_uuid uuid status : string) (pipeline_run_index : Z)
  : NonInteractivePipelineRun.t :=
  {| NonInteractivePipelineRun.job_uuid := job_uuid;
     NonInteractivePipelineRun.uuid := uuid;
     NonInteractivePipelineRun.pipeline_uuid := "pipeline-1";
     NonInteractivePipelineRun.project_uuid := "project-1";
     NonInteractivePipelineRun.status := status;
     NonInteractivePipelineRun.parameters := [];
     NonInteractivePipelineRun.job_run_index := 0;
     NonInteractivePipelineRun.job_run_pipeline_run_index := pipeline_run_index;
     NonInteractivePipelineRun.pipeline_run_index := pipeline_run_index;
     NonInteractivePipelineRun.env_variables := ∅ |}.

Definition job_named (uuid status : string) : Job.t :=
  {| Job.uuid := uuid;
     Job.name := "nightly";
     Job.project_uuid := "project-1";
     Job.pipeline_uuid := "pipeline-1";
     Job.schedule := None;
     Job.parameters := [[]; []];
     Job.env_variables := ∅;
     Job.pipeline_definition := example_pipeline_def;
     Job.pipeline_run_spec := PipelineRunSpec.mk None (RunConfig.mk JNull None None);
     Job.status := status;
     Job.next_scheduled_time := None;
     Job.last_scheduled_time := None;
     Job.total_scheduled_executions := 1;
     Job.total_scheduled_pipeline_runs := 2;
     Job.max_retained_pipeline_runs := -1;
     Job.strategy_json := JObj [] |}.

Definition db_two_jobs : DB :=
  mkDB {[ "job-1" := job_named "job-1" "STARTED"; "job-2" := job_named "job-2" "STARTED" ]}
    [run_of "job-1" "run-a" "SUCCESS" 0; run_of "job-2" "run-x" "STARTED" 0;
     run_of "job-1" "run-b" "STARTED" 1]
    [PipelineRunStep.mk "run-a" "step-1" "SUCCESS";
     PipelineRunStep.mk "run-x" "step-1" "STARTED";
     PipelineRunStep.mk "run-b" "step-1" "STARTED"]
    [].

(** The step rows [RunJob] stores for one task: one PENDING row per step of
    its pipeline. *)
Definition pending_steps (task : string * Pipeline.t) : list PipelineRunStep.t :=
  (λ step_uuid, PipelineRunStep.mk task.1 step_uuid "PENDING") <$> Pipeline.steps task.2.

(** The pipeline of a task is the one built from the job's definition with one
    parameter set. *)
Definition built_from (E : Externals) (job : Job.t)
    (run_parameters : list (string * json)) (task : string * Pipeline.t) : Prop :=
  ∃ pipeline_def,
    run_pipeline_def E job run_parameters = inr pipeline_def
    ∧ construct_pipeline E
        (PipelineRunSpec.set_pipeline_definition pipeline_def (Job.pipeline_run_spec job))
      = inr task.2.

(** The rows of one page of [PipelineRunsList.get], and the rows of the
    request without pagination. *)
Definition page_rows (page_to_pagination_data : Pagination.t → json)
    (page page_size : option Z) (job_uuid : string) (db : DB)
  : list NonInteractivePipelineRun.t :=
  match PipelineRunsList_get page_to_pagination_data page page_size job_uuid db with
  | runs_200 pipeline_runs _ => pipeline_runs
  | _ => []
  end.

(** A job with a parameter for its step, in a store that holds image mappings
    of two jobs; the environment of the job was mapped twice. *)
Definition db_with_image_mappings : DB :=
  mkDB {[ "job-1" := example_job "PENDING" None [[("step-1", JNum 7)]] 0 0 (-1) ]}
    [] []
    [JobImageMapping.mk "job-1" "env-1" "image-a";
     JobImageMapping.mk "job-2" "env-1" "image-x";
     JobImageMapping.mk "job-1" "env-1" "image-b"].

(** * Image builds: [core/image_utils.py] *)

(** ** Strings *)

(** [s.startswith(prefix)] and [s.endswith(suffix)]. *)
Definition startswith (s prefix : string) : bool := String.prefix prefix s.
Definition endswith (s suffix : string) : bool :=
  bool_decide (String.list_ascii_of_string suffix `suffix_of` String.list_ascii_of_string s).

(** [s.split(":")[0]]: the part of [s] before its first colon, all of [s]
    when it has none. *)
Fixpoint before_colon (s : string) : string :=
  match s with
  | EmptyString => EmptyString
  | String c rest =>
    if bool_decide (String c EmptyString = ":") then EmptyString
    else String c (before_colon rest)
  end.

(** ** Collaborators and state *)

(** The exceptions of a build: the two of [app.errors] that [build_image]
    catches, the one the storing loop catches, and whatever else a call to the
    cluster raises. *)
Inductive build_exn :=
| ImageBuildFailedError
| ImageCachingFailedError
| PodNeverReachedExpectedStatusError
| ClusterError (msg : string).

Module BuildContext.
Record t := mk {
  snapshot_path : string;
  dockerfile_path : string;
  base_image : string }.
End BuildContext.

(** The arguments [_get_buildkit_image_build_workflow_manifest] is called
    with; the workflow that is created is the manifest of these arguments. *)
Module Workflow.
Record t := mk {
  workflow_name : string;
  image_name : string;
  image_tag : string;
  build_context_host_path : string;
  dockerfile_path : string;
  cache_key : string }.
End Workflow.

(** What lives outside of the file: the environment, the configuration, the
    [re] module and the cluster.  [runtime_regex_match event] is the length of
    [runtime_regex.match(event).group()] when the expression matches;
    [pod_log pod_name] is the sequence of events the log stream of the pod
    yields; [wait_for_stored pod_name n] is the outcome of the [n]-th call of
    [wait_for_pod_status] in the storing loop, [None] when the pod has reached
    one of the expected statuses. *)
Record BuildExternals := mkBuildExternals {
  IS_DEV : bool;
  BUILD_IMAGE_LOG_FLAG : string;
  BUILD_IMAGE_ERROR_FLAG : string;
  runtime_regex_match : string → option nat;
  create_workflow_outcome : Workflow.t → option build_exn;
  wait_for_started : string → option build_exn;
  pod_log : string → list string;
  pod_phase : string → build_exn + string;
  wait_for_stored : string → nat → option build_exn;
  str_build_exn : build_exn → string }.

(** The two log files, each as the sequence of the strings written to it, and
    the workflows whose creation has been asked of the cluster. *)
Module Build.
Record state := mk {
  user_logs : list string;
  all_logs : list string;
  workflows : list Workflow.t }.
Definition write_user (msg : string) (st : state) : state :=
  mk (user_logs st ++ [msg]) (all_logs st) (workflows st).
Definition write_all (msg : string) (st : state) : state :=
  mk (user_logs st) (all_logs st ++ [msg]) (workflows st).
Definition add_workflow (w : Workflow.t) (st : state) : state :=
  mk (user_logs st) (all_logs st) (workflows st ++ [w]).
End Build.

(** [_log(user_logs, all_logs, msg, newline)]; [writelines([msg, "\n"])]
    writes the two strings one after the other. *)
Definition _log (msg : string) (newline_after : bool) (st : Build.state) : Build.state :=
  if newline_after then
    Build.write_all newline (Build.write_all msg
      (Build.write_user newline (Build.write_user msg st)))
  else Build.write_all msg (Build.write_user msg st).

(** ** The loop over the log of the build pod *)

Module LogFilter.
Record state := mk {
  flags_count : nat;
  found_error_flag : bool;
  logs : Build.state }.
End LogFilter.

(** One iteration of [for event in w.stream(...)]: the state after it, and
    whether the loop goes on ([true]) or was left with [break] ([false]). *)
Definition on_event (B : BuildExternals) (st : LogFilter.state) (event : string)
  : LogFilter.state * bool :=
  if IS_DEV B then
    (LogFilter.mk (LogFilter.flags_count st) (LogFilter.found_error_flag st)
       (_log event true (LogFilter.logs st)), true)
  else
    let found_error_flag := endswith event (BUILD_IMAGE_ERROR_FLAG B) in
    if found_error_flag then
      (LogFilter.mk (LogFilter.flags_count st) found_error_flag (LogFilter.logs st), false)
    else if startswith event "#" && endswith event "CACHED" then
      (LogFilter.mk (LogFilter.flags_count st) found_error_flag
         (_log "Found cached layer." true (LogFilter.logs st)), true)
    else if endswith event (BUILD_IMAGE_LOG_FLAG B) then
      let flags_count := S (LogFilter.flags_count st) in
      (LogFilter.mk flags_count found_error_flag (LogFilter.logs st),
       negb (bool_decide (flags_count = 2%nat)))
    else if bool_decide (LogFilter.flags_count st = 0%nat) then
      (LogFilter.mk (LogFilter.flags_count st) found_error_flag (LogFilter.logs st), true)
    else
      let event :=
        match runtime_regex_match B event with
        | Some matched =>
          String.string_of_list_ascii (drop matched (String.list_ascii_of_string event))
        | None => event
        end in
      (LogFilter.mk (LogFilter.flags_count st) found_error_flag
         (_log event true (LogFilter.logs st)), true).

Fixpoint follow_log (B : BuildExternals) (st : LogFilter.state) (events : list string)
  : LogFilter.state :=
  match events with
  | [] => st
  | event :: rest =>
    let '(st, go_on) := on_event B st event in
    if go_on then follow_log B st rest else st
  end.

(** ** The storing loop *)

(** [while not done]: the [attempt]-th wait either reaches the status (a line
    feed goes to the user logs and the loop ends), never reaches it (a dot goes
    to the user logs), or raises something else.  [None] when the loop has not
    ended within [fuel] iterations. *)
Fixpoint storing_loop (B : BuildExternals) (pod_name : string) (fuel attempt : nat)
    (st : Build.state) : option (Build.state * (build_exn + unit)) :=
  match fuel with
  | O => None
  | S fuel =>
    match wait_for_stored B pod_name attempt with
    | None => Some (Build.write_user newline st, inr tt)
    | Some PodNeverReachedExpectedStatusError =>
      storing_loop B pod_name fuel (S attempt) (Build.write_user "." st)
    | Some e => Some (st, inl e)
    end
  end.

(** ** [_build_image] and [build_image] *)

Definition _build_image (B : BuildExternals) (fuel : nat)
    (task_uuid image_name image_tag : string) (build_context : BuildContext.t)
    (st : Build.state) : option (Build.state * (build_exn + unit)) :=
  let pod_name := "image-build-task-" +:+ task_uuid in
  let manifest :=
    Workflow.mk pod_name image_name image_tag
      (BuildContext.snapshot_path build_context)
      (BuildContext.dockerfile_path build_context)
      (before_colon (BuildContext.base_image build_context)) in
  let st :=
    if IS_DEV B then _log "Running in DEV mode, logs won't be filtered." false st
    else st in
  let st := _log ("Starting worker..." +:+ newline) false st in
  let st := Build.add_workflow manifest st in
  match create_workflow_outcome B manifest with
  | Some e => Some (st, inl e)
  | None =>
    match wait_for_started B pod_name with
    | Some e => Some (st, inl e)
    | None =>
      let st := _log "Building image..." true st in
      let followed := follow_log B (LogFilter.mk 0 false st) (pod_log B pod_name) in
      let st := LogFilter.logs followed in
      match pod_phase B pod_name with
      | inl e => Some (st, inl e)
      | inr phase =>
        if LogFilter.found_error_flag followed || bool_decide (phase = "Failed") then
          let msg :=
            "There was a problem building the image. The building script had a non 0 "
            +:+ "exit code, build failed." +:+ newline in
          Some (_log msg false st, inl ImageBuildFailedError)
        else
          let st := _log "Storing image..." false st in
          match storing_loop B pod_name fuel 0 st with
          | None => None
          | Some (st, inl e) => Some (st, inl e)
          | Some (st, inr _) => Some (_log "Done!" false st, inr tt)
          end
      end
    end
  end.

(** The value [build_image] returns: the string "FAILURE" when it catches one
    of the two exceptions of a failed build, the string "SUCCESS" when
    [_build_image] returns; an exception it does not catch is raised. *)
Definition build_image (B : BuildExternals) (fuel : nat)
    (task_uuid image_name image_tag : string) (build_context : BuildContext.t)
    (user_logs : list string)
  : option (Build.state * (build_exn + string)) :=
  let st := Build.mk user_logs [] [] in
  match _build_image B fuel task_uuid image_name image_tag build_context st with
  | None => None
  | Some (st, inr _) => Some (st, inr "SUCCESS")
  | Some (st, inl e) =>
    match e with
    | ImageCachingFailedError | ImageBuildFailedError =>
      Some (Build.write_all (str_build_exn B e) st, inr "FAILURE")
    | _ => Some (st, inl e)
    end
  end.

(** The events [_build_image] reports as a cached layer, and the events it
    counts as a flag of the build script. *)
Definition cached_layer (event : string) : bool :=
  startswith event "#" && endswith event "CACHED".
Definition flag_line (B : BuildExternals) (event : string) : bool :=
  negb (cached_layer event) && endswith event (BUILD_IMAGE_LOG_FLAG B).

(** An event as it is written to the logs once the script output has started:
    without the runtime prefix of buildkit. *)
Definition without_runtime (B : BuildExternals) (event : string) : string :=
  match runtime_regex_match B event with
  | Some matched =>
    String.string_of_list_ascii (drop matched (String.list_ascii_of_string event))
  | None => event
  end.

(** What the loop writes for an event that does not end with the error flag,
    when [flags_count] flags have been seen before it: nothing for a flag, and
    nothing but the notice of a cached layer before the first flag. *)
Definition written_for (B : BuildExternals) (flags_count : nat) (event : string)
  : option string :=
  if cached_layer event then Some "Found cached layer."
  else if endswith event (BUILD_IMAGE_LOG_FLAG B) then None
  else if bool_decide (flags_count = 0%nat) then None
  else Some (without_runtime B event).

(** The lines [lines] written one after the other with [_log(..., True)]. *)
Definition log_lines (lines : list string) (st : Build.state) : Build.state :=
  foldl (λ st line, _log line true st) st lines.

(** What is shown of an event of the script output: the notice for a cached
    layer, the event without its runtime prefix otherwise. *)
Definition shown (B : BuildExternals) (event : string) : string :=
  if cached_layer event then "Found cached layer." else without_runtime B event.

(** The complete logs hold what this build has written to the user logs, which
    started as [user_logs]. *)
Definition logs_agree (user_logs : list string) (st : Build.state) : Prop :=
  Build.user_logs st = user_logs ++ Build.all_logs st.

(** A build whose cluster calls do not fail: the workflow is created, the pod
    starts, its phase can be read, and each wait of the storing loop either
    reaches the status or times out. *)
Definition cluster_answers (B : BuildExternals) (task_uuid : string) : Prop :=
  (∀ manifest, create_workflow_outcome B manifest = None)
  ∧ wait_for_started B ("image-build-task-" +:+ task_uuid) = None
  ∧ (∃ phase, pod_phase B ("image-build-task-" +:+ task_uuid) = inr phase)
  ∧ ∀ attempt,
      wait_for_stored B ("image-build-task-" +:+ task_uuid) attempt = None
      ∨ wait_for_stored B ("image-build-task-" +:+ task_uuid) attempt
        = Some PodNeverReachedExpectedStatusError.

(** Collaborators for the examples: the two flags, a runtime expression that
    matches the prefix of the events of step 7, a cluster that answers, a pod
    with the log and the phase given, and a storing that is reached at the
    third wait. *)
Definition example_build (is_dev : bool) (phase : string) (log : list string)
  : BuildExternals :=
  {| IS_DEV := is_dev;
     BUILD_IMAGE_LOG_FLAG := "_ORCHEST_RESERVED_LOG_FLAG_";
     BUILD_IMAGE_ERROR_FLAG := "_ORCHEST_RESERVED_ERROR_FLAG_";
     runtime_regex_match := λ event, if startswith event "#7 0.1 " then Some 7%nat else None;
     create_workflow_outcome := λ _, None;
     wait_for_started := λ _, None;
     pod_log := λ _, log;
     pod_phase := λ _, inr phase;
     wait_for_stored := λ _ attempt,
       if bool_decide (attempt < 2)%nat then Some PodNeverReachedExpectedStatusError
       else None;
     str_build_exn := λ _, EmptyString |}.

Definition example_build_context : BuildContext.t :=
  BuildContext.mk "/snapshot" "Dockerfile" "orchest/base-kernel-py:v2022.05.3".

(** * Environment images: [apis/namespace_environment_images.py] *)

(** The columns of [models.EnvironmentImage] the endpoints read. *)
Module EnvironmentImage.
Record t := mk {
  project_uuid : string;
  environment_uuid : string;
  tag : Z }.
End EnvironmentImage.

(** [ORDER BY tag DESC]. *)
Definition greater_tag_first (image image' : EnvironmentImage.t) : Prop :=
  EnvironmentImage.tag image' ≤ EnvironmentImage.tag image.

#[global] Instance greater_tag_first_dec image image' :
  Decision (greater_tag_first image image').
Proof. unfold greater_tag_first. apply _. Defined.

(** [LatestProjectEnvironmentEnvironmentImage.get]: the image, or the message
    and the code of [abort]. *)
Definition LatestProjectEnvironmentEnvironmentImage_get
    (project_uuid environment_uuid : string) (images : list EnvironmentImage.t)
  : string * Z + EnvironmentImage.t :=
  let env_image :=
    head (merge_sort greater_tag_first
            (filter (λ image, EnvironmentImage.project_uuid image = project_uuid
                              ∧ EnvironmentImage.environment_uuid image = environment_uuid)
               images)) in
  match env_image with
  | None => inl ("No image for for this environment.", 404)
  | Some env_image => inr env_image
  end.

(** The query of [LatestEnvironmentImage.get] and of
    [EnvironmentImagesToPrePull.get]: one row per project and environment, with
    the maximum of the tags of the group.  The groups come in the order of
    their first row; the query leaves the order open. *)
Definition latest_env_images (images : list EnvironmentImage.t)
  : list (string * string * Z) :=
  omap (λ group : string * string,
          match EnvironmentImage.tag
                  <$> filter (λ image, EnvironmentImage.project_uuid image = group.1
                                       ∧ EnvironmentImage.environment_uuid image = group.2)
                        images with
          | [] => None
          | tag :: tags => Some (group.1, group.2, foldr Z.max tag tags)
          end)
       (remove_dups ((λ image, (EnvironmentImage.project_uuid image,
                                EnvironmentImage.environment_uuid image)) <$> images)).

(** [EnvironmentImagesToPrePull.get]; [ENVIRONMENT_IMAGE_NAME project_uuid
    environment_uuid] is the configured name with the two uuids filled in,
    [registry_ip] the cluster address of the registry service. *)
Definition EnvironmentImagesToPrePull_get
    (ENVIRONMENT_IMAGE_NAME : string → string → string) (registry_ip : string)
    (images : list EnvironmentImage.t) : list string :=
  (λ img : string * string * Z,
     let image := ENVIRONMENT_IMAGE_NAME img.1.1 img.1.2 +:+ ":" +:+ pretty img.2 in
     registry_ip +:+ "/" +:+ image) <$> latest_env_images images.

Definition example_images : list EnvironmentImage.t :=
  [EnvironmentImage.mk "project-1" "env-1" 1; EnvironmentImage.mk "project-1" "env-2" 4;
   EnvironmentImage.mk "project-1" "env-1" 3; EnvironmentImage.mk "project-2" "env-1" 2].

(** * Properties *)

(** ** The collateral monad *)

Lemma cbind_emit {B} (e : effect) (k : unit → C B) :
  cbind (emit e) k = (e :: (k tt).1, (k tt).2).
Proof. unfold cbind, emit. destruct (k tt) as [tr r]. reflexivity. Qed.

Lemma cbind_returns {A B} (c : C A) (k : A → C B) tr a :
  c = (tr, inr a) → cbind c k = (tr ++ (k a).1, (k a).2).
Proof. intros ->. unfold cbind. destruct (k a) as [tr' r]. reflexivity. Qed.

Lemma deletion_requests_app tr tr' :
  deletion_requests (tr ++ tr') = deletion_requests tr ++ deletion_requests tr'.
Proof. unfold deletion_requests. apply omap_app. Qed.

(** ** The retention pruner *)

Lemma runs_to_be_deleted_selected job_uuid job db :
  runs_to_be_deleted job_uuid job db
  = NonInteractivePipelineRun.uuid <$> selected_runs job_uuid job db.
Proof. reflexivity. Qed.

(** One iteration of the deletion loop when the webserver answers: the request
    goes out, the outcome is logged, the iteration returns. *)
Lemma delete_run_responded E job_uuid run_uuid status_code :
  requests_delete_outcome E (cleanup_url E job_uuid run_uuid) = Response status_code →
  delete_run E job_uuid run_uuid
  = ([log_info ("Deleting run " +:+ run_uuid +:+ ".");
      http_delete (cleanup_url E job_uuid run_uuid);
      if bool_decide (status_code ∈ [200; 404])
      then log_info ("Successfully deleted run " +:+ run_uuid +:+ ".")
      else log_error ("Unexpected status code (" +:+ pretty status_code
                      +:+ ") while deleting run " +:+ run_uuid +:+ ".")],
     inr tt).
Proof.
  intros Hresp. unfold delete_run, requests_delete.
  fold (cleanup_url E job_uuid run_uuid). rewrite Hresp.
  rewrite cbind_emit. cbn.
  destruct (decide (status_code ∈ [200; 404])) as [Hin | Hout].
  - rewrite (bool_decide_eq_false_2 (status_code ∉ [200; 404])) by tauto.
    rewrite (bool_decide_eq_true_2 _ Hin). reflexivity.
  - rewrite (bool_decide_eq_true_2 (status_code ∉ [200; 404])) by done.
    rewrite (bool_decide_eq_false_2 _ Hout). reflexivity.
Qed.

(** One iteration when the call itself raises: the exception leaves the
    iteration. *)
Lemma delete_run_no_response E job_uuid run_uuid msg :
  requests_delete_outcome E (cleanup_url E job_uuid run_uuid) = NoResponse msg →
  delete_run E job_uuid run_uuid
  = ([log_info ("Deleting run " +:+ run_uuid +:+ ".");
      http_delete (cleanup_url E job_uuid run_uuid)],
     inl (RequestException msg)).
Proof.
  intros Hresp. unfold delete_run, requests_delete.
  fold (cleanup_url E job_uuid run_uuid). rewrite Hresp. reflexivity.
Qed.

(** The whole loop under a webserver that answers: it returns, and it has
    requested the deletion of the selected runs, one by one, in their order. *)
Lemma deletion_loop_responded E job_uuid run_uuids :
  always_responds E →
  (cfor run_uuids (delete_run E job_uuid)).2 = inr tt
  ∧ deletion_requests (cfor run_uuids (delete_run E job_uuid)).1
    = cleanup_url E job_uuid <$> run_uuids.
Proof.
  intros Hresp. induction run_uuids as [| run_uuid rest [IHr IHt]]; [done |].
  destruct (Hresp (cleanup_url E job_uuid run_uuid)) as [code Hcode].
  cbn [cfor].
  rewrite (cbind_returns _ _ _ _ (delete_run_responded _ _ _ _ Hcode)).
  cbn [fst snd]. split; [exact IHr |].
  rewrite deletion_requests_app, IHt. cbn [fmap list_fmap].
  destruct (bool_decide (code ∈ [200; 404])); reflexivity.
Qed.

Lemma pruner_unfold E job_uuid job db :
  jobs db !! job_uuid = Some job →
  _delete_non_retained_pipeline_runs E job_uuid db
  = cbind (emit (log_info ("Deleting non retained runs for job " +:+ job_uuid
                          +:+ ", max retained pipeline runs: "
                          +:+ pretty (Job.max_retained_pipeline_runs job) +:+ ".")))
      (λ _, if bool_decide (Job.max_retained_pipeline_runs job < 0)
            then emit (log_info "Nothing to do.")
            else cfor (runs_to_be_deleted job_uuid job db) (delete_run E job_uuid)).
Proof. intros Hjob. unfold _delete_non_retained_pipeline_runs. rewrite Hjob. reflexivity. Qed.

(** Under a webserver that answers, pruning returns and its deletion requests
    are those of the selected runs (none when retention is unlimited). *)
Lemma pruner_responded E job_uuid job db :
  always_responds E →
  jobs db !! job_uuid = Some job →
  (_delete_non_retained_pipeline_runs E job_uuid db).2 = inr tt
  ∧ deletion_requests (_delete_non_retained_pipeline_runs E job_uuid db).1
    = if bool_decide (Job.max_retained_pipeline_runs job < 0) then []
      else cleanup_url E job_uuid <$> runs_to_be_deleted job_uuid job db.
Proof.
  intros Hresp Hjob. rewrite (pruner_unfold _ _ _ _ Hjob), cbind_emit.
  case_bool_decide; [done |].
  destruct (deletion_loop_responded E job_uuid (runs_to_be_deleted job_uuid job db) Hresp)
    as [Hr Ht].
  cbn [fst snd]. split; [exact Hr | exact Ht].
Qed.

Lemma selected_runs_spec job_uuid job db run :
  run ∈ selected_runs job_uuid job db
  ↔ run ∈ pipeline_runs db
    ∧ NonInteractivePipelineRun.job_uuid run = job_uuid
    ∧ NonInteractivePipelineRun.status run ∈ ["SUCCESS"; "FAILURE"; "ABORTED"]
    ∧ NonInteractivePipelineRun.pipeline_run_index run
      ≤ (Job.total_scheduled_pipeline_runs job - 1) - Job.max_retained_pipeline_runs job.
Proof. unfold selected_runs. rewrite list_elem_of_filter. tauto. Qed.

(** C4. Retention pruning is a no-op when [max_retained_pipeline_runs < 0];
    otherwise it requests the deletion of exactly the runs of the job that are
    in an end state and whose [pipeline_run_index] is at most
    [(total_scheduled_pipeline_runs - 1) - max_retained_pipeline_runs].  With
    two retained runs and five completed runs of indices 0 to 4, the first
    three are deleted and the last two are not. *)
Theorem retention_pruning_selection E job_uuid job db :
  always_responds E →
  jobs db !! job_uuid = Some job →
  let pruned := _delete_non_retained_pipeline_runs E job_uuid db in
  pruned.2 = inr tt
  ∧ deletion_requests pruned.1
    = (if bool_decide (Job.max_retained_pipeline_runs job < 0) then []
       else cleanup_url E job_uuid
              <$> (NonInteractivePipelineRun.uuid <$> selected_runs job_uuid job db))
  ∧ (∀ run,
       run ∈ selected_runs job_uuid job db
       ↔ run ∈ pipeline_runs db
         ∧ NonInteractivePipelineRun.job_uuid run = job_uuid
         ∧ NonInteractivePipelineRun.status run ∈ ["SUCCESS"; "FAILURE"; "ABORTED"]
         ∧ NonInteractivePipelineRun.pipeline_run_index run
           ≤ (Job.total_scheduled_pipeline_runs job - 1)
             - Job.max_retained_pipeline_runs job)
  ∧ (Job.max_retained_pipeline_runs job = 2 →
     Job.total_scheduled_pipeline_runs job = 5 →
     Forall (λ run, NonInteractivePipelineRun.job_uuid run = job_uuid
                    ∧ NonInteractivePipelineRun.status run
                      ∈ ["SUCCESS"; "FAILURE"; "ABORTED"]) (pipeline_runs db) →
     NonInteractivePipelineRun.pipeline_run_index <$> pipeline_runs db = [0; 1; 2; 3; 4] →
     deletion_requests pruned.1
     = cleanup_url E job_uuid
         <$> (NonInteractivePipelineRun.uuid <$> take 3 (pipeline_runs db))).
Proof.
  intros Hresp Hjob pruned.
  destruct (pruner_responded E job_uuid job db Hresp Hjob) as [Hret Hreq].
  fold pruned in Hret, Hreq. rewrite runs_to_be_deleted_selected in Hreq.
  split; [exact Hret |]. split; [exact Hreq |].
  split; [intros run; apply selected_runs_spec |].
  intros Hmax Htotal Hall Hidx. rewrite Hreq.
  rewrite bool_decide_eq_false_2 by lia.
  do 2 f_equal. unfold selected_runs. rewrite Hmax, Htotal.
  destruct (pipeline_runs db) as [| r0 [| r1 [| r2 [| r3 [| r4 [| r5 rest]]]]]];
    try discriminate Hidx.
  cbn in Hidx. injection Hidx as H0 H1 H2 H3 H4.
  repeat match goal with
         | H : Forall _ (_ :: _) |- _ => apply Forall_cons in H; destruct H as [[? ?] H]
         end.
  rewrite !filter_cons, filter_nil.
  repeat case_decide; try reflexivity;
    repeat match goal with
           | H : ¬ (_ ∧ _ ∧ _) |- _ => exfalso; apply H; repeat split; [done | done | lia]
           | H : _ ∧ _ ∧ _ |- _ => destruct H as (_ & _ & ?); lia
           end.
Qed.

Lemma retention_pruning_selection_witness :
  deletion_requests
    (_delete_non_retained_pipeline_runs example_externals "job-1"
       (example_db job_retaining_two five_completed_runs)).1
  = cleanup_url example_externals "job-1" <$> ["run-0"; "run-1"; "run-2"].
Proof.
  assert (Hresp : always_responds example_externals)
    by (intros url; exists 200; reflexivity).
  assert (Hjob : jobs (example_db job_retaining_two five_completed_runs) !! "job-1"
                 = Some job_retaining_two) by (vm_compute; reflexivity).
  destruct (retention_pruning_selection example_externals "job-1" job_retaining_two
              (example_db job_retaining_two five_completed_runs) Hresp Hjob)
    as (_ & _ & _ & Hfive).
  rewrite Hfive; [reflexivity | reflexivity | reflexivity | | reflexivity].
  repeat constructor; vm_compute; tauto.
Defined.

(** C5, as amended. Within one pruning invocation the deletion requests follow
    the order in which the store returns the selected rows, which the query
    leaves open; no run beyond the threshold is requested; and the selection is
    closed downwards among the runs of the job in an end state: when a run is
    selected, every such run of a lower or equal index is selected by the same
    invocation. *)
Theorem pruning_order_of_deletions E job_uuid job db :
  always_responds E →
  jobs db !! job_uuid = Some job →
  let pruned := _delete_non_retained_pipeline_runs E job_uuid db in
  deletion_requests pruned.1
  = (if bool_decide (Job.max_retained_pipeline_runs job < 0) then []
     else cleanup_url E job_uuid
            <$> (NonInteractivePipelineRun.uuid <$> selected_runs job_uuid job db))
  ∧ selected_runs job_uuid job db `sublist_of` pipeline_runs db
  ∧ (∀ run, run ∈ selected_runs job_uuid job db →
       NonInteractivePipelineRun.pipeline_run_index run
       ≤ (Job.total_scheduled_pipeline_runs job - 1) - Job.max_retained_pipeline_runs job)
  ∧ (∀ run run',
       run ∈ selected_runs job_uuid job db →
       run' ∈ pipeline_runs db →
       NonInteractivePipelineRun.job_uuid run' = job_uuid →
       NonInteractivePipelineRun.status run' ∈ ["SUCCESS"; "FAILURE"; "ABORTED"] →
       NonInteractivePipelineRun.pipeline_run_index run'
       ≤ NonInteractivePipelineRun.pipeline_run_index run →
       run' ∈ selected_runs job_uuid job db).
Proof.
  intros Hresp Hjob pruned.
  destruct (pruner_responded E job_uuid job db Hresp Hjob) as [_ Hreq].
  fold pruned in Hreq. rewrite runs_to_be_deleted_selected in Hreq.
  split; [exact Hreq |].
  split; [apply sublist_filter |].
  split.
  - intros run Hrun. apply selected_runs_spec in Hrun. tauto.
  - intros run run' Hrun Hin' Hjob' Hend' Hle.
    apply selected_runs_spec in Hrun as (_ & _ & _ & Hidx).
    apply selected_runs_spec. repeat split; [done | done | done | lia].
Qed.

Lemma pruning_order_of_deletions_witness :
  deletion_requests
    (_delete_non_retained_pipeline_runs example_externals "job-1" db_out_of_order).1
  = cleanup_url example_externals "job-1"
      <$> (NonInteractivePipelineRun.uuid
             <$> selected_runs "job-1"
                   (example_job "STARTED" (Some "0 * * * *") [[]] 2 2 0) db_out_of_order).
Proof.
  assert (Hresp : always_responds example_externals)
    by (intros url; exists 200; reflexivity).
  refine (proj1 (pruning_order_of_deletions example_externals "job-1"
                   (example_job "STARTED" (Some "0 * * * *") [[]] 2 2 0)
                   db_out_of_order Hresp _)).
  vm_compute. reflexivity.
Defined.

(** The store returns the run of index 1 before the run of index 0: the request
    for index 1 goes out first. *)
Lemma deletions_out_of_index_order :
  ¬ deletes_in_ascending_index_order example_externals "job-1" db_out_of_order.
Proof.
  intros Hasc.
  specialize (Hasc 0%nat 1%nat (example_run "run-b" "SUCCESS" 1)
                (example_run "run-a" "SUCCESS" 0)).
  assert (Hlt : 1 < 0); [| lia].
  apply Hasc.
  - apply list_elem_of_here.
  - apply list_elem_of_further, list_elem_of_here.
  - vm_compute. reflexivity.
  - vm_compute. reflexivity.
  - lia.
Qed.

(** The dispatch loop of [RunJob._collateral]. *)
Lemma RunJob_collateral_unfold E kw db job run_config task tasks :
  RunJob.job kw = Some job →
  RunJob.run_config kw = Some run_config →
  RunJob.tasks_to_launch kw = task :: tasks →
  RunJob_collateral E kw db
  = cbind (_delete_non_retained_pipeline_runs E (Job.uuid job) db)
      (λ _, cfor (task :: tasks)
              (launch_task E (Job.uuid job) (Job.project_uuid job) run_config)).
Proof.
  intros Hjob Hconfig Htasks. unfold RunJob_collateral.
  rewrite Hjob, Hconfig, Htasks. reflexivity.
Qed.

(** C9, as amended. Whatever status code the deletion call answers with, the
    iteration returns: 200 and 404 are logged as a success and every other code
    as an error.  Under a webserver that answers, pruning an existing job
    returns, [RunJob._collateral] goes on to dispatch its tasks and ends as the
    dispatch ends, and [UpdateJobPipelineRun._collateral] ends as its
    stale-image step ends.  An exception raised by the call itself (no
    response) is not covered. *)
Theorem pruning_call_failures_swallowed E :
  always_responds E →
  (∀ job_uuid run_uuid status_code,
     requests_delete_outcome E (cleanup_url E job_uuid run_uuid) = Response status_code →
     delete_run E job_uuid run_uuid
     = ([log_info ("Deleting run " +:+ run_uuid +:+ ".");
         http_delete (cleanup_url E job_uuid run_uuid);
         if bool_decide (status_code ∈ [200; 404])
         then log_info ("Successfully deleted run " +:+ run_uuid +:+ ".")
         else log_error ("Unexpected status code (" +:+ pretty status_code
                         +:+ ") while deleting run " +:+ run_uuid +:+ ".")],
        inr tt))
  ∧ (∀ job_uuid job db,
       jobs db !! job_uuid = Some job →
       (_delete_non_retained_pipeline_runs E job_uuid db).2 = inr tt)
  ∧ (∀ kw db job job' run_config task tasks,
       RunJob.job kw = Some job →
       RunJob.run_config kw = Some run_config →
       RunJob.tasks_to_launch kw = task :: tasks →
       jobs db !! Job.uuid job = Some job' →
       let dispatch :=
         cfor (task :: tasks)
           (launch_task E (Job.uuid job) (Job.project_uuid job) run_config) in
       RunJob_collateral E kw db
       = ((_delete_non_retained_pipeline_runs E (Job.uuid job) db).1 ++ dispatch.1,
          dispatch.2))
  ∧ (∀ kw db job_uuid job,
       UpdateJobPipelineRun.job_uuid kw = Some job_uuid →
       jobs db !! job_uuid = Some job →
       let stale :=
         match UpdateJobPipelineRun.completed kw, UpdateJobPipelineRun.project_uuid kw with
         | true, Some project_uuid => process_stale_environment_images E project_uuid
         | _, _ => cret tt
         end in
       (UpdateJobPipelineRun_collateral E kw db).2 = stale.2).
Proof.
  intros Hresp. split; [| split; [| split]].
  - intros job_uuid run_uuid status_code. apply delete_run_responded.
  - intros job_uuid job db Hjob. apply (pruner_responded E job_uuid job db Hresp Hjob).
  - intros kw db job job' run_config task tasks Hjob Hconfig Htasks Hrow dispatch.
    rewrite (RunJob_collateral_unfold _ _ _ _ _ _ _ Hjob Hconfig Htasks).
    destruct (pruner_responded E (Job.uuid job) job' db Hresp Hrow) as [Hret _].
    destruct (_delete_non_retained_pipeline_runs E (Job.uuid job) db) as [tr r].
    cbn in Hret. subst r. unfold cbind. fold dispatch.
    destruct dispatch as [tr' r']. reflexivity.
  - intros kw db job_uuid job Hkw Hrow stale.
    unfold UpdateJobPipelineRun_collateral. fold stale. rewrite Hkw.
    destruct (pruner_responded E job_uuid job db Hresp Hrow) as [Hret _].
    destruct (_delete_non_retained_pipeline_runs E job_uuid db) as [tr r].
    cbn in Hret. subst r.
    destruct stale as [tr' [e | []]]; reflexivity.
Qed.

Lemma pruning_call_failures_swallowed_witness :
  (_delete_non_retained_pipeline_runs example_externals "job-1"
     (example_db job_retaining_two five_completed_runs)).2 = inr tt.
Proof.
  assert (Hresp : always_responds example_externals)
    by (intros url; exists 200; reflexivity).
  refine (proj1 (proj2 (pruning_call_failures_swallowed example_externals Hresp))
            "job-1" job_retaining_two _ _).
  vm_compute. reflexivity.
Defined.

(** The webserver cannot be reached: the deletion call raises, pruning raises,
    and [RunJob._collateral] raises before it has dispatched any task. *)
Lemma pruning_fails_without_response :
  ¬ pruning_never_fails unreachable_webserver
  ∧ let kw :=
      RunJob.mk (Some job_retaining_two) (Some (RunConfig.mk JNull None None))
        [("run-5", Pipeline.mk ["step-1"] JNull)] in
    let collateral :=
      RunJob_collateral unreachable_webserver kw
        (example_db job_retaining_two five_completed_runs) in
    collateral.2 = inl (RequestException "Connection refused")
    ∧ dispatched_tasks collateral.1 = [].
Proof.
  split.
  - intros Hnever.
    specialize (Hnever "job-1" job_retaining_two
                  (example_db job_retaining_two five_completed_runs)).
    assert (Hraised :
      (_delete_non_retained_pipeline_runs unreachable_webserver "job-1"
         (example_db job_retaining_two five_completed_runs)).2
      = inl (RequestException "Connection refused")) by (vm_compute; reflexivity).
    rewrite Hnever in Hraised; [discriminate | vm_compute; reflexivity].
  - vm_compute. split; reflexivity.
Qed.

(** ** The transaction monad *)

Lemma bind_lift_returned {A B} (x : exn + A) (k : A → M B) db r db' :
  bind (lift x) k db = Returned r db' →
  ∃ a, x = inr a ∧ k a db = Returned r db'.
Proof. destruct x as [e | a]; cbn; [discriminate | eauto]. Qed.

Lemma bind_modify_db {B} (f : DB → DB) (k : unit → M B) db :
  bind (modify_db f) k db = k tt (f db).
Proof. reflexivity. Qed.

Lemma bind_flush_job {B} job_uuid job (k : unit → M B) db :
  bind (flush_job job_uuid job) k db
  = k tt (set_jobs (<[job_uuid := job]> (jobs db)) db).
Proof. reflexivity. Qed.

Lemma bind_get_db {B} (k : DB → M B) db : bind get_db k db = k db db.
Proof. reflexivity. Qed.

Lemma bind_query_job_one {B} job_uuid job (k : Job.t → M B) db :
  jobs db !! job_uuid = Some job →
  bind (query_job_one job_uuid) k db = k job db.
Proof. intros Hjob. unfold query_job_one, bind, get_db. rewrite Hjob. reflexivity. Qed.

(** ** Attributes of a job row *)

Ltac job_rows :=
  repeat match goal with j : Job.t |- _ => destruct j end; cbn in *.

Lemma set_total_scheduled_pipeline_runs_twice v w job :
  Job.set_total_scheduled_pipeline_runs v (Job.set_total_scheduled_pipeline_runs w job)
  = Job.set_total_scheduled_pipeline_runs v job.
Proof. by job_rows. Qed.

Lemma set_total_scheduled_pipeline_runs_same job v :
  v = Job.total_scheduled_pipeline_runs job →
  Job.set_total_scheduled_pipeline_runs v job = job.
Proof. intros ->. by job_rows. Qed.

(** ** RunJob: the loop over the parameter sets *)

(** What a returned loop has done: it appended one run row per parameter set,
    numbered from the job's counter on, and advanced the counter by as much. *)
Lemma RunJob_loop_returned E uuid4 job_uuid parameters :
  ∀ run_index job tasks db job' tasks' db',
    RunJob_loop E uuid4 job_uuid run_index parameters job tasks db
    = Returned (job', tasks') db' →
    ∃ created new_tasks,
      pipeline_runs db' = pipeline_runs db ++ created
      ∧ tasks' = tasks ++ new_tasks
      ∧ job' = Job.set_total_scheduled_pipeline_runs
                 (Job.total_scheduled_pipeline_runs job + Z.of_nat (length parameters))
                 job
      ∧ NonInteractivePipelineRun.pipeline_run_index <$> created
        = seqZ (Job.total_scheduled_pipeline_runs job) (Z.of_nat (length parameters))
      ∧ NonInteractivePipelineRun.job_run_pipeline_run_index <$> created
        = seqZ (Z.of_nat run_index) (Z.of_nat (length parameters))
      ∧ Forall (λ run,
                  NonInteractivePipelineRun.job_run_index run
                  = Job.total_scheduled_executions job
                  ∧ NonInteractivePipelineRun.status run = "PENDING"
                  ∧ NonInteractivePipelineRun.job_uuid run = Job.uuid job) created
      ∧ NonInteractivePipelineRun.uuid <$> created = new_tasks.*1
      ∧ new_tasks.*1 = uuid4 <$> seq run_index (length parameters)
      ∧ (∀ row, <[job_uuid := row]> (jobs db') = <[job_uuid := row]> (jobs db))
      ∧ job_image_mappings db' = job_image_mappings db.
Proof.
  induction parameters as [| run_parameters rest IH];
    intros run_index job tasks db job' tasks' db' Hloop.
  - cbn in Hloop. injection Hloop as <- <- <-. exists [], [].
    rewrite !app_nil_r, set_total_scheduled_pipeline_runs_same by (cbn; lia).
    repeat split; try done.
  - cbn [RunJob_loop] in Hloop.
    apply bind_lift_returned in Hloop as (pipeline_def & _ & Hloop).
    apply bind_lift_returned in Hloop as (pipeline & _ & Hloop).
    rewrite bind_modify_db, bind_flush_job, bind_modify_db in Hloop.
    apply IH in Hloop
      as (created & new_tasks & Hruns & Htasks & Hjob & Hidx & Hpos & Hall
          & Huuid & Hids & Hjobs & Hmappings).
    cbn [pipeline_runs set_pipeline_runs set_pipeline_run_steps set_jobs jobs
         job_image_mappings] in *.
    eexists (_ :: created), ((uuid4 run_index, pipeline) :: new_tasks).
    split; [rewrite Hruns, <- app_assoc; reflexivity |].
    split; [rewrite Htasks, <- app_assoc; reflexivity |].
    split.
    { rewrite Hjob, set_total_scheduled_pipeline_runs_twice. f_equal.
      job_rows. lia. }
    split.
    { cbn [fmap list_fmap NonInteractivePipelineRun.pipeline_run_index].
      rewrite Hidx. cbn [length]. rewrite (seqZ_cons _ (Z.of_nat (S _))) by lia.
      f_equal. f_equal; [job_rows; lia | lia]. }
    split.
    { cbn [fmap list_fmap NonInteractivePipelineRun.job_run_pipeline_run_index].
      rewrite Hpos. cbn [length]. rewrite (seqZ_cons _ (Z.of_nat (S _))) by lia.
      f_equal. f_equal; lia. }
    split.
    { constructor; [done |].
      eapply Forall_impl; [exact Hall |]. intros run. by job_rows. }
    split; [cbn; by rewrite Huuid |].
    split; [cbn; by rewrite Hids |].
    split; [| exact Hmappings].
    intros row. rewrite Hjobs. apply insert_insert_eq.
Qed.

Lemma bind_returned {A B} (c : M A) (k : A → M B) db r db' :
  bind c k db = Returned r db' →
  ∃ a db1, c db = Returned a db1 ∧ k a db1 = Returned r db'.
Proof. unfold bind. destruct (c db) as [a db1 | e]; [eauto | discriminate]. Qed.

(** The loop returns as soon as every pipeline can be built. *)
Lemma RunJob_loop_returns E uuid4 job_uuid job0 parameters :
  Forall (λ run_parameters,
            ∃ pipeline_def pipeline,
              run_pipeline_def E job0 run_parameters = inr pipeline_def
              ∧ construct_pipeline E
                  (PipelineRunSpec.set_pipeline_definition pipeline_def
                     (Job.pipeline_run_spec job0)) = inr pipeline) parameters →
  ∀ run_index job tasks db,
    Job.pipeline_definition job = Job.pipeline_definition job0 →
    Job.pipeline_run_spec job = Job.pipeline_run_spec job0 →
    ∃ job' tasks' db',
      RunJob_loop E uuid4 job_uuid run_index parameters job tasks db
      = Returned (job', tasks') db'.
Proof.
  induction 1 as [| run_parameters rest (pipeline_def & pipeline & Hdef & Hbuild) _ IH];
    intros run_index job tasks db Hsame_def Hsame_spec.
  - cbn. eauto.
  - cbn [RunJob_loop].
    assert (Hdef' : run_pipeline_def E job run_parameters = inr pipeline_def).
    { rewrite <- Hdef. unfold run_pipeline_def. by rewrite Hsame_def. }
    unfold bind at 1. rewrite Hdef'. cbn [lift ret].
    unfold bind at 1. rewrite Hsame_spec, Hbuild. cbn [lift ret].
    rewrite bind_modify_db, bind_flush_job, bind_modify_db.
    apply IH; by job_rows.
Qed.

(** ** RunJob: the transaction *)

Lemma RunJob_transaction_returned E uuid4 job_uuid job db kw db' :
  jobs db !! job_uuid = Some job →
  RunJob_transaction E uuid4 job_uuid db = Returned kw db' →
  ∃ created,
    pipeline_runs db' = pipeline_runs db ++ created
    ∧ jobs db' = <[job_uuid := job_after_RunJob job]> (jobs db)
    ∧ NonInteractivePipelineRun.pipeline_run_index <$> created
      = seqZ (Job.total_scheduled_pipeline_runs job)
          (Z.of_nat (length (Job.parameters job)))
    ∧ NonInteractivePipelineRun.job_run_pipeline_run_index <$> created
      = seqZ 0 (Z.of_nat (length (Job.parameters job)))
    ∧ Forall (λ run,
                NonInteractivePipelineRun.job_run_index run
                = Job.total_scheduled_executions job
                ∧ NonInteractivePipelineRun.status run = "PENDING") created
    ∧ RunJob.job kw = Some (job_after_RunJob job)
    ∧ (RunJob.tasks_to_launch kw).*1 = NonInteractivePipelineRun.uuid <$> created
    ∧ (RunJob.tasks_to_launch kw).*1
      = uuid4 <$> seq 0 (length (Job.parameters job)).
Proof.
  intros Hjob Hrun. unfold RunJob_transaction in Hrun.
  rewrite (bind_query_job_one _ _ _ _ Hjob) in Hrun.
  apply bind_returned in Hrun as ([job1 tasks] & db1 & Hloop & Hrun).
  apply RunJob_loop_returned in Hloop
    as (created & new_tasks & Hruns & Htasks & Hjob1 & Hidx & Hpos & Hall
        & Huuid & Hids & Hjobs & _).
  rewrite bind_flush_job, bind_get_db in Hrun. cbn in Hrun.
  injection Hrun as <- <-. cbn in Htasks. subst tasks.
  assert (Hparams :
    Job.parameters (if bool_decide (Job.status job = "PENDING")
                    then Job.set_status "STARTED" job else job)
    = Job.parameters job) by (case_bool_decide; by job_rows).
  assert (Hafter :
    Job.set_total_scheduled_executions (Job.total_scheduled_executions job1 + 1) job1
    = job_after_RunJob job).
  { subst job1. unfold job_after_RunJob. rewrite Hparams.
    case_bool_decide; by job_rows. }
  exists created. rewrite Hparams in *. rewrite Hafter.
  split; [exact Hruns |].
  split; [cbn; apply Hjobs |].
  split; [rewrite Hidx; f_equal; case_bool_decide; by job_rows |].
  split; [exact Hpos |].
  split.
  { eapply Forall_impl; [exact Hall |]. intros run (Hexec & Hstatus & _).
    split; [| exact Hstatus]. rewrite Hexec. case_bool_decide; by job_rows. }
  split; [case_bool_decide; reflexivity |].
  split; [case_bool_decide; cbn; by rewrite Huuid |].
  case_bool_decide; cbn; exact Hids.
Qed.

(** [RunJob] returns for an existing job whose pipelines can be built,
    whatever the status of the job. *)
Lemma RunJob_transaction_returns E uuid4 job_uuid job db :
  jobs db !! job_uuid = Some job →
  pipelines_build E job →
  ∃ kw db', RunJob_transaction E uuid4 job_uuid db = Returned kw db'.
Proof.
  intros Hjob Hbuild. unfold RunJob_transaction.
  rewrite (bind_query_job_one _ _ _ _ Hjob).
  set (job1 := if bool_decide (Job.status job = "PENDING")
               then Job.set_status "STARTED" job else job).
  assert (Hparams : Job.parameters job1 = Job.parameters job)
    by (subst job1; case_bool_decide; by job_rows).
  destruct (RunJob_loop_returns E uuid4 job_uuid job (Job.parameters job1)
              ltac:(rewrite Hparams; exact Hbuild) 0%nat job1 [] db)
    as (job' & tasks' & db1 & Hloop);
    [subst job1; case_bool_decide; by job_rows
    |subst job1; case_bool_decide; by job_rows |].
  unfold bind at 1. rewrite Hloop. rewrite bind_flush_job, bind_get_db.
  cbn. eauto.
Qed.

Lemma job_after_RunJob_counters job :
  Job.total_scheduled_pipeline_runs (job_after_RunJob job)
  = Job.total_scheduled_pipeline_runs job + Z.of_nat (length (Job.parameters job))
  ∧ Job.total_scheduled_executions (job_after_RunJob job)
    = Job.total_scheduled_executions job + 1.
Proof. unfold job_after_RunJob. case_bool_decide; by job_rows. Qed.

(** ** Histories: the counters and the indices of the created runs *)

Lemma history_counters E job_uuid db0 invocations db job0 :
  history E job_uuid db0 invocations db →
  jobs db0 !! job_uuid = Some job0 →
  ∃ job,
    jobs db !! job_uuid = Some job
    ∧ Job.total_scheduled_pipeline_runs job
      = Job.total_scheduled_pipeline_runs job0
        + Z.of_nat (sum_list (parameter_sets <$> invocations))
    ∧ Job.total_scheduled_executions job
      = Job.total_scheduled_executions job0 + Z.of_nat (length invocations)
    ∧ NonInteractivePipelineRun.pipeline_run_index
        <$> concat (created_runs <$> invocations)
      = seqZ (Job.total_scheduled_pipeline_runs job0)
          (Z.of_nat (sum_list (parameter_sets <$> invocations)))
    ∧ ∀ (n : nat) inv,
        invocations !! n = Some inv →
        length (created_runs inv) = parameter_sets inv
        ∧ executions_at_start inv = Job.total_scheduled_executions job0 + Z.of_nat n
        ∧ Forall (λ run, NonInteractivePipelineRun.job_run_index run
                         = executions_at_start inv) (created_runs inv)
        ∧ NonInteractivePipelineRun.job_run_pipeline_run_index <$> created_runs inv
          = seqZ 0 (Z.of_nat (parameter_sets inv)).
Proof.
  intros Hhistory Hjob0.
  induction Hhistory
    as [db0 | db0 invocations db job uuid4 kw db' _ IH Hjob Hrun
        | db0 invocations db db' _ IH [Hruns Hexecs]].
  - exists job0. cbn. rewrite !Z.add_0_r.
    split; [done |]. split; [done |]. split; [done |]. split; [done |].
    intros n inv Hinv. done.
  - destruct (IH Hjob0) as (job1 & Hjob1 & Htotal & Hexec & Hidx & Hper).
    rewrite Hjob in Hjob1. injection Hjob1 as <-.
    destruct (RunJob_transaction_returned _ _ _ _ _ _ _ Hjob Hrun)
      as (created & Hruns & Hjobs & Hcreated & Hpos & Hall & _).
    rewrite Hruns, drop_app_length.
    destruct (job_after_RunJob_counters job) as [Htotal' Hexec'].
    assert (Hlen : length created = length (Job.parameters job)).
    { rewrite <- (length_fmap NonInteractivePipelineRun.pipeline_run_index), Hcreated,
        length_seqZ. lia. }
    exists (job_after_RunJob job).
    rewrite fmap_app, !fmap_app, concat_app, fmap_app, sum_list_with_app, length_app.
    cbn [fmap list_fmap concat sum_list_with parameter_sets created_runs length].
    rewrite app_nil_r, Nat.add_0_r.
    change (id (length (Job.parameters job))) with (length (Job.parameters job)).
    split; [rewrite Hjobs; apply lookup_insert_eq |].
    split; [lia |]. split; [lia |].
    split.
    { rewrite Hidx, Hcreated, Htotal, Nat2Z.inj_add, seqZ_app by lia.
      repeat f_equal; lia. }
    intros n inv Hinv. apply lookup_app_Some in Hinv as [Hold | [Hge Hnew]].
    + by apply Hper.
    + destruct (n - length invocations)%nat as [| m] eqn:Hn; [| done].
      injection Hnew as <-. cbn.
      split; [exact Hlen |]. split; [lia |].
      split; [eapply Forall_impl; [exact Hall |]; by intros run [? _] | exact Hpos].
  - destruct (IH Hjob0) as (job1 & Hjob1 & Htotal & Hexec & Hidx & Hper).
    rewrite Hjob1 in Hruns, Hexecs.
    destruct (jobs db' !! job_uuid) as [job' |]; [| done].
    injection Hruns as Hruns. injection Hexecs as Hexecs.
    exists job'.
    split; [done |]. split; [congruence |]. split; [congruence |].
    split; [exact Hidx | exact Hper].
Qed.

(** C1. Along any history of a job whose run counter starts at 0,
    [total_scheduled_pipeline_runs] is the sum of the numbers of parameter sets
    of the [RunJob] invocations; the [pipeline_run_index] values of the created
    runs, in creation order, are exactly [0 .. total - 1], whatever was deleted
    or edited in between; the runs of an invocation carry the job's
    [total_scheduled_executions] at the start of the invocation as their
    [job_run_index], and that counter grows by one per invocation. *)
Theorem run_indices_dense E job_uuid db0 invocations db job0 :
  history E job_uuid db0 invocations db →
  jobs db0 !! job_uuid = Some job0 →
  Job.total_scheduled_pipeline_runs job0 = 0 →
  ∃ job,
    jobs db !! job_uuid = Some job
    ∧ Job.total_scheduled_pipeline_runs job
      = Z.of_nat (sum_list (parameter_sets <$> invocations))
    ∧ NonInteractivePipelineRun.pipeline_run_index
        <$> concat (created_runs <$> invocations)
      = seqZ 0 (Job.total_scheduled_pipeline_runs job)
    ∧ NoDup (NonInteractivePipelineRun.pipeline_run_index
               <$> concat (created_runs <$> invocations))
    ∧ Job.total_scheduled_executions job
      = Job.total_scheduled_executions job0 + Z.of_nat (length invocations)
    ∧ ∀ (n : nat) inv,
        invocations !! n = Some inv →
        length (created_runs inv) = parameter_sets inv
        ∧ executions_at_start inv = Job.total_scheduled_executions job0 + Z.of_nat n
        ∧ Forall (λ run, NonInteractivePipelineRun.job_run_index run
                         = executions_at_start inv) (created_runs inv)
        ∧ NonInteractivePipelineRun.job_run_pipeline_run_index <$> created_runs inv
          = seqZ 0 (Z.of_nat (parameter_sets inv)).
Proof.
  intros Hhistory Hjob0 Hzero.
  destruct (history_counters _ _ _ _ _ _ Hhistory Hjob0)
    as (job & Hjob & Htotal & Hexec & Hidx & Hper).
  rewrite Hzero in Htotal, Hidx. rewrite Z.add_0_l in Htotal.
  exists job. rewrite Hidx, Htotal.
  split; [exact Hjob |]. split; [reflexivity |]. split; [reflexivity |].
  split; [apply NoDup_seqZ |]. split; [exact Hexec | exact Hper].
Qed.

(** Deleting a run leaves the counters of every job alone. *)
Lemma delete_run_row_keeps_counters job_uuid run_uuid db :
  keeps_counters job_uuid db (delete_run_row run_uuid db).
Proof. split; reflexivity. Qed.

Lemma run_indices_dense_witness :
  ∃ job,
    jobs db_after_second_run !! "job-1" = Some job
    ∧ Job.total_scheduled_pipeline_runs job = 4
    ∧ Job.total_scheduled_executions job = 2
    ∧ NonInteractivePipelineRun.pipeline_run_index
        <$> pipeline_runs db_after_second_run = [1; 2; 3].
Proof.
  assert (Hfirst :
    RunJob_transaction example_externals example_uuid4 "job-1" db_before_first_run
    = Returned kw_first_run db_after_first_run) by (vm_compute; reflexivity).
  assert (Hsecond :
    RunJob_transaction example_externals second_uuid4 "job-1" db_after_deletion
    = Returned kw_second_run db_after_second_run) by (vm_compute; reflexivity).
  pose proof (history_RunJob _ _ _ _ _
                (example_job "STARTED" None [[]; []] 1 2 (-1)) _ _ _
                (history_other _ _ _ _ _ db_after_deletion
                   (history_RunJob _ _ _ _ _
                      (example_job "PENDING" None [[]; []] 0 0 (-1)) _ _ _
                      (history_start example_externals "job-1" db_before_first_run)
                      eq_refl Hfirst)
                   (delete_run_row_keeps_counters "job-1" "run-0" db_after_first_run))
                ltac:(vm_compute; reflexivity) Hsecond) as Hhistory.
  destruct (run_indices_dense _ _ _ _ _ _ Hhistory eq_refl eq_refl)
    as (job & Hjob & Htotal & _ & _ & Hexec & _).
  exists job. split; [exact Hjob |]. split; [exact Htotal |]. split; [exact Hexec |].
  vm_compute. reflexivity.
Defined.

(** C2, evaluated on the code. [RunJob] on an ABORTED job: the transaction
    sets the empty collateral batch and then goes on; it creates the run row,
    advances both counters and hands the collateral phase a task, which is
    dispatched. *)
Theorem RunJob_on_aborted_job :
  ∃ kw db',
    RunJob_transaction example_externals example_uuid4 "job-1" db_aborted_job
    = Returned kw db'
    ∧ Job.status <$> jobs db_aborted_job !! "job-1" = Some "ABORTED"
    ∧ (RunJob.tasks_to_launch kw).*1 = ["run-0"]
    ∧ NonInteractivePipelineRun.uuid <$> pipeline_runs db' = ["run-old"; "run-0"]
    ∧ PipelineRunStep.run_uuid <$> pipeline_run_steps db' = ["run-0"]
    ∧ Job.total_scheduled_executions <$> jobs db' !! "job-1" = Some 2
    ∧ Job.total_scheduled_pipeline_runs <$> jobs db' !! "job-1" = Some 2
    ∧ dispatched_tasks (RunJob_collateral example_externals kw db').1 = ["run-0"].
Proof.
  destruct (RunJob_transaction example_externals example_uuid4 "job-1" db_aborted_job)
    as [kw db' | e] eqn:Hrun; vm_compute in Hrun; [| discriminate Hrun].
  injection Hrun as <- <-. do 2 eexists. split; [reflexivity |].
  vm_compute. repeat split; reflexivity.
Qed.

(** ** UpdateJobPipelineRun *)

Lemma alter_lookup_insert (f : Job.t → Job.t) job_uuid job (rows : gmap string Job.t) :
  rows !! job_uuid = Some job →
  alter f job_uuid rows = <[job_uuid := f job]> rows.
Proof.
  intros Hjob. apply map_eq. intros k.
  destruct (decide (k = job_uuid)) as [-> | Hne].
  - by rewrite lookup_alter_eq, lookup_insert_eq, Hjob.
  - by rewrite lookup_alter_ne, lookup_insert_ne.
Qed.

Lemma end_states_in_the_other_order (status : string) :
  status ∈ ["SUCCESS"; "ABORTED"; "FAILURE"] ↔ status ∈ ["SUCCESS"; "FAILURE"; "ABORTED"].
Proof. rewrite !elem_of_cons, !elem_of_nil. tauto. Qed.

Lemma runs_to_complete_counts job_uuid db :
  runs_to_complete job_uuid db
  = length
      (filter (λ run, NonInteractivePipelineRun.job_uuid run = job_uuid
                      ∧ NonInteractivePipelineRun.status run ∈ ["PENDING"; "STARTED"])
         (pipeline_runs db)).
Proof.
  unfold runs_to_complete. rewrite list_filter_filter. f_equal.
  apply list_filter_iff. tauto.
Qed.

(** C3. A status update of a run: when the new status is an end state, the
    runs of the job still PENDING or STARTED are counted on the run table as it
    is after the update; a one-off job with none left becomes SUCCESS unless it
    is in an end state already, whatever the outcomes of its runs.  In every
    other case (runs left, a cron job, a status that is not an end state) the
    row of the job is kept.  The number counted is the number of rows of the
    updated run table that belong to the job and are PENDING or STARTED; it is
    zero exactly when no run of the job is in one of these two states. *)
Theorem one_off_job_completion E job_uuid run_uuid status_update db job :
  jobs db !! job_uuid = Some job →
  let runs' :=
    update_status_db_runs E status_update
      (λ run, bool_decide (NonInteractivePipelineRun.job_uuid run = job_uuid
                            ∧ NonInteractivePipelineRun.uuid run = run_uuid))
      (pipeline_runs db) in
  let terminal :=
    bool_decide (StatusUpdate.status status_update ∈ ["SUCCESS"; "FAILURE"; "ABORTED"]) in
  let remaining :=
    length
      (filter (λ run, NonInteractivePipelineRun.job_uuid run = job_uuid
                      ∧ NonInteractivePipelineRun.status run ∈ ["PENDING"; "STARTED"])
         runs') in
  let completed :=
    terminal && bool_decide (Job.schedule job = None ∧ remaining = 0%nat) in
  let job' :=
    if completed && bool_decide (Job.status job ∉ ["SUCCESS"; "ABORTED"; "FAILURE"])
    then Job.set_status "SUCCESS" job else job in
  UpdateJobPipelineRun_transaction E job_uuid run_uuid status_update db
  = Returned
      (("Status was updated successfully", 200),
       if terminal
       then UpdateJobPipelineRun.mk (Some (Job.project_uuid job)) (Some (Job.uuid job))
              completed
       else UpdateJobPipelineRun.mk None None false)
      (set_jobs (<[job_uuid := job']> (jobs db)) (set_pipeline_runs runs' db))
  ∧ (remaining = 0%nat
     ↔ ∀ run, run ∈ runs' →
              NonInteractivePipelineRun.job_uuid run = job_uuid →
              NonInteractivePipelineRun.status run ∉ ["PENDING"; "STARTED"])
  ∧ (Job.schedule job ≠ None → job' = job)
  ∧ (remaining ≠ 0%nat → job' = job)
  ∧ (Job.status job ∈ ["SUCCESS"; "FAILURE"; "ABORTED"] → job' = job)
  ∧ (StatusUpdate.status status_update ∉ ["SUCCESS"; "FAILURE"; "ABORTED"] → job' = job)
  ∧ (StatusUpdate.status status_update ∈ ["SUCCESS"; "FAILURE"; "ABORTED"] →
     Job.schedule job = None → remaining = 0%nat →
     Job.status job ∉ ["SUCCESS"; "FAILURE"; "ABORTED"] →
     Job.status job' = "SUCCESS").
Proof.
  intros Hjob runs' terminal remaining completed job'.
  split.
  - unfold UpdateJobPipelineRun_transaction. rewrite bind_modify_db. fold runs'.
    unfold bind at 1. fold terminal. subst job' completed.
    destruct terminal; cbn [andb]; cycle 1.
    { cbn [ret]. do 2 f_equal. cbn [set_jobs set_pipeline_runs jobs].
      by rewrite insert_id. }
    assert (Hjob' : jobs (set_pipeline_runs runs' db) !! job_uuid = Some job) by done.
    rewrite (bind_query_job_one _ _ _ _ Hjob').
    destruct (decide (Job.schedule job = None)) as [Hone_off | Hcron].
    + rewrite (bool_decide_eq_true_2 _ Hone_off), bind_get_db.
      rewrite runs_to_complete_counts.
      change (length (filter _ (pipeline_runs (set_pipeline_runs runs' db))))
        with remaining.
      destruct (decide (remaining = 0%nat)) as [Hzero | Hleft].
      * rewrite (bool_decide_eq_true_2 (remaining = 0%nat) Hzero).
        rewrite (bool_decide_eq_true_2 (_ ∧ _)) by done.
        rewrite bind_modify_db. cbn [ret andb]. do 2 f_equal.
        unfold set_job_success. cbn [jobs set_pipeline_runs set_jobs].
        by rewrite (alter_lookup_insert _ _ _ _ Hjob).
      * rewrite (bool_decide_eq_false_2 (remaining = 0%nat) Hleft).
        rewrite (bool_decide_eq_false_2 (_ ∧ _)) by tauto.
        cbn [ret andb]. do 2 f_equal. cbn [set_jobs set_pipeline_runs jobs].
        by rewrite insert_id.
    + rewrite (bool_decide_eq_false_2 _ Hcron).
      rewrite (bool_decide_eq_false_2 (_ ∧ _)) by tauto.
      cbn [ret andb]. do 2 f_equal. cbn [set_jobs set_pipeline_runs jobs].
      by rewrite insert_id.
  - split.
    { subst remaining. rewrite length_zero_iff_nil. split.
      - intros Hnone run Hin Hof_job Hopen.
        assert (Hfound : run ∈ filter
                           (λ run, NonInteractivePipelineRun.job_uuid run = job_uuid
                                   ∧ NonInteractivePipelineRun.status run
                                     ∈ ["PENDING"; "STARTED"]) runs')
          by (by apply list_elem_of_filter).
        rewrite Hnone in Hfound. by apply elem_of_nil in Hfound.
      - intros Hnone.
        destruct (filter _ runs') as [| run rest] eqn:Hfilter; [done |].
        assert (Hfound : run ∈ filter
                           (λ run, NonInteractivePipelineRun.job_uuid run = job_uuid
                                   ∧ NonInteractivePipelineRun.status run
                                     ∈ ["PENDING"; "STARTED"]) runs')
          by (rewrite Hfilter; apply list_elem_of_here).
        apply list_elem_of_filter in Hfound as [[Hof_job Hopen] Hin].
        by destruct (Hnone run Hin Hof_job). }
    subst job' completed terminal. repeat split.
    + intros Hcron. rewrite (bool_decide_eq_false_2 (_ ∧ _)) by tauto.
      by rewrite andb_false_r.
    + intros Hleft. rewrite (bool_decide_eq_false_2 (_ ∧ _)) by tauto.
      by rewrite andb_false_r.
    + intros Hterminal.
      rewrite (bool_decide_eq_false_2 (Job.status job ∉ _)), andb_false_r; [done |].
      intros Hnot. apply Hnot. by apply end_states_in_the_other_order.
    + intros Hongoing. by rewrite (bool_decide_eq_false_2 _ Hongoing).
    + intros Hend Hone_off Hzero Hongoing.
      rewrite (bool_decide_eq_true_2 _ Hend).
      rewrite (bool_decide_eq_true_2 (_ ∧ _)) by done.
      rewrite (bool_decide_eq_true_2 (Job.status job ∉ _))
        by (by rewrite end_states_in_the_other_order).
      by job_rows.
Qed.

Lemma one_off_job_completion_witness :
  Job.status
    <$> jobs (committed db_last_run_running
                (UpdateJobPipelineRun_transaction example_externals "job-1" "run-1"
                   (StatusUpdate.mk "FAILURE" None None) db_last_run_running))
        !! "job-1"
  = Some "SUCCESS"
  ∧ Job.status
      <$> jobs (committed db_both_runs_running
                  (UpdateJobPipelineRun_transaction example_externals "job-1" "run-1"
                     (StatusUpdate.mk "FAILURE" None None) db_both_runs_running))
          !! "job-1"
    = Some "STARTED".
Proof.
  split.
  - rewrite (proj1 (one_off_job_completion example_externals "job-1" "run-1"
                      (StatusUpdate.mk "FAILURE" None None) db_last_run_running
                      (example_job "STARTED" None [[]; []] 1 2 (-1)) eq_refl)).
    vm_compute. reflexivity.
  - rewrite (proj1 (one_off_job_completion example_externals "job-1" "run-1"
                      (StatusUpdate.mk "FAILURE" None None) db_both_runs_running
                      (example_job "STARTED" None [[]; []] 1 2 (-1)) eq_refl)).
    vm_compute. reflexivity.
Defined.

(** ** AbortJob *)

Lemma abort_runs_keep_jobs E run_uuids :
  ∀ db, jobs (foldl (abort_run_and_steps E) db run_uuids) = jobs db.
Proof. induction run_uuids as [| run_uuid rest IH]; intros db; [done |]. cbn. by rewrite IH. Qed.

Lemma AbortJob_transaction_terminal E job_uuid job db :
  jobs db !! job_uuid = Some job →
  Job.status job ∈ ["SUCCESS"; "FAILURE"; "ABORTED"] →
  AbortJob_transaction E job_uuid db
  = Returned (None, AbortJob.mk [] job_uuid (Some (Job.project_uuid job))) db.
Proof.
  intros Hjob Hend. unfold AbortJob_transaction. rewrite bind_get_db, Hjob.
  by rewrite (bool_decide_eq_true_2 _ Hend).
Qed.

(** C6. [AbortJob] on an existing job returns.  A job in an end state is left
    as it is, with its runs and steps, and the call returns [None], which the
    handler reports as "does not exist or is already completed"; any other job
    ends in the status ABORTED with [next_scheduled_time] cleared.  In both
    cases a second call finds a job in an end state and changes nothing. *)
Theorem AbortJob_idempotent E job_uuid job db :
  jobs db !! job_uuid = Some job →
  let terminal := bool_decide (Job.status job ∈ ["SUCCESS"; "FAILURE"; "ABORTED"]) in
  ∃ could_abort kw db',
    AbortJob_transaction E job_uuid db = Returned (could_abort, kw) db'
    ∧ could_abort = (if terminal then None else Some true)
    ∧ (if terminal then db' = db ∧ AbortJob.run_uuids kw = []
       else jobs db' !! job_uuid
            = Some (Job.set_next_scheduled_time None (Job.set_status "ABORTED" job)))
    ∧ Job.status <$> jobs db' !! job_uuid
      = Some (if terminal then Job.status job else "ABORTED")
    ∧ AbortJob_transaction E job_uuid db'
      = Returned (None, AbortJob.mk [] job_uuid (Some (Job.project_uuid job))) db'
    ∧ (Job_delete E job_uuid db').1.2 = db'
    ∧ (process_stale_environment_images_outcome E (Job.project_uuid job) = None →
       (Job_delete E job_uuid db').1.1
       = (message "Job does not exist or is already completed.", 404)).
Proof.
  intros Hjob terminal.
  assert (Hsecond : ∀ db' job',
    jobs db' !! job_uuid = Some job' →
    Job.status job' ∈ ["SUCCESS"; "FAILURE"; "ABORTED"] →
    Job.project_uuid job' = Job.project_uuid job →
    AbortJob_transaction E job_uuid db'
    = Returned (None, AbortJob.mk [] job_uuid (Some (Job.project_uuid job))) db'
    ∧ (Job_delete E job_uuid db').1.2 = db'
    ∧ (process_stale_environment_images_outcome E (Job.project_uuid job) = None →
       (Job_delete E job_uuid db').1.1
       = (message "Job does not exist or is already completed.", 404))).
  { intros db' job' Hjob' Hend' Hproject.
    pose proof (AbortJob_transaction_terminal E _ _ _ Hjob' Hend') as Htx.
    rewrite Hproject in Htx. split; [exact Htx |].
    unfold Job_delete, TwoPhaseExecutor. rewrite Htx.
    unfold AbortJob_collateral, process_stale_environment_images. cbn.
    destruct (process_stale_environment_images_outcome E (Job.project_uuid job));
      cbn; split; try done. }
  subst terminal.
  destruct (decide (Job.status job ∈ ["SUCCESS"; "FAILURE"; "ABORTED"])) as [Hend | Hongoing].
  - rewrite (bool_decide_eq_true_2 _ Hend).
    exists None, (AbortJob.mk [] job_uuid (Some (Job.project_uuid job))), db.
    split; [by apply AbortJob_transaction_terminal |].
    split; [done |]. split; [done |]. split; [by rewrite Hjob |].
    by apply (Hsecond db job).
  - rewrite (bool_decide_eq_false_2 _ Hongoing).
    unfold AbortJob_transaction. rewrite bind_get_db, Hjob.
    rewrite (bool_decide_eq_false_2 _ Hongoing), bind_flush_job, bind_modify_db.
    do 3 eexists. split; [reflexivity |]. split; [done |].
    assert (Hrow :
      jobs (foldl (abort_run_and_steps E)
              (set_jobs (<[job_uuid :=
                  Job.set_next_scheduled_time None (Job.set_status "ABORTED" job)]>
                  (jobs db)) db)
              (NonInteractivePipelineRun.uuid <$>
                 filter (λ run, NonInteractivePipelineRun.status run
                                ∈ ["PENDING"; "STARTED"])
                   (filter (λ run, NonInteractivePipelineRun.job_uuid run
                                   = Job.uuid
                                       (Job.set_next_scheduled_time None
                                          (Job.set_status "ABORTED" job)))
                      (pipeline_runs db)))) !! job_uuid
      = Some (Job.set_next_scheduled_time None (Job.set_status "ABORTED" job))).
    { rewrite abort_runs_keep_jobs. cbn. apply lookup_insert_eq. }
    split; [exact Hrow |].
    split; [rewrite Hrow; by job_rows |].
    apply (Hsecond _ _ Hrow); [job_rows; repeat constructor | by job_rows].
Qed.

Lemma AbortJob_idempotent_witness :
  AbortJob_transaction example_externals "job-1"
    (committed db_last_run_running
       (AbortJob_transaction example_externals "job-1" db_last_run_running))
  = Returned (None, AbortJob.mk [] "job-1" (Some "project-1"))
      (committed db_last_run_running
         (AbortJob_transaction example_externals "job-1" db_last_run_running)).
Proof.
  destruct (AbortJob_idempotent example_externals "job-1"
              (example_job "STARTED" None [[]; []] 1 2 (-1)) db_last_run_running eq_refl)
    as (could_abort & kw & db' & Hfirst & _ & _ & _ & Hsecond & _).
  rewrite Hfirst. exact Hsecond.
Defined.

(** ** PauseCronJob and ResumeCronJob *)

(** C8. [PauseCronJob] changes a job exactly when it is STARTED and has a
    schedule: the job becomes PAUSED with no [next_scheduled_time].
    [ResumeCronJob] changes a job exactly when it is PAUSED and has a schedule:
    the job becomes STARTED and its [next_scheduled_time] is the next
    occurrence of the schedule after the current time.  In every other case
    the store is unchanged and the handlers answer 409. *)
Theorem pause_and_resume_cron_job E now job_uuid db :
  croniter_next_is_later E →
  let pausable :=
    match jobs db !! job_uuid with
    | Some job =>
      if bool_decide (Job.status job = "STARTED" ∧ Job.schedule job ≠ None)
      then Some job else None
    | None => None
    end in
  let resumable :=
    match jobs db !! job_uuid with
    | Some job =>
      match Job.schedule job with
      | Some schedule =>
        if bool_decide (Job.status job = "PAUSED") then Some (job, schedule) else None
      | None => None
      end
    | None => None
    end in
  PauseCronJob_transaction job_uuid db
  = match pausable with
    | Some job =>
      Returned true
        (set_jobs (<[job_uuid := Job.set_next_scheduled_time None
                                   (Job.set_status "PAUSED" job)]> (jobs db)) db)
    | None => Returned false db
    end
  ∧ CronJobPause_post job_uuid db
    = match pausable with
      | Some job =>
        ((message "Cron job pausing was successful.", 200),
         set_jobs (<[job_uuid := Job.set_next_scheduled_time None
                                    (Job.set_status "PAUSED" job)]> (jobs db)) db, [])
      | None => ((message "Could not pause cron job.", 409), db, [])
      end
  ∧ ResumeCronJob_transaction E now job_uuid db
    = match resumable with
      | Some (job, schedule) =>
        Returned (Some (croniter_get_next E schedule now))
          (set_jobs (<[job_uuid := Job.set_next_scheduled_time
                                     (Some (croniter_get_next E schedule now))
                                     (Job.set_status "STARTED" job)]> (jobs db)) db)
      | None => Returned None db
      end
  ∧ CronJobResume_post E now job_uuid db
    = match resumable with
      | Some (job, schedule) =>
        ((next_scheduled_time_of (croniter_get_next E schedule now), 200),
         set_jobs (<[job_uuid := Job.set_next_scheduled_time
                                    (Some (croniter_get_next E schedule now))
                                    (Job.set_status "STARTED" job)]> (jobs db)) db, [])
      | None => ((message "Could not resume cron job.", 409), db, [])
      end
  ∧ match resumable with
    | Some (job, schedule) => now < croniter_get_next E schedule now
    | None => True
    end.
Proof.
  intros Hlater pausable resumable.
  assert (Hpause :
    PauseCronJob_transaction job_uuid db
    = match pausable with
      | Some job =>
        Returned true
          (set_jobs (<[job_uuid := Job.set_next_scheduled_time None
                                     (Job.set_status "PAUSED" job)]> (jobs db)) db)
      | None => Returned false db
      end).
  { unfold PauseCronJob_transaction, query_cron_job. rewrite bind_get_db.
    subst pausable. destruct (jobs db !! job_uuid) as [job |]; [| done].
    case_bool_decide; done. }
  assert (Hresume :
    ResumeCronJob_transaction E now job_uuid db
    = match resumable with
      | Some (job, schedule) =>
        Returned (Some (croniter_get_next E schedule now))
          (set_jobs (<[job_uuid := Job.set_next_scheduled_time
                                     (Some (croniter_get_next E schedule now))
                                     (Job.set_status "STARTED" job)]> (jobs db)) db)
      | None => Returned None db
      end).
  { unfold ResumeCronJob_transaction, query_cron_job. rewrite bind_get_db.
    subst resumable. destruct (jobs db !! job_uuid) as [job |]; [| done].
    destruct (Job.schedule job) as [schedule |] eqn:Hschedule.
    - destruct (decide (Job.status job = "PAUSED")) as [Hpaused | Hother].
      + rewrite (bool_decide_eq_true_2 (_ ∧ _)) by done.
        rewrite (bool_decide_eq_true_2 _ Hpaused).
        assert (Hkept : Job.schedule (Job.set_status "STARTED" job) = Some schedule)
          by (by job_rows).
        rewrite Hkept. done.
      + rewrite (bool_decide_eq_false_2 (_ ∧ _)) by tauto.
        by rewrite (bool_decide_eq_false_2 _ Hother).
    - rewrite (bool_decide_eq_false_2 (_ ∧ _)) by (by intros [_ ?]). done. }
  split; [exact Hpause |]. split.
  { unfold CronJobPause_post, TwoPhaseExecutor, bind at 1. rewrite Hpause.
    destruct pausable; reflexivity. }
  split; [exact Hresume |]. split.
  { unfold CronJobResume_post, TwoPhaseExecutor, bind at 1. rewrite Hresume.
    destruct resumable as [[job schedule] |]; reflexivity. }
  destruct resumable as [[job schedule] |]; [apply Hlater | done].
Qed.

Lemma next_top_of_hour_is_later now : now < next_top_of_hour now.
Proof.
  unfold next_top_of_hour.
  pose proof (Z.mod_pos_bound now 3600 ltac:(lia)).
  pose proof (Z.div_mod now 3600 ltac:(lia)). lia.
Qed.

Lemma pause_and_resume_cron_job_witness :
  CronJobResume_post example_externals 5000 "job-1" db_paused_cron_job
  = ((next_scheduled_time_of 7200, 200),
     example_db (Job.set_next_scheduled_time (Some 7200)
                   (example_job "STARTED" (Some "0 * * * *") [[]] 0 0 (-1))) [],
     [])
  ∧ CronJobPause_post "job-1" db_paused_cron_job
    = ((message "Could not pause cron job.", 409), db_paused_cron_job, []).
Proof.
  assert (Hlater : croniter_next_is_later example_externals)
    by (intros schedule now; apply next_top_of_hour_is_later).
  destruct (pause_and_resume_cron_job example_externals 5000 "job-1"
              db_paused_cron_job Hlater) as (_ & Hpause & _ & Hresume & _).
  split.
  - rewrite Hresume. vm_compute. reflexivity.
  - rewrite Hpause. vm_compute. reflexivity.
Defined.

(** ** UpdateJob *)

Lemma bind_ret {A B} (a : A) (k : A → M B) db : bind (ret a) k db = k a db.
Proof. reflexivity. Qed.

Lemma bind_raise {A B} (e : exn) (k : A → M B) db : bind (raise e) k db = Raised e.
Proof. reflexivity. Qed.

(** C7. On a job that is neither a DRAFT nor a cron job, an update that brings
    a cron schedule, parameters, env variables, a strategy json or
    [max_retained_pipeline_runs] raises a [ValueError]; the handler answers
    500 with its message and the store is as before. *)
Theorem UpdateJob_rejects_edits_of_confirmed_one_off_job
    E now uuid4 job_uuid job db name cron_schedule parameters env_variables
    next_scheduled_time strategy_json max_retained_pipeline_runs confirm_draft :
  jobs db !! job_uuid = Some job →
  Job.schedule job = None →
  Job.status job ≠ "DRAFT" →
  is_Some cron_schedule ∨ is_Some parameters ∨ is_Some env_variables
  ∨ is_Some strategy_json ∨ is_Some max_retained_pipeline_runs →
  ∃ msg,
    UpdateJob_transaction E now uuid4 job_uuid name cron_schedule parameters
      env_variables next_scheduled_time strategy_json max_retained_pipeline_runs
      confirm_draft db
    = Raised (ValueError msg)
    ∧ Job_put E now uuid4 job_uuid name cron_schedule parameters env_variables
        next_scheduled_time strategy_json max_retained_pipeline_runs confirm_draft db
      = ((message msg, 500), db, []).
Proof.
  intros Hjob Hone_off Hconfirmed Hedit.
  assert (Htx : ∃ msg,
    UpdateJob_transaction E now uuid4 job_uuid name cron_schedule parameters
      env_variables next_scheduled_time strategy_json max_retained_pipeline_runs
      confirm_draft db
    = Raised (ValueError msg)).
  { unfold UpdateJob_transaction. rewrite (bind_query_job_one _ _ _ _ Hjob).
    set (job1 := match name with Some name => Job.set_name name job | None => job end).
    assert (Hschedule : Job.schedule job1 = None)
      by (subst job1; destruct name; by job_rows).
    assert (Hstatus : Job.status job1 ≠ "DRAFT")
      by (subst job1; destruct name; by job_rows).
    assert (Hguard :
      bool_decide (Job.schedule job1 = None ∧ Job.status job1 ≠ "DRAFT") = true)
      by (by apply bool_decide_eq_true_2).
    cbv zeta.
    destruct cron_schedule as [cron_schedule |];
      [rewrite Hguard, bind_raise; eauto | rewrite bind_ret].
    destruct parameters as [parameters |];
      [rewrite Hguard, bind_raise; eauto | rewrite bind_ret].
    destruct env_variables as [env_variables |];
      [rewrite Hguard, bind_raise; eauto | rewrite bind_ret].
    destruct next_scheduled_time as [next_scheduled_time |];
      [rewrite (bool_decide_eq_true_2 _ Hstatus), bind_raise; eauto | rewrite bind_ret].
    rewrite (bool_decide_eq_false_2 (Job.status job1 = "DRAFT" ∧ _)) by tauto.
    destruct strategy_json as [strategy_json |];
      [rewrite Hguard, bind_raise; eauto | rewrite bind_ret].
    destruct max_retained_pipeline_runs as [max_retained_pipeline_runs |];
      [rewrite Hguard, bind_raise; eauto |].
    destruct Hedit as [[? ?] | [[? ?] | [[? ?] | [[? ?] | [? ?]]]]]; discriminate. }
  destruct Htx as [msg Htx]. exists msg. split; [exact Htx |].
  unfold Job_put, TwoPhaseExecutor, bind at 1. rewrite Htx. reflexivity.
Qed.

(** One block of a transaction that returned: its alternatives, one by one. *)
Ltac run_block H :=
  repeat match type of H with
  | raise _ _ = Returned _ _ => discriminate H
  | ret _ _ = Returned _ _ => injection H as <- <-
  | bind (lift ?x) _ _ = Returned _ _ =>
    let Hx := fresh "Hlift" in
    destruct x eqn:Hx; cbn [lift] in H;
    [rewrite bind_raise in H; discriminate H | rewrite bind_ret in H]
  | (if bool_decide ?P then _ else _) _ = Returned _ _ =>
    let HP := fresh "Hcase" in
    destruct (decide P) as [HP | HP];
    [rewrite (bool_decide_eq_true_2 P HP) in H
    |rewrite (bool_decide_eq_false_2 P HP) in H]
  | (if negb ?b then _ else _) _ = Returned _ _ =>
    let Hb := fresh "Hvalid" in
    destruct b eqn:Hb; cbn [negb] in H
  end.

Lemma UpdateJob_transaction_returned E now uuid4 job_uuid job db name cron_schedule
    parameters env_variables next_scheduled_time strategy_json
    max_retained_pipeline_runs confirm_draft r db' :
  jobs db !! job_uuid = Some job →
  UpdateJob_transaction E now uuid4 job_uuid name cron_schedule parameters
    env_variables next_scheduled_time strategy_json max_retained_pipeline_runs
    confirm_draft db
  = Returned r db' →
  let job' :=
    edited_job E now job name cron_schedule parameters env_variables
      next_scheduled_time strategy_json max_retained_pipeline_runs in
  if confirm_draft then
    Job.status job' = "DRAFT"
    ∧ (if bool_decide (Job.schedule job' = None) then
         if bool_decide (Job.next_scheduled_time job' = None) then
           ∃ kw,
             r = Some kw
             ∧ RunJob_transaction E uuid4 (Job.uuid job')
                 (set_jobs
                    (<[job_uuid := Job.set_last_scheduled_time (Some now)
                                     (Job.set_status "PENDING" job')]> (jobs db)) db)
               = Returned kw db'
         else
           r = None
           ∧ db' = set_jobs
                     (<[job_uuid := Job.set_last_scheduled_time
                                      (Job.next_scheduled_time job')
                                      (Job.set_status "PENDING" job')]> (jobs db)) db
       else
         r = None
         ∧ db' = set_jobs
                   (<[job_uuid := Job.set_status "STARTED"
                                    (Job.set_last_scheduled_time
                                       (Job.next_scheduled_time job') job')]>
                      (jobs db)) db)
  else r = None ∧ db' = set_jobs (<[job_uuid := job']> (jobs db)) db.
Proof.
  intros Hjob H job'. subst job'. unfold edited_job.
  unfold UpdateJob_transaction in H. rewrite (bind_query_job_one _ _ _ _ Hjob) in H.
  cbv zeta in H. cbv zeta.
  set (job1 := match name with Some name => Job.set_name name job | None => job end) in *.
  (* cron schedule *)
  apply bind_returned in H as (job2 & db2 & Hblock & H).
  assert (Hstage :
    db2 = db
    ∧ job2 = match cron_schedule with
             | Some cron_schedule =>
               Job.set_next_scheduled_time (Some (croniter_get_next E cron_schedule now))
                 (Job.set_schedule (Some cron_schedule) job1)
             | None => job1
             end) by (destruct cron_schedule; run_block Hblock; done).
  destruct Hstage as [-> ->]. clear Hblock.
  set (job2 := match cron_schedule with Some _ => _ | None => _ end) in *.
  (* parameters *)
  apply bind_returned in H as (job3 & db3 & Hblock & H).
  assert (Hstage :
    db3 = db
    ∧ job3 = match parameters with
             | Some parameters => Job.set_parameters parameters job2
             | None => job2
             end) by (destruct parameters; run_block Hblock; done).
  destruct Hstage as [-> ->]. clear Hblock.
  set (job3 := match parameters with Some _ => _ | None => _ end) in *.
  (* env variables *)
  apply bind_returned in H as (job4 & db4 & Hblock & H).
  assert (Hstage :
    db4 = db
    ∧ job4 = match env_variables with
             | Some env_variables => Job.set_env_variables env_variables job3
             | None => job3
             end) by (destruct env_variables; run_block Hblock; done).
  destruct Hstage as [-> ->]. clear Hblock.
  set (job4 := match env_variables with Some _ => _ | None => _ end) in *.
  (* next scheduled time *)
  apply bind_returned in H as (job5 & db5 & Hblock & H).
  assert (Hstage :
    db5 = db
    ∧ job5 = match next_scheduled_time with
             | Some next_scheduled_time =>
               Job.set_next_scheduled_time
                 (match fromisoformat E next_scheduled_time with
                  | inr time => Some time
                  | inl _ => None
                  end)
                 (if bool_decide (cron_schedule = None)
                  then Job.set_schedule None job4 else job4)
             | None => job4
             end).
  { destruct next_scheduled_time; run_block Hblock; done. }
  destruct Hstage as [-> ->]. clear Hblock.
  set (job5 := match next_scheduled_time with Some _ => _ | None => _ end) in *.
  set (job6 := if bool_decide (Job.status job5 = "DRAFT" ∧ _) then _ else _) in *.
  (* strategy json *)
  apply bind_returned in H as (job7 & db7 & Hblock & H).
  assert (Hstage :
    db7 = db
    ∧ job7 = match strategy_json with
             | Some strategy_json => Job.set_strategy_json strategy_json job6
             | None => job6
             end) by (destruct strategy_json; run_block Hblock; done).
  destruct Hstage as [-> ->]. clear Hblock.
  set (job7 := match strategy_json with Some _ => _ | None => _ end) in *.
  (* retention *)
  apply bind_returned in H as (job8 & db8 & Hblock & H).
  assert (Hstage :
    db8 = db
    ∧ job8 = match max_retained_pipeline_runs with
             | Some max_retained_pipeline_runs =>
               Job.set_max_retained_pipeline_runs max_retained_pipeline_runs job7
             | None => job7
             end) by (destruct max_retained_pipeline_runs; run_block Hblock; done).
  destruct Hstage as [-> ->]. clear Hblock.
  set (job8 := match max_retained_pipeline_runs with Some _ => _ | None => _ end) in *.
  (* confirmation *)
  destruct confirm_draft.
  - destruct (decide (Job.status job8 ≠ "DRAFT")) as [Hnot | Hdraft].
    { rewrite (bool_decide_eq_true_2 _ Hnot) in H. discriminate H. }
    rewrite (bool_decide_eq_false_2 _ Hdraft) in H.
    split; [by destruct (decide (Job.status job8 = "DRAFT")) |].
    destruct (get_env_uuids_missing_image E _ _); [| discriminate H].
    assert (Hpending_schedule : ∀ v, Job.next_scheduled_time (Job.set_status v job8)
                                    = Job.next_scheduled_time job8)
      by (intros v; by destruct job8).
    rewrite Hpending_schedule in H.
    repeat case_bool_decide.
    + rewrite bind_flush_job in H.
      apply bind_returned in H as (kw & db9 & Hrun & H).
      injection H as <- <-. exists kw. split; [done |].
      rewrite <- Hrun. f_equal. by destruct job8.
    + rewrite bind_flush_job in H. by injection H as <- <-.
    + rewrite bind_flush_job in H. by injection H as <- <-.
  - rewrite bind_flush_job in H. by injection H as <- <-.
Qed.

(** What the field blocks leave of a job row. *)
Lemma edited_job_plain_fields E now job name cron_schedule parameters env_variables
    next_scheduled_time strategy_json max_retained_pipeline_runs :
  let job' :=
    edited_job E now job name cron_schedule parameters env_variables
      next_scheduled_time strategy_json max_retained_pipeline_runs in
  Job.name job' = default (Job.name job) name
  ∧ Job.parameters job' = default (Job.parameters job) parameters
  ∧ Job.env_variables job' = default (Job.env_variables job) env_variables
  ∧ Job.strategy_json job' = default (Job.strategy_json job) strategy_json
  ∧ Job.max_retained_pipeline_runs job'
    = default (Job.max_retained_pipeline_runs job) max_retained_pipeline_runs
  ∧ Job.status job' = Job.status job
  ∧ Job.last_scheduled_time job' = Job.last_scheduled_time job
  ∧ Job.total_scheduled_executions job' = Job.total_scheduled_executions job
  ∧ Job.total_scheduled_pipeline_runs job' = Job.total_scheduled_pipeline_runs job
  ∧ Job.uuid job' = Job.uuid job.
Proof.
  unfold edited_job. destruct job.
  destruct name, cron_schedule, parameters, env_variables, next_scheduled_time,
    strategy_json, max_retained_pipeline_runs;
    cbn; repeat case_bool_decide; cbn; done.
Qed.

Lemma edited_job_schedule_fields E now job name cron_schedule parameters env_variables
    next_scheduled_time strategy_json max_retained_pipeline_runs :
  let job' :=
    edited_job E now job name cron_schedule parameters env_variables
      next_scheduled_time strategy_json max_retained_pipeline_runs in
  Job.schedule job'
  = match cron_schedule, next_scheduled_time with
    | Some cron_schedule, _ => Some cron_schedule
    | None, Some _ => None
    | None, None =>
      if bool_decide (Job.status job = "DRAFT") then None else Job.schedule job
    end
  ∧ Job.next_scheduled_time job'
    = match next_scheduled_time, cron_schedule with
      | Some next_scheduled_time, _ =>
        match fromisoformat E next_scheduled_time with
        | inr time => Some time
        | inl _ => None
        end
      | None, Some cron_schedule => Some (croniter_get_next E cron_schedule now)
      | None, None =>
        if bool_decide (Job.status job = "DRAFT") then None
        else Job.next_scheduled_time job
      end.
Proof.
  unfold edited_job. destruct job.
  destruct name, cron_schedule, parameters, env_variables, next_scheduled_time,
    strategy_json, max_retained_pipeline_runs;
    cbn; repeat case_bool_decide; cbn; first [done | tauto | intuition congruence].
Qed.

Lemma UpdateJob_rejects_edits_of_confirmed_one_off_job_witness :
  Job_put example_externals 0 example_uuid4 "job-1"
    None None (Some [[]; []; []]) None None None None false db_last_run_running
  = ((message ("Failed update operation. Cannot update the parameters of "
               +:+ "a job which is not a cron job."), 500),
     db_last_run_running, []).
Proof.
  destruct (UpdateJob_rejects_edits_of_confirmed_one_off_job example_externals 0
              example_uuid4 "job-1" (example_job "STARTED" None [[]; []] 1 2 (-1))
              db_last_run_running None None (Some [[]; []; []]) None None None None false
              eq_refl eq_refl ltac:(discriminate) ltac:(right; left; eauto))
    as (msg & Htx & Hput).
  rewrite Hput. vm_compute in Htx. injection Htx as <-. reflexivity.
Defined.

Lemma same_payload_fields_confirmed job :
  (∀ v w, same_payload_fields job
            (Job.set_last_scheduled_time v (Job.set_status w job)))
  ∧ (∀ v w, same_payload_fields job
              (Job.set_status w (Job.set_last_scheduled_time v job)))
  ∧ (∀ v w, same_payload_fields job
              (job_after_RunJob (Job.set_last_scheduled_time v (Job.set_status w job)))).
Proof.
  unfold same_payload_fields, job_after_RunJob. destruct job.
  repeat split; cbn; try done; case_bool_decide; done.
Qed.

(** C10, as amended. A returned [UpdateJob] on a DRAFT whose payload has
    neither a cron schedule nor a next scheduled time leaves the job with
    neither, confirmed or not.  The name, the parameters, the env variables,
    the strategy json and the retention are written only when the payload
    brings them; the schedule and the next scheduled time of a job that is not
    a DRAFT are written only when the payload brings one of the two; a cron
    schedule in the payload also recomputes the next scheduled time, and a next
    scheduled time without a cron schedule also clears the schedule; the
    status, the last scheduled time, the counters and the runs are written only
    by the confirmation of a draft. *)
Theorem UpdateJob_written_fields E now uuid4 job_uuid job db name cron_schedule
    parameters env_variables next_scheduled_time strategy_json
    max_retained_pipeline_runs confirm_draft r db' :
  jobs db !! job_uuid = Some job →
  Job.uuid job = job_uuid →
  UpdateJob_transaction E now uuid4 job_uuid name cron_schedule parameters
    env_variables next_scheduled_time strategy_json max_retained_pipeline_runs
    confirm_draft db
  = Returned r db' →
  ∃ job',
    jobs db' !! job_uuid = Some job'
    ∧ (Job.status job = "DRAFT" → cron_schedule = None → next_scheduled_time = None →
       Job.schedule job' = None ∧ Job.next_scheduled_time job' = None)
    ∧ Job.name job' = default (Job.name job) name
    ∧ Job.parameters job' = default (Job.parameters job) parameters
    ∧ Job.env_variables job' = default (Job.env_variables job) env_variables
    ∧ Job.strategy_json job' = default (Job.strategy_json job) strategy_json
    ∧ Job.max_retained_pipeline_runs job'
      = default (Job.max_retained_pipeline_runs job) max_retained_pipeline_runs
    ∧ (Job.status job ≠ "DRAFT" → cron_schedule = None → next_scheduled_time = None →
       Job.schedule job' = Job.schedule job
       ∧ Job.next_scheduled_time job' = Job.next_scheduled_time job)
    ∧ (∀ cron, cron_schedule = Some cron → next_scheduled_time = None →
       Job.schedule job' = Some cron
       ∧ Job.next_scheduled_time job' = Some (croniter_get_next E cron now))
    ∧ (cron_schedule = None → is_Some next_scheduled_time → Job.schedule job' = None)
    ∧ (confirm_draft = false →
       r = None
       ∧ Job.status job' = Job.status job
       ∧ Job.last_scheduled_time job' = Job.last_scheduled_time job
       ∧ Job.total_scheduled_executions job' = Job.total_scheduled_executions job
       ∧ Job.total_scheduled_pipeline_runs job' = Job.total_scheduled_pipeline_runs job
       ∧ pipeline_runs db' = pipeline_runs db
       ∧ pipeline_run_steps db' = pipeline_run_steps db).
Proof.
  intros Hjob Hkey Hreturned.
  pose proof (UpdateJob_transaction_returned _ _ _ _ _ _ _ _ _ _ _ _ _ _ _ _
                Hjob Hreturned) as Hstate.
  cbv zeta in Hstate.
  pose proof (edited_job_plain_fields E now job name cron_schedule parameters
                env_variables next_scheduled_time strategy_json
                max_retained_pipeline_runs)
    as (Hname & Hparameters & Henv & Hstrategy & Hretention & Hstatus & Hlast
        & Hexecutions & Hruns & Huuid).
  cbv zeta in *.
  set (edited := edited_job E now job name cron_schedule parameters env_variables
                   next_scheduled_time strategy_json max_retained_pipeline_runs) in *.
  destruct (same_payload_fields_confirmed edited) as (Hpending & Hstarted & Hran).
  assert (Hgoal : ∃ job',
    jobs db' !! job_uuid = Some job'
    ∧ same_payload_fields edited job'
    ∧ (confirm_draft = false →
       r = None ∧ job' = edited
       ∧ pipeline_runs db' = pipeline_runs db
       ∧ pipeline_run_steps db' = pipeline_run_steps db)).
  { destruct confirm_draft.
    - destruct Hstate as [_ Hstate]. repeat case_bool_decide.
      + destruct Hstate as (kw & -> & Hrun).
        eapply RunJob_transaction_returned in Hrun
          as (created & _ & Hjobs & _);
          [| rewrite Huuid, Hkey; cbn; apply lookup_insert_eq].
        eexists. split; [rewrite Hjobs, Huuid, Hkey; apply lookup_insert_eq |].
        split; [apply Hran | done].
      + destruct Hstate as [-> ->]. eexists.
        split; [cbn; apply lookup_insert_eq |]. split; [apply Hpending | done].
      + destruct Hstate as [-> ->]. eexists.
        split; [cbn; apply lookup_insert_eq |]. split; [apply Hstarted | done].
    - destruct Hstate as [-> ->]. exists edited.
      split; [cbn; apply lookup_insert_eq |].
      split; [by repeat split | done]. }
  destruct Hgoal
    as (job' & Hjob' & (Hn & Hp & He & Hs & Hm & Hsch & Hnxt) & Hplain).
  pose proof (edited_job_schedule_fields E now job name cron_schedule parameters
                env_variables next_scheduled_time strategy_json
                max_retained_pipeline_runs) as [Hschedule Hnext].
  cbv zeta in Hschedule, Hnext. fold edited in Hschedule, Hnext.
  exists job'. rewrite Hn, Hp, He, Hs, Hm, Hsch, Hnxt, Hschedule, Hnext.
  split; [exact Hjob' |].
  split.
  { intros Hdraft -> ->. by rewrite (bool_decide_eq_true_2 _ Hdraft). }
  do 5 (split; [done |]).
  split.
  { intros Hnot -> ->. by rewrite (bool_decide_eq_false_2 _ Hnot). }
  split; [by intros cron -> -> |].
  split; [by intros -> [time ->] |].
  intros Hplainly. destruct (Hplain Hplainly) as (-> & -> & Hsame_runs & Hsame_steps).
  by rewrite Hstatus, Hlast, Hexecutions, Hruns.
Qed.

Lemma UpdateJob_written_fields_witness :
  ∃ job',
    jobs (committed db_draft_of_cron_job
            (UpdateJob_transaction example_externals 0 example_uuid4 "job-1"
               (Some "renamed") None None None None None None false
               db_draft_of_cron_job)) !! "job-1" = Some job'
    ∧ Job.name job' = "renamed"
    ∧ Job.schedule job' = None
    ∧ Job.next_scheduled_time job' = None
    ∧ Job.schedule draft_of_cron_job = Some "0 * * * *"
    ∧ Job.next_scheduled_time draft_of_cron_job = Some 3600.
Proof.
  destruct (UpdateJob_transaction example_externals 0 example_uuid4 "job-1"
              (Some "renamed") None None None None None None false
              db_draft_of_cron_job) as [r db' | e] eqn:Hreturned;
    [| vm_compute in Hreturned; discriminate Hreturned].
  destruct (UpdateJob_written_fields example_externals 0 example_uuid4 "job-1"
              draft_of_cron_job db_draft_of_cron_job
              (Some "renamed") None None None None None None false r db'
              eq_refl eq_refl Hreturned)
    as (job' & Hjob' & Hcleared & Hname & _).
  exists job'. split; [exact Hjob' |]. split; [exact Hname |].
  destruct (Hcleared eq_refl eq_refl eq_refl) as [Hschedule Hnext].
  split; [exact Hschedule |]. split; [exact Hnext |]. split; reflexivity.
Defined.

(** A draft duplicated from a cron job gets a next scheduled time and no cron
    schedule: the update returns and the schedule, which the payload did not
    bring, is cleared. *)
Lemma next_scheduled_time_branch_clears_schedule :
  ¬ no_other_branch_mutates_unsupplied_fields example_externals.
Proof.
  intros Hframe.
  destruct (UpdateJob_transaction example_externals 0 example_uuid4 "job-1"
              None None None None (Some "1970-01-02T00:00:00") None None false
              db_draft_of_cron_job) as [r db' | e] eqn:Hreturned;
    [| vm_compute in Hreturned; discriminate Hreturned].
  assert (Hjob' : ∃ job', jobs db' !! "job-1" = Some job' ∧ Job.schedule job' = None).
  { vm_compute in Hreturned. injection Hreturned as <- <-.
    eexists. split; [vm_compute; reflexivity | reflexivity]. }
  destruct Hjob' as (job' & Hjob' & Hcleared).
  specialize (Hframe 0 example_uuid4 "job-1" draft_of_cron_job db_draft_of_cron_job
                None None None None (Some "1970-01-02T00:00:00") None None false
                r db' job' eq_refl ltac:(by intros (_ & _ & ?)) Hreturned Hjob').
  destruct Hframe as (_ & Hschedule & _).
  rewrite Hcleared in Hschedule. specialize (Hschedule eq_refl). discriminate Hschedule.
Qed.

(** ** The other transactions in a history *)

(** Rewriting the row of one job with a row of the same counters keeps the
    counters of every job. *)
Lemma keeps_counters_insert job_uuid key job job' db db' :
  jobs db !! key = Some job →
  jobs db' = <[key := job']> (jobs db) →
  Job.total_scheduled_pipeline_runs job' = Job.total_scheduled_pipeline_runs job →
  Job.total_scheduled_executions job' = Job.total_scheduled_executions job →
  keeps_counters job_uuid db db'.
Proof.
  intros Hjob Hjobs Hruns Hexecutions. unfold keeps_counters. rewrite Hjobs.
  destruct (decide (key = job_uuid)) as [-> | Hother].
  - rewrite lookup_insert_eq, Hjob. cbn. by rewrite Hruns, Hexecutions.
  - by rewrite lookup_insert_ne.
Qed.

Lemma keeps_counters_same_jobs job_uuid db db' :
  jobs db' = jobs db → keeps_counters job_uuid db db'.
Proof. intros Hjobs. unfold keeps_counters. by rewrite Hjobs. Qed.

Lemma AbortJob_keeps_counters E job_uuid key db r db' :
  AbortJob_transaction E key db = Returned r db' →
  keeps_counters job_uuid db db'.
Proof.
  unfold AbortJob_transaction. rewrite bind_get_db.
  destruct (jobs db !! key) as [job |] eqn:Hjob.
  - case_bool_decide.
    + intros [= <- <-]. by apply keeps_counters_same_jobs.
    + rewrite bind_flush_job, bind_modify_db. intros [= <- <-].
      eapply (keeps_counters_insert _ key job); [exact Hjob | | |].
      * rewrite abort_runs_keep_jobs. reflexivity.
      * by destruct job.
      * by destruct job.
  - intros [= <- <-]. by apply keeps_counters_same_jobs.
Qed.

Lemma UpdateJobPipelineRun_keeps_counters E job_uuid key run_uuid status_update db r db' :
  UpdateJobPipelineRun_transaction E key run_uuid status_update db = Returned r db' →
  keeps_counters job_uuid db db'.
Proof.
  unfold UpdateJobPipelineRun_transaction. rewrite bind_modify_db.
  intros Hreturned. apply bind_returned in Hreturned as (kw & db1 & Hbody & Hreturned).
  injection Hreturned as <- <-.
  case_bool_decide; [| injection Hbody as <- <-; by apply keeps_counters_same_jobs].
  unfold bind at 1, query_job_one, bind at 1, get_db in Hbody.
  cbn [jobs set_pipeline_runs] in Hbody.
  destruct (jobs db !! key) as [job |] eqn:Hjob; [| discriminate Hbody].
  cbn [ret] in Hbody.
  repeat case_bool_decide;
    try (injection Hbody as <- <-; by apply keeps_counters_same_jobs).
  rewrite bind_get_db in Hbody. case_bool_decide.
  - rewrite bind_modify_db in Hbody. injection Hbody as <- <-.
    eapply (keeps_counters_insert _ key job); [exact Hjob | | |].
    + unfold set_job_success. cbn. by apply alter_lookup_insert.
    + case_bool_decide; by destruct job.
    + case_bool_decide; by destruct job.
  - injection Hbody as <- <-. by apply keeps_counters_same_jobs.
Qed.

Lemma PauseCronJob_keeps_counters job_uuid key db r db' :
  PauseCronJob_transaction key db = Returned r db' →
  keeps_counters job_uuid db db'.
Proof.
  unfold PauseCronJob_transaction, query_cron_job. rewrite bind_get_db.
  destruct (jobs db !! key) as [job |] eqn:Hjob;
    [| intros [= <- <-]; by apply keeps_counters_same_jobs].
  case_bool_decide; [| intros [= <- <-]; by apply keeps_counters_same_jobs].
  rewrite bind_flush_job. intros [= <- <-].
  eapply (keeps_counters_insert _ key job); [exact Hjob | done | |]; by destruct job.
Qed.

Lemma ResumeCronJob_keeps_counters E now job_uuid key db r db' :
  ResumeCronJob_transaction E now key db = Returned r db' →
  keeps_counters job_uuid db db'.
Proof.
  unfold ResumeCronJob_transaction, query_cron_job. rewrite bind_get_db.
  destruct (jobs db !! key) as [job |] eqn:Hjob;
    [| intros [= <- <-]; by apply keeps_counters_same_jobs].
  case_bool_decide; [| intros [= <- <-]; by apply keeps_counters_same_jobs].
  destruct (Job.schedule (Job.set_status "STARTED" job)); [| discriminate].
  rewrite bind_flush_job. intros [= <- <-].
  eapply (keeps_counters_insert _ key job); [exact Hjob | done | |]; by destruct job.
Qed.

(** [UpdateJob] in a history: an edit that keeps the counters, followed by a
    [RunJob] invocation when a draft that has to run at once is confirmed. *)
Lemma UpdateJob_in_history E now uuid4 job_uuid job db name cron_schedule parameters
    env_variables next_scheduled_time strategy_json max_retained_pipeline_runs
    confirm_draft r db' :
  jobs db !! job_uuid = Some job →
  Job.uuid job = job_uuid →
  UpdateJob_transaction E now uuid4 job_uuid name cron_schedule parameters
    env_variables next_scheduled_time strategy_json max_retained_pipeline_runs
    confirm_draft db
  = Returned r db' →
  match r with
  | None => keeps_counters job_uuid db db'
  | Some kw =>
    ∃ db1, keeps_counters job_uuid db db1
           ∧ RunJob_transaction E uuid4 job_uuid db1 = Returned kw db'
  end.
Proof.
  intros Hjob Hkey Hreturned.
  pose proof (UpdateJob_transaction_returned _ _ _ _ _ _ _ _ _ _ _ _ _ _ _ _
                Hjob Hreturned) as Hstate.
  pose proof (edited_job_plain_fields E now job name cron_schedule parameters
                env_variables next_scheduled_time strategy_json
                max_retained_pipeline_runs)
    as (_ & _ & _ & _ & _ & _ & _ & Hexecutions & Hruns & Huuid).
  cbv zeta in *.
  set (edited := edited_job E now job name cron_schedule parameters env_variables
                   next_scheduled_time strategy_json max_retained_pipeline_runs) in *.
  assert (Hedit : ∀ job' db1,
    db1 = set_jobs (<[job_uuid := job']> (jobs db)) db →
    Job.total_scheduled_pipeline_runs job' = Job.total_scheduled_pipeline_runs edited →
    Job.total_scheduled_executions job' = Job.total_scheduled_executions edited →
    keeps_counters job_uuid db db1).
  { intros job' db1 -> Hruns' Hexecutions'.
    eapply (keeps_counters_insert _ job_uuid job); [exact Hjob | done | |]; congruence. }
  destruct confirm_draft.
  - destruct Hstate as [_ Hstate]. repeat case_bool_decide.
    + destruct Hstate as (kw & -> & Hrun). rewrite Huuid, Hkey in Hrun.
      eexists. split; [| exact Hrun].
      eapply Hedit; [reflexivity | |]; by destruct edited.
    + destruct Hstate as [-> ->]. eapply Hedit; [reflexivity | |]; by destruct edited.
    + destruct Hstate as [-> ->]. eapply Hedit; [reflexivity | |]; by destruct edited.
  - destruct Hstate as [-> ->]. by eapply Hedit.
Qed.

(** A rename of a draft returns: the job is left with the new name and with
    neither a schedule nor a next scheduled time. *)
Lemma UpdateJob_rename_of_draft E now uuid4 job_uuid job db name :
  jobs db !! job_uuid = Some job →
  Job.status job = "DRAFT" →
  UpdateJob_transaction E now uuid4 job_uuid (Some name) None None None None None None
    false db
  = Returned None
      (set_jobs
         (<[job_uuid := Job.set_next_scheduled_time None
                          (Job.set_schedule None (Job.set_name name job))]> (jobs db))
         db).
Proof.
  intros Hjob Hdraft. unfold UpdateJob_transaction.
  rewrite (bind_query_job_one _ _ _ _ Hjob).
  cbv beta iota zeta delta [bind ret].
  rewrite (bool_decide_eq_true_2 (Job.status (Job.set_name name job) = "DRAFT" ∧ _))
    by (split; [by destruct job | done]).
  reflexivity.
Qed.

(** [RunJob] does not stop at an aborted job: whenever the pipelines of its
    parameter sets can be built, the transaction returns with one task per
    parameter set and the advanced counters. *)
Lemma RunJob_on_any_aborted_job E uuid4 job_uuid job db :
  jobs db !! job_uuid = Some job →
  Job.status job = "ABORTED" →
  pipelines_build E job →
  ∃ kw db',
    RunJob_transaction E uuid4 job_uuid db = Returned kw db'
    ∧ length (RunJob.tasks_to_launch kw) = length (Job.parameters job)
    ∧ length (pipeline_runs db')
      = (length (pipeline_runs db) + length (Job.parameters job))%nat
    ∧ jobs db' !! job_uuid = Some (job_after_RunJob job).
Proof.
  intros Hjob _ Hbuild.
  destruct (RunJob_transaction_returns E uuid4 job_uuid job db Hjob Hbuild)
    as (kw & db' & Hreturned).
  exists kw, db'. split; [exact Hreturned |].
  destruct (RunJob_transaction_returned _ _ _ _ _ _ _ Hjob Hreturned)
    as (created & Hruns & Hjobs & Hidx & _ & _ & _ & Htasks & _).
  assert (Hcreated : length created = length (Job.parameters job)).
  { rewrite <- (length_fmap NonInteractivePipelineRun.pipeline_run_index), Hidx,
      length_seqZ. lia. }
  split.
  { rewrite <- (length_fmap fst), Htasks, length_fmap. exact Hcreated. }
  split; [rewrite Hruns, length_app; lia |].
  rewrite Hjobs. apply lookup_insert_eq.
Qed.

(** The compensation of a failed dispatch marks rows as failed and leaves the
    counters alone: the invocation stays in the history. *)
Lemma RunJob_revert_keeps_counters job_uuid kw db :
  keeps_counters job_uuid db (RunJob_revert kw db).
Proof.
  unfold RunJob_revert. destruct (RunJob.job kw) as [job |];
    [| by apply keeps_counters_same_jobs].
  case_bool_decide; [| by apply keeps_counters_same_jobs].
  cbn [jobs set_pipeline_runs set_pipeline_run_steps set_jobs].
  destruct (jobs db !! Job.uuid job) as [row |] eqn:Hrow.
  - eapply (keeps_counters_insert _ (Job.uuid job) row); [exact Hrow | | |].
    + cbn. by apply alter_lookup_insert.
    + by destruct row.
    + by destruct row.
  - apply keeps_counters_same_jobs. cbn. apply map_eq. intros key.
    destruct (decide (key = Job.uuid job)) as [-> | Hother].
    + by rewrite lookup_alter_eq, Hrow.
    + by rewrite lookup_alter_ne.
Qed.

(** * Further properties of the operations *)

(** ** The scheduler query *)

#[local] Instance scheduled_no_later_total : Total scheduled_no_later.
Proof.
  intros job job'. unfold scheduled_no_later.
  destruct (Job.next_scheduled_time job), (Job.next_scheduled_time job'); lia.
Qed.

#[local] Instance scheduled_no_later_transitive : Transitive scheduled_no_later.
Proof.
  intros job1 job2 job3. unfold scheduled_no_later.
  destruct (Job.next_scheduled_time job1), (Job.next_scheduled_time job2),
    (Job.next_scheduled_time job3); lia.
Qed.

(** The head of a sorted list is a member that is below every member. *)
Lemma head_merge_sort_least {A} (R : relation A) `{∀ x y, Decision (R x y)}
    `{!Total R} `{!Transitive R} (l : list A) x :
  head (merge_sort R l) = Some x →
  x ∈ l ∧ ∀ y, y ∈ l → R x y.
Proof.
  intros Hhead.
  pose proof (StronglySorted_merge_sort R l) as Hsorted.
  pose proof (merge_sort_Permutation R l) as Hperm.
  destruct (merge_sort R l) as [| z rest]; [discriminate |].
  injection Hhead as ->.
  split; [rewrite <- Hperm; left |].
  intros y Hy. rewrite <- Hperm in Hy.
  apply elem_of_cons in Hy as [-> | Hy].
  - destruct (total R x x); done.
  - apply StronglySorted_inv in Hsorted as [_ Hall].
    by eapply Forall_forall in Hall.
Qed.

Lemma head_merge_sort_none {A} (R : relation A) `{∀ x y, Decision (R x y)}
    (l : list A) :
  head (merge_sort R l) = None → l = [].
Proof.
  intros Hhead. pose proof (merge_sort_Permutation R l) as Hperm.
  destruct (merge_sort R l); [| discriminate].
  by apply Permutation_nil_l in Hperm.
Qed.

(** The rows the scheduler query ranges over. *)
Lemma schedulable_rows project_uuid db job :
  job ∈ filter (λ job, Job.next_scheduled_time job ≠ None)
         (filter (λ job, Job.status job ≠ "DRAFT")
            match project_uuid with
            | Some project_uuid =>
              filter (λ job, Job.project_uuid job = project_uuid)
                (map_to_list (jobs db)).*2
            | None => (map_to_list (jobs db)).*2
            end)
  ↔ (∃ key, jobs db !! key = Some job)
    ∧ Job.status job ≠ "DRAFT"
    ∧ Job.next_scheduled_time job ≠ None
    ∧ (∀ p, project_uuid = Some p → Job.project_uuid job = p).
Proof.
  rewrite !list_elem_of_filter.
  assert (Hrows : job ∈ (map_to_list (jobs db)).*2 ↔ ∃ key, jobs db !! key = Some job).
  { rewrite list_elem_of_fmap. split.
    - intros ([key row] & -> & Hin). exists key. by apply elem_of_map_to_list.
    - intros [key Hkey]. exists (key, job). split; [done |].
      by apply elem_of_map_to_list. }
  destruct project_uuid as [p |].
  - rewrite list_elem_of_filter, Hrows. split.
    + intros (? & ? & ? & ?). repeat split; try done. by intros ? [= <-].
    + intros (? & ? & ? & Hp). repeat split; try done. by apply Hp.
  - rewrite Hrows. split.
    + intros (? & ? & ?). repeat split; done.
    + intros (? & ? & ? & _). repeat split; done.
Qed.

(** X1. The scheduler query answers with a job that is not a draft and has a next
    scheduled time, the earliest of all such jobs (of the project, when one is
    asked for), however far in the past; it answers with two nulls exactly when
    there is no such job. *)
Theorem next_scheduled_job_is_earliest project_uuid db :
  match NextScheduledJob_get project_uuid db with
  | (Some uuid, Some time) =>
    ∃ key job,
      jobs db !! key = Some job
      ∧ Job.uuid job = uuid
      ∧ Job.next_scheduled_time job = Some time
      ∧ Job.status job ≠ "DRAFT"
      ∧ (∀ p, project_uuid = Some p → Job.project_uuid job = p)
      ∧ ∀ key' job' time',
          jobs db !! key' = Some job' →
          Job.status job' ≠ "DRAFT" →
          Job.next_scheduled_time job' = Some time' →
          (∀ p, project_uuid = Some p → Job.project_uuid job' = p) →
          time ≤ time'
  | (None, None) =>
    ∀ key job,
      jobs db !! key = Some job →
      (∀ p, project_uuid = Some p → Job.project_uuid job = p) →
      Job.status job = "DRAFT" ∨ Job.next_scheduled_time job = None
  | _ => False
  end.
Proof.
  unfold NextScheduledJob_get. cbv zeta.
  destruct (head (merge_sort scheduled_no_later _)) as [job |] eqn:Hhead.
  - apply head_merge_sort_least in Hhead as [Hin Hleast]; [| apply _ ..].
    apply schedulable_rows in Hin as ([key Hkey] & Hstatus & Htime & Hproject).
    destruct (Job.next_scheduled_time job) as [time |] eqn:Hnext; [| done].
    exists key, job. repeat split; try done.
    intros key' job' time' Hkey' Hstatus' Hnext' Hproject'.
    assert (Hin' : job' ∈ filter (λ job, Job.next_scheduled_time job ≠ None)
                     (filter (λ job, Job.status job ≠ "DRAFT")
                        match project_uuid with
                        | Some project_uuid =>
                          filter (λ job, Job.project_uuid job = project_uuid)
                            (map_to_list (jobs db)).*2
                        | None => (map_to_list (jobs db)).*2
                        end)).
    { apply schedulable_rows. repeat split; eauto. by rewrite Hnext'. }
    apply Hleast in Hin'. unfold scheduled_no_later in Hin'.
    by rewrite Hnext, Hnext' in Hin'.
  - apply head_merge_sort_none in Hhead.
    intros key job Hkey Hproject.
    destruct (decide (Job.status job = "DRAFT")) as [| Hstatus]; [by left |].
    destruct (Job.next_scheduled_time job) as [time |] eqn:Hnext; [| by right].
    assert (Hin : job ∈ filter (λ job, Job.next_scheduled_time job ≠ None)
                    (filter (λ job, Job.status job ≠ "DRAFT")
                       match project_uuid with
                       | Some project_uuid =>
                         filter (λ job, Job.project_uuid job = project_uuid)
                           (map_to_list (jobs db)).*2
                       | None => (map_to_list (jobs db)).*2
                       end)).
    { apply schedulable_rows. repeat split; eauto. by rewrite Hnext. }
    rewrite Hhead in Hin. by apply elem_of_nil in Hin.
Qed.

(** A row without a next scheduled time, or a draft, is never the answer of the
    scheduler query. *)
Lemma next_scheduled_job_skips project_uuid db key job :
  well_keyed db →
  jobs db !! key = Some job →
  Job.status job = "DRAFT" ∨ Job.next_scheduled_time job = None →
  (NextScheduledJob_get project_uuid db).1 ≠ Some key.
Proof.
  intros Hkeyed Hjob Hskip. unfold NextScheduledJob_get. cbv zeta.
  destruct (head (merge_sort scheduled_no_later _)) as [next_job |] eqn:Hhead;
    [| done].
  apply head_merge_sort_least in Hhead as [Hin _]; [| apply _ ..].
  apply schedulable_rows in Hin as ([key' Hkey'] & Hstatus & Htime & _).
  cbn [fst]. intros [= Huuid].
  pose proof (Hkeyed _ _ Hkey') as Hsame. rewrite Huuid in Hsame. subst key'.
  rewrite Hjob in Hkey'. injection Hkey' as <-.
  by destruct Hskip.
Qed.

(** A job with a next scheduled time that is not a draft makes the scheduler
    query answer, with a time that is not later than that of the job. *)
Lemma next_scheduled_job_considers db key job time :
  jobs db !! key = Some job →
  Job.status job ≠ "DRAFT" →
  Job.next_scheduled_time job = Some time →
  ∃ uuid time',
    NextScheduledJob_get None db = (Some uuid, Some time') ∧ time' ≤ time.
Proof.
  intros Hjob Hstatus Htime.
  assert (Hin : job ∈ filter (λ job, Job.next_scheduled_time job ≠ None)
                  (filter (λ job, Job.status job ≠ "DRAFT")
                     (map_to_list (jobs db)).*2)).
  { apply (schedulable_rows None). split; [by eauto |]. split; [done |].
    split; [by rewrite Htime | done]. }
  unfold NextScheduledJob_get. cbv zeta.
  destruct (head (merge_sort scheduled_no_later _)) as [next_job |] eqn:Hhead.
  - apply head_merge_sort_least in Hhead as [Hnext Hleast]; [| apply _ ..].
    apply (schedulable_rows None) in Hnext as (_ & _ & Hnext & _).
    specialize (Hleast job Hin). unfold scheduled_no_later in Hleast.
    rewrite Htime in Hleast.
    destruct (Job.next_scheduled_time next_job) as [time' |]; [| done].
    by exists (Job.uuid next_job), time'.
  - apply head_merge_sort_none in Hhead. rewrite Hhead in Hin.
    by apply elem_of_nil in Hin.
Qed.

Lemma well_keyed_insert db key job :
  well_keyed db → Job.uuid job = key →
  well_keyed (set_jobs (<[key := job]> (jobs db)) db).
Proof.
  intros Hkeyed Huuid key' job'. cbn.
  destruct (decide (key = key')) as [<- | Hother].
  - rewrite lookup_insert_eq. by intros [= <-].
  - rewrite lookup_insert_ne by done. apply Hkeyed.
Qed.

(** X2. Once a cron job is paused, or a job is aborted, the scheduler query does
    not answer with it any more, for whatever project it is asked. *)
Theorem paused_or_aborted_job_is_not_scheduled E project_uuid job_uuid db :
  well_keyed db →
  (∀ db', PauseCronJob_transaction job_uuid db = Returned true db' →
          (NextScheduledJob_get project_uuid db').1 ≠ Some job_uuid)
  ∧ (∀ kw db', AbortJob_transaction E job_uuid db = Returned (Some true, kw) db' →
               (NextScheduledJob_get project_uuid db').1 ≠ Some job_uuid).
Proof.
  intros Hkeyed. split.
  - intros db'. unfold PauseCronJob_transaction, query_cron_job.
    rewrite bind_get_db.
    destruct (jobs db !! job_uuid) as [job |] eqn:Hjob; [| done].
    case_bool_decide; [| done].
    rewrite bind_flush_job. intros [= <-].
    eapply next_scheduled_job_skips.
    + apply well_keyed_insert; [done |].
      rewrite <- (Hkeyed _ _ Hjob). by destruct job.
    + cbn. apply lookup_insert_eq.
    + right. by destruct job.
  - intros kw db'. unfold AbortJob_transaction. rewrite bind_get_db.
    destruct (jobs db !! job_uuid) as [job |] eqn:Hjob; [| done].
    case_bool_decide; [done |].
    rewrite bind_flush_job, bind_modify_db. intros [= <- <-].
    eapply next_scheduled_job_skips.
    + intros key row. rewrite abort_runs_keep_jobs.
      apply (well_keyed_insert db job_uuid); [done |].
      rewrite <- (Hkeyed _ _ Hjob). by destruct job.
    + rewrite abort_runs_keep_jobs. cbn. apply lookup_insert_eq.
    + right. by destruct job.
Qed.

Lemma example_db_well_keyed job runs :
  Job.uuid job = "job-1" → well_keyed (example_db job runs).
Proof.
  intros Huuid key row. unfold example_db. cbn.
  intros [<- <-]%lookup_singleton_Some. exact Huuid.
Qed.

Lemma paused_or_aborted_job_is_not_scheduled_witness :
  (NextScheduledJob_get None
     (committed db_started_cron_job
        (PauseCronJob_transaction "job-1" db_started_cron_job))).1 ≠ Some "job-1".
Proof.
  apply (proj1 (paused_or_aborted_job_is_not_scheduled example_externals None "job-1"
                  db_started_cron_job
                  (example_db_well_keyed
                     (example_job "STARTED" (Some "0 * * * *") [[]] 0 0 (-1)) []
                     eq_refl))).
  vm_compute. reflexivity.
Defined.

(** X3. A resumed cron job is taken into account by the scheduler query: the
    query answers, with a time that is not later than the next occurrence the
    resume computed. *)
Theorem resumed_job_is_scheduled E now job_uuid db next db' :
  ResumeCronJob_transaction E now job_uuid db = Returned (Some next) db' →
  ∃ uuid time,
    NextScheduledJob_get None db' = (Some uuid, Some time) ∧ time ≤ next.
Proof.
  unfold ResumeCronJob_transaction, query_cron_job. rewrite bind_get_db.
  destruct (jobs db !! job_uuid) as [job |] eqn:Hjob; [| done].
  case_bool_decide; [| done].
  destruct (Job.schedule (Job.set_status "STARTED" job)) as [schedule |]; [| done].
  rewrite bind_flush_job. intros [= <- <-].
  eapply (next_scheduled_job_considers _ job_uuid).
  - cbn. apply lookup_insert_eq.
  - by destruct job.
  - by destruct job.
Qed.

Lemma resumed_job_is_scheduled_witness :
  ∃ uuid time,
    NextScheduledJob_get None
      (committed db_paused_cron_job
         (ResumeCronJob_transaction example_externals 5000 "job-1" db_paused_cron_job))
    = (Some uuid, Some time)
    ∧ time ≤ 7200.
Proof.
  apply (resumed_job_is_scheduled example_externals 5000 "job-1" db_paused_cron_job).
  vm_compute. reflexivity.
Defined.

(** X4. Pausing a started cron job and resuming it restores the row but for its
    next scheduled time, which is recomputed from the time of the resume; the
    runs and the steps are not touched. *)
Theorem pause_then_resume E now job_uuid job schedule db :
  jobs db !! job_uuid = Some job →
  Job.status job = "STARTED" →
  Job.schedule job = Some schedule →
  ∃ db1,
    PauseCronJob_transaction job_uuid db = Returned true db1
    ∧ ResumeCronJob_transaction E now job_uuid db1
      = Returned (Some (croniter_get_next E schedule now))
          (set_jobs
             (<[job_uuid := Job.set_next_scheduled_time
                              (Some (croniter_get_next E schedule now)) job]>
                (jobs db)) db).
Proof.
  intros Hjob Hstarted Hschedule. eexists. split.
  - unfold PauseCronJob_transaction, query_cron_job. rewrite bind_get_db, Hjob.
    rewrite bool_decide_eq_true_2 by (by rewrite Hschedule).
    rewrite bind_flush_job. reflexivity.
  - unfold ResumeCronJob_transaction, query_cron_job. rewrite bind_get_db.
    cbn [jobs set_jobs]. rewrite lookup_insert_eq.
    rewrite bool_decide_eq_true_2
      by (split; [by destruct job | destruct job; cbn in *; by rewrite Hschedule]).
    assert (Hkept : Job.schedule
                      (Job.set_status "STARTED"
                         (Job.set_next_scheduled_time None (Job.set_status "PAUSED" job)))
                    = Some schedule) by (by destruct job).
    rewrite Hkept, bind_flush_job. unfold set_jobs. cbn.
    rewrite insert_insert_eq.
    assert (Hrow :
      Job.set_next_scheduled_time (Some (croniter_get_next E schedule now))
        (Job.set_status "STARTED"
           (Job.set_next_scheduled_time None (Job.set_status "PAUSED" job)))
      = Job.set_next_scheduled_time (Some (croniter_get_next E schedule now)) job).
    { destruct job; cbn in *. by subst. }
    by rewrite Hrow.
Qed.

Lemma pause_then_resume_witness :
  ResumeCronJob_transaction example_externals 5000 "job-1"
    (committed db_started_cron_job
       (PauseCronJob_transaction "job-1" db_started_cron_job))
  = Returned (Some 7200)
      (example_db
         (Job.set_next_scheduled_time (Some 7200)
            (example_job "STARTED" (Some "0 * * * *") [[]] 0 0 (-1))) []).
Proof.
  destruct (pause_then_resume example_externals 5000 "job-1"
              (example_job "STARTED" (Some "0 * * * *") [[]] 0 0 (-1)) "0 * * * *"
              db_started_cron_job eq_refl eq_refl eq_refl) as (db1 & Hpause & Hresume).
  rewrite Hpause. cbn [committed]. rewrite Hresume. vm_compute. reflexivity.
Defined.

(** ** CreateJob *)

Lemma bind_session_add_job {B} job (k : unit → M B) db :
  bind (session_add_job job) k db
  = match jobs db !! Job.uuid job with
    | Some _ => Raised (ExternalError "IntegrityError: duplicate key value")
    | None => k tt (set_jobs (<[Job.uuid job := job]> (jobs db)) db)
    end.
Proof. unfold bind, session_add_job. by destruct (jobs db !! Job.uuid job). Qed.

(** X5. A job cannot be drafted with both a cron schedule and a scheduled start,
    nor with a cron schedule that croniter does not accept: the transaction
    raises a [ValueError], the handler answers 500, and neither the store nor
    the images are touched. *)
Theorem CreateJob_rejects_schedule E X now created_time job_spec db :
  (is_Some (JobSpec.cron_schedule job_spec) ∧ is_Some (JobSpec.scheduled_start job_spec))
  ∨ (∃ cron_schedule,
       JobSpec.cron_schedule job_spec = Some cron_schedule
       ∧ croniter_is_valid E cron_schedule = false) →
  ∃ msg,
    CreateJob_transaction E X now created_time job_spec db = Raised (ValueError msg)
    ∧ JobList_post E X now created_time job_spec db = (inl msg, 500, db, []).
Proof.
  intros Hbad.
  assert (Htx : ∃ msg,
    CreateJob_transaction E X now created_time job_spec db = Raised (ValueError msg)).
  { unfold CreateJob_transaction. cbv zeta.
    destruct Hbad as [[[cron Hcron] [start Hstart]] | (cron & Hcron & Hinvalid)].
    - rewrite Hcron, Hstart. rewrite bind_raise. eauto.
    - rewrite Hcron. destruct (JobSpec.scheduled_start job_spec).
      + rewrite bind_raise. eauto.
      + rewrite Hinvalid. cbn [negb]. rewrite bind_raise. eauto. }
  destruct Htx as [msg Htx]. exists msg. split; [exact Htx |].
  unfold JobList_post, TwoPhaseExecutor. by rewrite Htx.
Qed.

Lemma CreateJob_rejects_schedule_witness :
  JobList_post example_externals example_create_externals 0 0
    (example_job_spec "job-2" (Some "1970-01-02T00:00:00") (Some "0 * * * *"))
    db_started_cron_job
  = (inl "Can't define both cron_schedule and scheduled_start.", 500,
     db_started_cron_job, []).
Proof.
  destruct (CreateJob_rejects_schedule example_externals example_create_externals 0 0
              (example_job_spec "job-2" (Some "1970-01-02T00:00:00") (Some "0 * * * *"))
              db_started_cron_job ltac:(left; split; eauto))
    as (msg & Htx & Hpost).
  rewrite Hpost. vm_compute in Htx. by injection Htx as <-.
Defined.

Lemma CreateJob_transaction_returned E X now created_time job_spec db job kw db' :
  CreateJob_transaction E X now created_time job_spec db = Returned (job, kw) db' →
  jobs db !! JobSpec.uuid job_spec = None
  ∧ db' = set_jobs (<[JobSpec.uuid job_spec := CreateJob.row job]> (jobs db)) db
  ∧ Job.uuid (CreateJob.row job) = JobSpec.uuid job_spec
  ∧ Job.status (CreateJob.row job) = "DRAFT"
  ∧ Job.total_scheduled_executions (CreateJob.row job) = 0
  ∧ Job.total_scheduled_pipeline_runs (CreateJob.row job) = 0
  ∧ Job.last_scheduled_time (CreateJob.row job) = None
  ∧ Job.schedule (CreateJob.row job) = JobSpec.cron_schedule job_spec
  ∧ match JobSpec.cron_schedule job_spec, JobSpec.scheduled_start job_spec with
    | None, None => Job.next_scheduled_time (CreateJob.row job) = None
    | None, Some scheduled_start =>
      fromisoformat E scheduled_start
      = from_option inr (inr 0) (Job.next_scheduled_time (CreateJob.row job))
      ∧ is_Some (Job.next_scheduled_time (CreateJob.row job))
    | Some cron_schedule, None =>
      croniter_is_valid E cron_schedule = true
      ∧ Job.next_scheduled_time (CreateJob.row job)
        = Some (croniter_get_next E cron_schedule now)
    | Some _, Some _ => False
    end
  ∧ CreateJob.job_uuid kw = JobSpec.uuid job_spec
  ∧ (well_keyed db →
     well_keyed db'
     ∧ ∀ project_uuid,
         (NextScheduledJob_get project_uuid db').1 ≠ Some (JobSpec.uuid job_spec)).
Proof.
  unfold CreateJob_transaction. cbv zeta. intros Hcreated.
  apply bind_returned in Hcreated as (next & db1 & Hnext & Hcreated).
  rewrite bind_session_add_job in Hcreated. cbn [Job.uuid] in Hcreated.
  assert (Hschedule :
    db1 = db
    ∧ match JobSpec.cron_schedule job_spec, JobSpec.scheduled_start job_spec with
      | None, None => next = None
      | None, Some scheduled_start =>
        fromisoformat E scheduled_start = from_option inr (inr 0) next ∧ is_Some next
      | Some cron_schedule, None =>
        croniter_is_valid E cron_schedule = true
        ∧ next = Some (croniter_get_next E cron_schedule now)
      | Some _, Some _ => False
      end).
  { destruct (JobSpec.cron_schedule job_spec) as [cron |],
      (JobSpec.scheduled_start job_spec) as [start |].
    - discriminate Hnext.
    - destruct (croniter_is_valid E cron); cbn in Hnext; [| discriminate Hnext].
      injection Hnext as <- <-. auto.
    - apply bind_lift_returned in Hnext as (time & Htime & Hnext).
      injection Hnext as <- <-. rewrite Htime. cbn. eauto.
    - injection Hnext as <- <-. auto. }
  destruct Hschedule as [-> Hschedule].
  destruct (jobs db !! JobSpec.uuid job_spec) eqn:Hfree; [done |].
  apply bind_lift_returned in Hcreated as (pipeline & _ & Hcreated).
  injection Hcreated as <- <- <-. cbn.
  repeat (split; [done |]).
  intros Hkeyed.
  match goal with
  | |- well_keyed ?store ∧ _ =>
    assert (Hkeyed' : well_keyed store)
      by (apply well_keyed_insert; [exact Hkeyed | reflexivity])
  end.
  split; [exact Hkeyed' |].
  intros project_uuid. eapply next_scheduled_job_skips; [exact Hkeyed' | |].
  - cbn. apply lookup_insert_eq.
  - by left.
Qed.

(** X6. What a returned [CreateJob] has done: the store has gained one row under
    the uuid of the request and nothing else has changed; the row is a DRAFT
    that has not been executed yet; its schedule is the cron schedule of the
    request, which croniter accepts, and its next scheduled time is the next
    occurrence of that schedule after now, or the scheduled start, or nothing;
    a request with both is never drafted.  The scheduler query does not answer
    with the draft. *)
Theorem CreateJob_drafts E X now created_time job_spec db job kw db' :
  CreateJob_transaction E X now created_time job_spec db = Returned (job, kw) db' →
  db' = set_jobs (<[JobSpec.uuid job_spec := CreateJob.row job]> (jobs db)) db
  ∧ Job.uuid (CreateJob.row job) = JobSpec.uuid job_spec
  ∧ Job.status (CreateJob.row job) = "DRAFT"
  ∧ Job.total_scheduled_executions (CreateJob.row job) = 0
  ∧ Job.schedule (CreateJob.row job) = JobSpec.cron_schedule job_spec
  ∧ match JobSpec.cron_schedule job_spec, JobSpec.scheduled_start job_spec with
    | None, None => Job.next_scheduled_time (CreateJob.row job) = None
    | None, Some scheduled_start =>
      ∃ time, fromisoformat E scheduled_start = inr time
              ∧ Job.next_scheduled_time (CreateJob.row job) = Some time
    | Some cron_schedule, None =>
      croniter_is_valid E cron_schedule = true
      ∧ Job.next_scheduled_time (CreateJob.row job)
        = Some (croniter_get_next E cron_schedule now)
    | Some _, Some _ => False
    end
  ∧ (well_keyed db →
     well_keyed db'
     ∧ ∀ project_uuid,
         (NextScheduledJob_get project_uuid db').1 ≠ Some (JobSpec.uuid job_spec)).
Proof.
  intros Hcreated.
  destruct (CreateJob_transaction_returned _ _ _ _ _ _ _ _ _ Hcreated)
    as (_ & Hstore & Huuid & Hdraft & Hexecutions & _ & _ & Hschedule & Hnext & _
        & Hscheduler).
  split; [exact Hstore |]. split; [exact Huuid |]. split; [exact Hdraft |].
  split; [exact Hexecutions |]. split; [exact Hschedule |].
  split; [| exact Hscheduler].
  destruct (JobSpec.cron_schedule job_spec), (JobSpec.scheduled_start job_spec);
    try done.
  destruct Hnext as [Hiso [time Htime]]. exists time.
  by rewrite Hiso, Htime.
Qed.

Lemma CreateJob_drafts_witness :
  Job.status
    <$> jobs (committed db_started_cron_job
                (CreateJob_transaction example_externals example_create_externals 5000 0
                   (example_job_spec "job-2" None (Some "0 * * * *"))
                   db_started_cron_job)) !! "job-2"
  = Some "DRAFT".
Proof.
  destruct (CreateJob_transaction example_externals example_create_externals 5000 0
              (example_job_spec "job-2" None (Some "0 * * * *")) db_started_cron_job)
    as [[job kw] db' | e] eqn:Hcreated; [| vm_compute in Hcreated; discriminate Hcreated].
  destruct (CreateJob_drafts _ _ _ _ _ _ _ _ _ Hcreated)
    as (-> & _ & Hdraft & _).
  cbn. rewrite lookup_insert_eq. cbn. by rewrite Hdraft.
Defined.

(** X7. The compensation of [CreateJob] undoes its transaction: the store is the
    one from before the draft.  When the images cannot be locked the handler
    answers 500 and leaves no draft behind. *)
Theorem CreateJob_revert_undoes E X now created_time job_spec db job kw db' :
  CreateJob_transaction E X now created_time job_spec db = Returned (job, kw) db' →
  CreateJob_revert kw db' = db
  ∧ match CreateJob_collateral X kw db' with
    | (tr, inl e) =>
      JobList_post E X now created_time job_spec db = (inl (str e), 500, db, tr)
    | (tr, inr _) =>
      JobList_post E X now created_time job_spec db = (inr job, 201, db', tr)
    end.
Proof.
  intros Hcreated.
  assert (Hrevert : CreateJob_revert kw db' = db).
  { destruct (CreateJob_transaction_returned _ _ _ _ _ _ _ _ _ Hcreated)
      as (Hfree & -> & _ & _ & _ & _ & _ & _ & _ & Hkw & _).
    unfold CreateJob_revert, set_jobs. cbn. rewrite Hkw.
    rewrite delete_insert_id by done. by destruct db. }
  split; [exact Hrevert |].
  unfold JobList_post, TwoPhaseExecutor. rewrite Hcreated.
  destruct (CreateJob_collateral X kw db') as [tr [e | []]]; [by rewrite Hrevert | done].
Qed.

Lemma CreateJob_revert_undoes_witness :
  JobList_post example_externals failing_image_lock 5000 0
    (example_job_spec "job-2" None (Some "0 * * * *")) db_started_cron_job
  = (inl "could not lock the images", 500, db_started_cron_job, []).
Proof.
  destruct (CreateJob_transaction example_externals failing_image_lock 5000 0
              (example_job_spec "job-2" None (Some "0 * * * *")) db_started_cron_job)
    as [[job kw] db' | e] eqn:Hcreated; [| vm_compute in Hcreated; discriminate Hcreated].
  pose proof (proj2 (CreateJob_revert_undoes _ _ _ _ _ _ _ _ _ Hcreated)) as Hpost.
  cbn in Hpost. exact Hpost.
Defined.

(** ** DeleteJob *)




Lemma fmap_filter_through {A B} (f : A → B) (P : B → Prop) (Q : A → Prop)
    `{∀ b, Decision (P b)} `{∀ a, Decision (Q a)} (l : list A) :
  (∀ a, Q a ↔ P (f a)) →
  f <$> filter Q l = filter P (f <$> l).
Proof.
  intros Hsame. induction l as [| a l IH]; [done |].
  cbn [fmap list_fmap]. rewrite !filter_cons.
  destruct (decide (Q a)) as [HQ | HQ], (decide (P (f a))) as [HP | HP]; cbn;
    rewrite ?IH; first [done | by apply Hsame in HQ | by apply Hsame in HP].
Qed.

Lemma abort_runs_keep_keys E run_uuids :
  update_keeps_keys E →
  ∀ db,
    (λ run, (NonInteractivePipelineRun.uuid run, NonInteractivePipelineRun.job_uuid run))
      <$> pipeline_runs (foldl (abort_run_and_steps E) db run_uuids)
    = (λ run, (NonInteractivePipelineRun.uuid run, NonInteractivePipelineRun.job_uuid run))
        <$> pipeline_runs db
    ∧ PipelineRunStep.run_uuid
        <$> pipeline_run_steps (foldl (abort_run_and_steps E) db run_uuids)
      = PipelineRunStep.run_uuid <$> pipeline_run_steps db.
Proof.
  intros [Hruns Hsteps].
  induction run_uuids as [| run_uuid rest IH]; intros db; [done |].
  cbn [foldl]. destruct (IH (abort_run_and_steps E db run_uuid)) as [-> ->].
  unfold abort_run_and_steps. cbn. by rewrite Hruns, Hsteps.
Qed.

Lemma filter_same_keys (P : string → Prop)
    `{∀ run, Decision (P (NonInteractivePipelineRun.job_uuid run))}
    (rows1 rows2 : list NonInteractivePipelineRun.t) :
  (λ run, (NonInteractivePipelineRun.uuid run, NonInteractivePipelineRun.job_uuid run))
    <$> rows1
  = (λ run, (NonInteractivePipelineRun.uuid run, NonInteractivePipelineRun.job_uuid run))
      <$> rows2 →
  NonInteractivePipelineRun.uuid
    <$> filter (λ run, P (NonInteractivePipelineRun.job_uuid run)) rows1
  = NonInteractivePipelineRun.uuid
      <$> filter (λ run, P (NonInteractivePipelineRun.job_uuid run)) rows2.
Proof.
  revert rows2. induction rows1 as [| run1 rows1 IH]; intros [| run2 rows2] Hkeys;
    try done.
  cbn in Hkeys. injection Hkeys as Huuid Hjob Hkeys.
  rewrite !filter_cons.
  destruct (decide (P (NonInteractivePipelineRun.job_uuid run1))),
    (decide (P (NonInteractivePipelineRun.job_uuid run2))); cbn;
    rewrite ?Huuid, ?(IH rows2 Hkeys); congruence.
Qed.

(** X9. When [update_status_db] keeps the keys of the rows, the runs [DeleteJob]
    leaves are the runs of the other jobs, and the steps it leaves are the
    steps of the runs of the other jobs: no step of a deleted run stays. *)
Theorem DeleteJob_leaves_no_orphans E job_uuid job db r db' :
  update_keeps_keys E →
  jobs db !! job_uuid = Some job →
  DeleteJob_transaction E job_uuid db = Returned r db' →
  NonInteractivePipelineRun.uuid <$> pipeline_runs db'
  = NonInteractivePipelineRun.uuid
      <$> filter (λ run, NonInteractivePipelineRun.job_uuid run ≠ Job.uuid job)
            (pipeline_runs db)
  ∧ PipelineRunStep.run_uuid <$> pipeline_run_steps db'
    = filter (λ run_uuid,
                run_uuid ∉ NonInteractivePipelineRun.uuid
                             <$> filter (λ run, NonInteractivePipelineRun.job_uuid run
                                                = Job.uuid job) (pipeline_runs db))
        (PipelineRunStep.run_uuid <$> pipeline_run_steps db).
Proof.
  intros Hkeys Hjob. unfold DeleteJob_transaction.
  rewrite bind_get_db, Hjob. intros Hdeleted.
  apply bind_returned in Hdeleted as (aborted & db1 & Habort & Hdeleted).
  rewrite bind_modify_db in Hdeleted. injection Hdeleted as <- <-.
  assert (Hkept :
    (λ run, (NonInteractivePipelineRun.uuid run, NonInteractivePipelineRun.job_uuid run))
      <$> pipeline_runs db1
    = (λ run, (NonInteractivePipelineRun.uuid run, NonInteractivePipelineRun.job_uuid run))
        <$> pipeline_runs db
    ∧ PipelineRunStep.run_uuid <$> pipeline_run_steps db1
      = PipelineRunStep.run_uuid <$> pipeline_run_steps db).
  { unfold AbortJob_transaction in Habort. rewrite bind_get_db, Hjob in Habort.
    case_bool_decide; [by injection Habort as <- <- |].
    rewrite bind_flush_job, bind_modify_db in Habort. injection Habort as <- <-.
    by destruct (abort_runs_keep_keys E
                   (NonInteractivePipelineRun.uuid <$>
                      filter (λ run, NonInteractivePipelineRun.status run
                                     ∈ ["PENDING"; "STARTED"])
                        (filter (λ run, NonInteractivePipelineRun.job_uuid run
                                        = Job.uuid
                                            (Job.set_next_scheduled_time None
                                               (Job.set_status "ABORTED" job)))
                           (pipeline_runs db)))
                   Hkeys
                   (set_jobs (<[job_uuid := Job.set_next_scheduled_time None
                                              (Job.set_status "ABORTED" job)]>
                                (jobs db)) db)) as [-> ->]. }
  destruct Hkept as [Hruns Hsteps].
  unfold delete_job_row. cbn. split.
  - by apply (filter_same_keys (λ s, s ≠ Job.uuid job)).
  - rewrite (filter_same_keys (λ s, s = Job.uuid job) (pipeline_runs db1)
               (pipeline_runs db)) by done.
    rewrite <- Hsteps. by apply fmap_filter_through.
Qed.

Lemma example_update_keeps_keys : update_keeps_keys example_externals.
Proof.
  split; intros status_update filter_by rows; cbn; unfold update_status_db;
    rewrite <- list_fmap_compose; apply list_fmap_ext; intros i row _; cbn;
    case_match; by destruct row.
Qed.

Lemma DeleteJob_leaves_no_orphans_witness :
  NonInteractivePipelineRun.uuid
    <$> pipeline_runs (committed db_two_jobs
                         (DeleteJob_transaction example_externals "job-1" db_two_jobs))
  = ["run-x"]
  ∧ PipelineRunStep.run_uuid
      <$> pipeline_run_steps (committed db_two_jobs
                                (DeleteJob_transaction example_externals "job-1" db_two_jobs))
    = ["run-x"].
Proof.
  destruct (DeleteJob_transaction example_externals "job-1" db_two_jobs)
    as [r db' | e] eqn:Hdeleted; [| vm_compute in Hdeleted; discriminate Hdeleted].
  destruct (DeleteJob_leaves_no_orphans example_externals "job-1"
              (job_named "job-1" "STARTED") db_two_jobs r db'
              example_update_keeps_keys ltac:(vm_compute; reflexivity) Hdeleted)
    as [Hruns Hsteps].
  cbn [committed]. rewrite Hruns, Hsteps. vm_compute. split; reflexivity.
Defined.

(** ** The effects of the collateral phases *)

Lemma cbind_trace {A B} (c : C A) (k : A → C B) :
  (cbind c k).1 = c.1 ++ match c.2 with inl _ => [] | inr a => (k a).1 end
  ∧ (cbind c k).2 = match c.2 with inl e => inl e | inr a => (k a).2 end.
Proof.
  destruct c as [tr [e | a]]; cbn; [by rewrite app_nil_r |].
  by destruct (k a).
Qed.



(** ** The retention pruner, whatever the webserver does *)

Lemma deletion_loop E job_uuid run_uuids :
  let looped := cfor run_uuids (delete_run E job_uuid) in
  deletion_requests looped.1 `prefix_of` (cleanup_url E job_uuid <$> run_uuids)
  ∧ (looped.2 = inr tt →
     deletion_requests looped.1 = cleanup_url E job_uuid <$> run_uuids)
  ∧ (∀ e, looped.2 = inl e →
       ∃ url msg,
         last (deletion_requests looped.1) = Some url
         ∧ requests_delete_outcome E url = NoResponse msg
         ∧ e = RequestException msg).
Proof.
  induction run_uuids as [| run_uuid rest IH]; cbn zeta.
  - cbn. split; [done |]. split; [done | intros e H; discriminate H].
  - cbn [cfor fmap list_fmap].
    destruct (cbind_trace (delete_run E job_uuid run_uuid)
                (λ _, cfor rest (delete_run E job_uuid))) as [-> ->].
    destruct (requests_delete_outcome E (cleanup_url E job_uuid run_uuid))
      as [status_code | msg] eqn:Houtcome.
    + rewrite (delete_run_responded _ _ _ _ Houtcome). cbn [fst snd].
      cbn zeta in IH. destruct IH as (Hprefix & Hall & Hfailed).
      assert (Hrequests : ∀ tr,
        deletion_requests
          ([log_info ("Deleting run " +:+ run_uuid +:+ ".");
            http_delete (cleanup_url E job_uuid run_uuid);
            if bool_decide (status_code ∈ [200; 404])
            then log_info ("Successfully deleted run " +:+ run_uuid +:+ ".")
            else log_error ("Unexpected status code (" +:+ pretty status_code
                            +:+ ") while deleting run " +:+ run_uuid +:+ ".")] ++ tr)
        = cleanup_url E job_uuid run_uuid :: deletion_requests tr)
        by (intros tr; by case_bool_decide).
      rewrite Hrequests. split; [by apply prefix_cons |].
      split; [intros Hreturned; by rewrite Hall |].
      intros e Hraised. destruct (Hfailed e Hraised) as (url & msg & Hlast & H).
      exists url, msg. split; [| done].
      destruct (deletion_requests (cfor rest (delete_run E job_uuid)).1); by cbn in *.
    + rewrite (delete_run_no_response _ _ _ _ Houtcome). cbn.
      split; [apply prefix_cons, prefix_nil |].
      split; [intros H; discriminate H |].
      intros e [= <-]. by exists (cleanup_url E job_uuid run_uuid), msg.
Qed.

(** X11. The deletion requests of one pruning invocation are an initial part of the
    addresses of the selected runs, in the order of the selection; when the
    invocation returns and retention is limited every selected run has been
    requested; when it raises, the last request made is one that got no
    response, its exception is the one raised, and the runs after it are not
    requested. *)
Theorem pruning_stops_at_the_first_failed_request E job_uuid job db :
  jobs db !! job_uuid = Some job →
  let pruned := _delete_non_retained_pipeline_runs E job_uuid db in
  let urls := cleanup_url E job_uuid <$> runs_to_be_deleted job_uuid job db in
  deletion_requests pruned.1 `prefix_of` urls
  ∧ (pruned.2 = inr tt → 0 ≤ Job.max_retained_pipeline_runs job →
     deletion_requests pruned.1 = urls)
  ∧ (∀ e, pruned.2 = inl e →
       ∃ url msg,
         last (deletion_requests pruned.1) = Some url
         ∧ requests_delete_outcome E url = NoResponse msg
         ∧ e = RequestException msg).
Proof.
  intros Hjob. cbn zeta. rewrite (pruner_unfold _ _ _ _ Hjob), cbind_emit.
  case_bool_decide as Hretained.
  - cbn. split; [apply prefix_nil |]. split; [lia | intros e H; discriminate H].
  - destruct (deletion_loop E job_uuid (runs_to_be_deleted job_uuid job db))
      as (Hprefix & Hall & Hfailed).
    cbn [fst snd]. change (deletion_requests (log_info ?m :: ?tr))
      with (deletion_requests tr).
    split; [done |]. split; [by intros H _; apply Hall | done].
Qed.

Lemma pruning_stops_at_the_first_failed_request_witness :
  deletion_requests
    (_delete_non_retained_pipeline_runs unreachable_webserver "job-1"
       (example_db job_retaining_two five_completed_runs)).1
  `prefix_of` cleanup_url unreachable_webserver "job-1"
              <$> runs_to_be_deleted "job-1" job_retaining_two
                    (example_db job_retaining_two five_completed_runs).
Proof.
  exact (proj1 (pruning_stops_at_the_first_failed_request unreachable_webserver "job-1"
                  job_retaining_two (example_db job_retaining_two five_completed_runs)
                  eq_refl)).
Defined.

(** ** RunJob: the rows and the tasks of one invocation *)

Lemma RunJob_loop_rows E uuid4 job_uuid job0 parameters :
  ∀ run_index job tasks db job' tasks' db',
    Job.pipeline_definition job = Job.pipeline_definition job0 →
    Job.pipeline_run_spec job = Job.pipeline_run_spec job0 →
    Job.env_variables job = Job.env_variables job0 →
    RunJob_loop E uuid4 job_uuid run_index parameters job tasks db
    = Returned (job', tasks') db' →
    ∃ created new_tasks,
      pipeline_runs db' = pipeline_runs db ++ created
      ∧ tasks' = tasks ++ new_tasks
      ∧ Forall2 (built_from E job0) parameters new_tasks
      ∧ pipeline_run_steps db'
        = pipeline_run_steps db ++ concat (pending_steps <$> new_tasks)
      ∧ NonInteractivePipelineRun.parameters <$> created = parameters
      ∧ Forall (λ run, NonInteractivePipelineRun.env_variables run
                       = Job.env_variables job0) created.
Proof.
  induction parameters as [| run_parameters rest IH];
    intros run_index job tasks db job' tasks' db' Hdef Hspec Henv Hloop.
  - cbn in Hloop. injection Hloop as <- <- <-. exists [], [].
    rewrite !app_nil_r. repeat split; constructor.
  - cbn [RunJob_loop] in Hloop.
    apply bind_lift_returned in Hloop as (pipeline_def & Hbuilt_def & Hloop).
    apply bind_lift_returned in Hloop as (pipeline & Hbuilt & Hloop).
    rewrite bind_modify_db, bind_flush_job, bind_modify_db in Hloop.
    apply IH in Hloop
      as (created & new_tasks & Hruns & Htasks & Hall & Hsteps & Hparams & Henvs);
      [| by job_rows ..].
    cbn [pipeline_runs set_pipeline_runs set_pipeline_run_steps set_jobs jobs
         pipeline_run_steps] in *.
    eexists (_ :: created), ((uuid4 run_index, pipeline) :: new_tasks).
    split; [rewrite Hruns, <- app_assoc; reflexivity |].
    split; [rewrite Htasks, <- app_assoc; reflexivity |].
    split.
    { constructor; [| exact Hall]. exists pipeline_def. split.
      - rewrite <- Hbuilt_def. unfold run_pipeline_def. by rewrite Hdef.
      - by rewrite <- Hspec. }
    split; [rewrite Hsteps, <- app_assoc; reflexivity |].
    split; [cbn; by rewrite Hparams |].
    constructor; [exact Henv | exact Henvs].
Qed.

Lemma RunJob_transaction_rows E uuid4 job_uuid job db kw db' :
  jobs db !! job_uuid = Some job →
  RunJob_transaction E uuid4 job_uuid db = Returned kw db' →
  Forall2 (built_from E job) (Job.parameters job) (RunJob.tasks_to_launch kw)
  ∧ pipeline_run_steps db'
    = pipeline_run_steps db ++ concat (pending_steps <$> RunJob.tasks_to_launch kw)
  ∧ (∃ created,
       pipeline_runs db' = pipeline_runs db ++ created
       ∧ NonInteractivePipelineRun.parameters <$> created = Job.parameters job
       ∧ NonInteractivePipelineRun.uuid <$> created = (RunJob.tasks_to_launch kw).*1
       ∧ Forall (λ run, NonInteractivePipelineRun.env_variables run
                        = Job.env_variables job) created)
  ∧ RunJob.run_config kw
    = Some (RunConfig.mk (RunConfig.base (PipelineRunSpec.run_config
                                            (Job.pipeline_run_spec job)))
              (Some (image_mappings (Job.uuid job) db))
              (Some (Job.env_variables job))).
Proof.
  intros Hjob Hrun.
  destruct (RunJob_transaction_returned _ _ _ _ _ _ _ Hjob Hrun)
    as (created0 & Hruns0 & _ & _ & _ & _ & _ & Huuids & _).
  unfold RunJob_transaction in Hrun.
  rewrite (bind_query_job_one _ _ _ _ Hjob) in Hrun.
  apply bind_returned in Hrun as ([job1 tasks] & db1 & Hloop & Hrun).
  assert (Hparams :
    Job.parameters (if bool_decide (Job.status job = "PENDING")
                    then Job.set_status "STARTED" job else job)
    = Job.parameters job)
    by (destruct (bool_decide (Job.status job = "PENDING")); by destruct job).
  rewrite Hparams in Hloop.
  pose proof (RunJob_loop_returned _ _ _ _ _ _ _ _ _ _ _ Hloop)
    as (_ & _ & _ & _ & Hjob1 & _ & _ & _ & _ & _ & _ & Hmappings).
  apply (RunJob_loop_rows E uuid4 job_uuid job) in Hloop
    as (created & new_tasks & Hruns & Htasks & Hall & Hsteps & Hsets & Henvs);
    [| destruct (bool_decide (Job.status job = "PENDING")); by destruct job ..].
  rewrite bind_flush_job, bind_get_db in Hrun. cbn in Hrun.
  injection Hrun as <- <-. cbn in Htasks. subst tasks.
  cbn [pipeline_runs pipeline_run_steps set_jobs] in *.
  assert (Hsame : created0 = created)
    by (rewrite Hruns in Hruns0; by apply app_inv_head in Hruns0).
  subst created0.
  assert (Htasks : ∀ v j c, RunJob.tasks_to_launch
            (RunJob.set_tasks_to_launch v (RunJob.set_run_config c (RunJob.set_job j
               (if bool_decide (Job.status job = "ABORTED")
                then RunJob.set_run_config None
                       (RunJob.set_tasks_to_launch []
                          (RunJob.set_job None (RunJob.mk None None [])))
                else RunJob.mk None None [])))) = v)
    by (intros; by case_bool_decide).
  rewrite Htasks in *.
  split; [exact Hall |]. split; [exact Hsteps |].
  split; [by exists created |].
  case_bool_decide; cbn; f_equal; subst job1;
    (f_equal; [by case_bool_decide; job_rows | | by case_bool_decide; job_rows]);
    f_equal; unfold image_mappings; rewrite Hmappings; f_equal;
    case_bool_decide; by job_rows.
Qed.


Lemma set_step_parameters_failed E e run_parameters :
  foldl (set_step_parameters E) (inl e) run_parameters = inl e.
Proof. induction run_parameters as [| item rest IH]; [done | exact IH]. Qed.

(** What the loop over the items of a parameter set leaves of a pipeline
    definition: its parameters are kept, every key that is not the reserved
    one is a step of the definition, and a step has the value of the last item
    of its key as parameters, or its own when no item has its key. *)
Lemma set_step_parameters_result E run_parameters :
  ∀ pipeline_def pipeline_def',
    foldl (set_step_parameters E) (inr pipeline_def) run_parameters = inr pipeline_def' →
    PipelineDef.parameters pipeline_def' = PipelineDef.parameters pipeline_def
    ∧ (∀ item, item ∈ run_parameters →
               item.1 ≠ PIPELINE_PARAMETERS_RESERVED_KEY E →
               is_Some (PipelineDef.steps pipeline_def !! item.1))
    ∧ ∀ step_uuid,
        PipelineDef.steps pipeline_def' !! step_uuid
        = (λ step,
             if bool_decide (step_uuid = PIPELINE_PARAMETERS_RESERVED_KEY E) then step
             else match last (filter (λ item : string * json, item.1 = step_uuid)
                                run_parameters) with
                  | Some item => StepDef.mk (StepDef.environment step) item.2
                  | None => step
                  end)
          <$> PipelineDef.steps pipeline_def !! step_uuid.
Proof.
  induction run_parameters as [| [key value] rest IH];
    intros pipeline_def pipeline_def' Hfolded.
  - cbn in Hfolded. injection Hfolded as <-. split; [done |].
    split; [by intros item Hin%elem_of_nil |].
    intros step_uuid. destruct (PipelineDef.steps pipeline_def !! step_uuid); cbn;
      [by case_bool_decide | done].
  - cbn [foldl set_step_parameters] in Hfolded.
    destruct (decide (key ≠ PIPELINE_PARAMETERS_RESERVED_KEY E)) as [Hstep | Hreserved].
    + rewrite (bool_decide_eq_true_2 _ Hstep) in Hfolded.
      destruct (PipelineDef.steps pipeline_def !! key) as [step |] eqn:Hlookup;
        [| by rewrite set_step_parameters_failed in Hfolded].
      apply IH in Hfolded as (Hparameters & Hkeys & Hsteps). cbn in Hparameters, Hkeys, Hsteps.
      split; [exact Hparameters |]. split.
      * intros item [-> | Hin]%elem_of_cons Hitem; [by exists step |].
        destruct (Hkeys item Hin Hitem) as [step' Hstep'].
        destruct (decide (key = item.1)) as [<- | Hother]; [by exists step |].
        by rewrite lookup_insert_ne in Hstep'.
      * intros step_uuid. rewrite Hsteps, filter_cons. cbn [fst].
        destruct (decide (key = step_uuid)) as [<- | Hother].
        -- rewrite lookup_insert_eq, Hlookup. cbn.
           rewrite (bool_decide_eq_false_2 _ Hstep), last_cons.
           by destruct (last (filter _ rest)).
        -- by rewrite lookup_insert_ne.
    + rewrite (bool_decide_eq_false_2 _ Hreserved) in Hfolded.
      apply IH in Hfolded as (Hparameters & Hkeys & Hsteps).
      split; [exact Hparameters |]. split.
      * intros item [-> | Hin]%elem_of_cons Hitem; [done | by apply Hkeys].
      * intros step_uuid. rewrite Hsteps, filter_cons. cbn [fst].
        destruct (decide (key = step_uuid)) as [<- | Hother]; [| done].
        destruct (PipelineDef.steps pipeline_def !! key); cbn; [| done].
        rewrite bool_decide_eq_true_2; [done |].
        by destruct (decide (key = PIPELINE_PARAMETERS_RESERVED_KEY E)).
Qed.

(** The image mappings handed over: an environment is mapped to the image of
    the last mapping row of the job for that environment. *)
Lemma image_mappings_lookup job_uuid db environment_uuid :
  image_mappings job_uuid db !! environment_uuid
  = JobImageMapping.docker_img_id
      <$> last (filter (λ mapping,
                          JobImageMapping.job_uuid mapping = job_uuid
                          ∧ JobImageMapping.orchest_environment_uuid mapping
                            = environment_uuid)
                  (job_image_mappings db)).
Proof.
  unfold image_mappings.
  assert (Hfold : ∀ (rows : list JobImageMapping.t) (acc : gmap string string),
    foldl (λ acc mapping,
             <[JobImageMapping.orchest_environment_uuid mapping :=
                 JobImageMapping.docker_img_id mapping]> acc) acc rows
    !! environment_uuid
    = match last (filter (λ mapping, JobImageMapping.orchest_environment_uuid mapping
                                     = environment_uuid) rows) with
      | Some mapping => Some (JobImageMapping.docker_img_id mapping)
      | None => acc !! environment_uuid
      end).
  { induction rows as [| row rows IH]; intros acc; [done |].
    cbn [foldl]. rewrite IH, filter_cons.
    destruct (decide (JobImageMapping.orchest_environment_uuid row = environment_uuid))
      as [<- | Hother].
    - rewrite last_cons, lookup_insert_eq. by destruct (last (filter _ rows)).
    - by rewrite lookup_insert_ne. }
  rewrite Hfold, lookup_empty, list_filter_filter.
  rewrite (list_filter_iff
             (λ mapping, JobImageMapping.orchest_environment_uuid mapping = environment_uuid
                         ∧ JobImageMapping.job_uuid mapping = job_uuid)
             (λ mapping, JobImageMapping.job_uuid mapping = job_uuid
                         ∧ JobImageMapping.orchest_environment_uuid mapping
                           = environment_uuid)) by tauto.
  by destruct (last (filter _ (job_image_mappings db))).
Qed.

(** X12. What one [RunJob] invocation stores and hands over.  Task by task, the
    pipeline is the one [construct_pipeline] built from the run specification
    of the job with a pipeline definition that is the job's but for its
    parameters: the pipeline parameters are the value of the reserved key of
    the parameter set of the same position (an empty object without it), and
    each step has the value the parameter set gives for its uuid, every other
    key of the set being a step of the job.  The step table gains one PENDING
    row per step of each of these pipelines, in the order of the tasks, and
    nothing else; the created runs carry the parameter sets and the env
    variables of the job and the uuids of the tasks; the run configuration is
    the job's with its env variables and with the image mappings of the job,
    an environment being mapped to the image of the last mapping row of the
    job for it. *)
Theorem RunJob_tasks_and_step_rows E uuid4 job_uuid job db kw db' :
  jobs db !! job_uuid = Some job →
  RunJob_transaction E uuid4 job_uuid db = Returned kw db' →
  Forall2
    (λ (run_parameters : list (string * json)) (task : string * Pipeline.t),
       ∃ pipeline_def,
         construct_pipeline E
           (PipelineRunSpec.mk (Some pipeline_def)
              (PipelineRunSpec.run_config (Job.pipeline_run_spec job)))
         = inr task.2
         ∧ PipelineDef.parameters pipeline_def
           = match list_find (λ item : string * json,
                                item.1 = PIPELINE_PARAMETERS_RESERVED_KEY E)
                     run_parameters with
             | Some (_, item) => item.2
             | None => JObj []
             end
         ∧ (∀ item, item ∈ run_parameters →
                    item.1 ≠ PIPELINE_PARAMETERS_RESERVED_KEY E →
                    is_Some (PipelineDef.steps (Job.pipeline_definition job) !! item.1))
         ∧ ∀ step_uuid,
             PipelineDef.steps pipeline_def !! step_uuid
             = (λ step,
                  if bool_decide (step_uuid = PIPELINE_PARAMETERS_RESERVED_KEY E)
                  then step
                  else match last (filter (λ item : string * json, item.1 = step_uuid)
                                     run_parameters) with
                       | Some item => StepDef.mk (StepDef.environment step) item.2
                       | None => step
                       end)
               <$> PipelineDef.steps (Job.pipeline_definition job) !! step_uuid)
    (Job.parameters job) (RunJob.tasks_to_launch kw)
  ∧ pipeline_run_steps db'
    = pipeline_run_steps db
      ++ concat ((λ task : string * Pipeline.t,
                    (λ step_uuid, PipelineRunStep.mk task.1 step_uuid "PENDING")
                      <$> Pipeline.steps task.2)
                   <$> RunJob.tasks_to_launch kw)
  ∧ (∃ created,
       pipeline_runs db' = pipeline_runs db ++ created
       ∧ NonInteractivePipelineRun.parameters <$> created = Job.parameters job
       ∧ NonInteractivePipelineRun.uuid <$> created = (RunJob.tasks_to_launch kw).*1
       ∧ Forall (λ run, NonInteractivePipelineRun.env_variables run
                        = Job.env_variables job) created)
  ∧ ∃ mappings,
      RunJob.run_config kw
      = Some (RunConfig.mk (RunConfig.base (PipelineRunSpec.run_config
                                              (Job.pipeline_run_spec job)))
                (Some mappings) (Some (Job.env_variables job)))
      ∧ ∀ environment_uuid,
          mappings !! environment_uuid
          = JobImageMapping.docker_img_id
              <$> last (filter (λ mapping,
                                  JobImageMapping.job_uuid mapping = Job.uuid job
                                  ∧ JobImageMapping.orchest_environment_uuid mapping
                                    = environment_uuid)
                          (job_image_mappings db)).
Proof.
  intros Hjob Hrun.
  destruct (RunJob_transaction_rows _ _ _ _ _ _ _ Hjob Hrun)
    as (Hbuilt & Hsteps & Hcreated & Hconfig).
  split.
  { eapply Forall2_impl; [exact Hbuilt |].
    intros run_parameters task (pipeline_def & Hdefined & Hconstructed).
    exists pipeline_def. split; [exact Hconstructed |].
    unfold run_pipeline_def in Hdefined.
    apply set_step_parameters_result in Hdefined as (Hparameters & Hkeys & Hlookup).
    split; [exact Hparameters |]. split; [exact Hkeys | exact Hlookup]. }
  split; [exact Hsteps |]. split; [exact Hcreated |].
  exists (image_mappings (Job.uuid job) db). split; [exact Hconfig |].
  apply image_mappings_lookup.
Qed.

Lemma RunJob_tasks_and_step_rows_witness :
  ∃ kw db',
    RunJob_transaction example_externals example_uuid4 "job-1" db_with_image_mappings
    = Returned kw db'
    ∧ pipeline_run_steps db' = [PipelineRunStep.mk "run-0" "step-1" "PENDING"]
    ∧ ∃ mappings,
        RunConfig.env_uuid_docker_id_mappings <$> RunJob.run_config kw
        = Some (Some mappings)
        ∧ mappings !! "env-1" = Some "image-b".
Proof.
  destruct (RunJob_transaction example_externals example_uuid4 "job-1"
              db_with_image_mappings) as [kw db' | e] eqn:Hrun;
    [| vm_compute in Hrun; discriminate Hrun].
  exists kw, db'. split; [reflexivity |].
  destruct (RunJob_tasks_and_step_rows example_externals example_uuid4 "job-1"
              (example_job "PENDING" None [[("step-1", JNum 7)]] 0 0 (-1))
              db_with_image_mappings kw db' eq_refl Hrun)
    as (_ & Hsteps & _ & mappings & Hconfig & Hmappings).
  split.
  - rewrite Hsteps. vm_compute in Hrun. injection Hrun as <- _. reflexivity.
  - exists mappings. split; [by rewrite Hconfig |].
    rewrite Hmappings. reflexivity.
Defined.

(** ** RunJob: a parameter set that names a step the pipeline does not have *)

Lemma set_step_parameters_unknown E run_parameters :
  ∀ pipeline_def step_uuid,
    step_uuid ∈ run_parameters.*1 →
    step_uuid ≠ PIPELINE_PARAMETERS_RESERVED_KEY E →
    PipelineDef.steps pipeline_def !! step_uuid = None →
    ∃ unknown,
      foldl (set_step_parameters E) (inr pipeline_def) run_parameters
      = inl (KeyError unknown)
      ∧ unknown ∈ run_parameters.*1
      ∧ unknown ≠ PIPELINE_PARAMETERS_RESERVED_KEY E
      ∧ PipelineDef.steps pipeline_def !! unknown = None.
Proof.
  induction run_parameters as [| [key value] rest IH];
    intros pipeline_def step_uuid Hin Hkey Hunknown; [by apply elem_of_nil in Hin |].
  cbn [foldl set_step_parameters].
  destruct (decide (key ≠ PIPELINE_PARAMETERS_RESERVED_KEY E)) as [Hstep | Hreserved].
  - rewrite (bool_decide_eq_true_2 _ Hstep).
    destruct (PipelineDef.steps pipeline_def !! key) as [step |] eqn:Hlookup.
    + assert (Hrest : step_uuid ∈ rest.*1).
      { cbn in Hin. apply elem_of_cons in Hin as [-> | Hin]; [congruence | done]. }
      destruct (IH (PipelineDef.set_steps
                      (<[key := StepDef.set_parameters value step]>
                         (PipelineDef.steps pipeline_def)) pipeline_def)
                  step_uuid Hrest Hkey) as (unknown & Hraised & Hamong & Hnot & Hnone).
      { cbn. rewrite lookup_insert_ne; [done | congruence]. }
      exists unknown. split; [exact Hraised |].
      split; [cbn; by apply elem_of_cons; right |]. split; [done |].
      cbn in Hnone. destruct (decide (key = unknown)) as [<- | Hother].
      * by rewrite lookup_insert_eq in Hnone.
      * by rewrite lookup_insert_ne in Hnone.
    + exists key. rewrite set_step_parameters_failed.
      split; [done |]. split; [cbn; apply elem_of_cons; by left | done].
  - rewrite (bool_decide_eq_false_2 _ Hreserved).
    assert (Hrest : step_uuid ∈ rest.*1).
    { cbn in Hin. apply elem_of_cons in Hin as [-> | Hin]; [| done].
      by destruct Hreserved. }
    destruct (IH pipeline_def step_uuid Hrest Hkey Hunknown)
      as (unknown & Hraised & Hamong & Hnot & Hnone).
    exists unknown. split; [exact Hraised |].
    split; [cbn; by apply elem_of_cons; right | done].
Qed.

Lemma RunJob_loop_raises E uuid4 job_uuid job0 parameters run_parameters e :
  run_parameters ∈ parameters →
  run_pipeline_def E job0 run_parameters = inl e →
  ∀ run_index job tasks db,
    Job.pipeline_definition job = Job.pipeline_definition job0 →
    ∃ e', RunJob_loop E uuid4 job_uuid run_index parameters job tasks db = Raised e'.
Proof.
  intros Hin Hfails.
  induction parameters as [| first rest IH]; intros run_index job tasks db Hdef;
    [by apply elem_of_nil in Hin |].
  cbn [RunJob_loop].
  assert (Hsame : ∀ parameters, run_pipeline_def E job parameters
                                = run_pipeline_def E job0 parameters)
    by (intros; unfold run_pipeline_def; by rewrite Hdef).
  apply elem_of_cons in Hin as [<- | Hin].
  - rewrite Hsame, Hfails. eauto.
  - destruct (run_pipeline_def E job first) as [e1 | pipeline_def]; [by eauto |].
    cbn [lift]. rewrite bind_ret.
    destruct (construct_pipeline E _) as [e2 | pipeline]; [by eauto |].
    cbn [lift]. rewrite bind_ret, bind_modify_db, bind_flush_job, bind_modify_db.
    apply (IH Hin). by job_rows.
Qed.

(** X13. When a parameter set of the job names a step that the pipeline definition
    of the job does not have, [RunJob] raises whatever else the job holds, so
    nothing of the invocation is stored; when that parameter set is the first
    of the job, the exception is the [KeyError] of an unknown step key of the
    set. *)
Theorem RunJob_raises_on_an_unknown_step E uuid4 job_uuid job db
    run_parameters step_uuid :
  jobs db !! job_uuid = Some job →
  run_parameters ∈ Job.parameters job →
  step_uuid ∈ run_parameters.*1 →
  step_uuid ≠ PIPELINE_PARAMETERS_RESERVED_KEY E →
  PipelineDef.steps (Job.pipeline_definition job) !! step_uuid = None →
  (∃ e, RunJob_transaction E uuid4 job_uuid db = Raised e)
  ∧ (head (Job.parameters job) = Some run_parameters →
     ∃ unknown,
       RunJob_transaction E uuid4 job_uuid db = Raised (KeyError unknown)
       ∧ unknown ∈ run_parameters.*1
       ∧ PipelineDef.steps (Job.pipeline_definition job) !! unknown = None).
Proof.
  intros Hjob Hin Hstep Hkey Hunknown.
  destruct (set_step_parameters_unknown E run_parameters
              (PipelineDef.set_parameters
                 (dict_get (PIPELINE_PARAMETERS_RESERVED_KEY E) (JObj []) run_parameters)
                 (Job.pipeline_definition job))
              step_uuid Hstep Hkey Hunknown)
    as (unknown & Hraised & Hamong & _ & Hnone).
  fold (run_pipeline_def E job run_parameters) in Hraised.
  unfold RunJob_transaction. rewrite (bind_query_job_one _ _ _ _ Hjob).
  set (job1 := if bool_decide (Job.status job = "PENDING")
               then Job.set_status "STARTED" job else job).
  assert (Hparams : Job.parameters job1 = Job.parameters job)
    by (subst job1; destruct (bool_decide (Job.status job = "PENDING"));
        by destruct job).
  assert (Hdef : Job.pipeline_definition job1 = Job.pipeline_definition job)
    by (subst job1; destruct (bool_decide (Job.status job = "PENDING"));
        by destruct job).
  rewrite Hparams. split.
  - destruct (RunJob_loop_raises E uuid4 job_uuid job (Job.parameters job)
                run_parameters _ Hin Hraised 0%nat job1 [] db Hdef) as [e Hloop].
    exists e. unfold bind at 1. by rewrite Hloop.
  - intros Hfirst. exists unknown. split; [| done].
    destruct (Job.parameters job) as [| first rest]; [done |].
    injection Hfirst as ->. cbn [RunJob_loop].
    assert (Hsame : run_pipeline_def E job1 run_parameters
                    = run_pipeline_def E job run_parameters)
      by (unfold run_pipeline_def; by rewrite Hdef).
    unfold bind at 1. unfold bind at 1. by rewrite Hsame, Hraised.
Qed.

Lemma RunJob_raises_on_an_unknown_step_witness :
  ∃ e, RunJob_transaction example_externals example_uuid4 "job-1"
         (example_db (example_job "STARTED" None [[("step-9", JNull)]] 0 0 (-1)) [])
       = Raised e.
Proof.
  refine (proj1 (RunJob_raises_on_an_unknown_step example_externals example_uuid4
                   "job-1" (example_job "STARTED" None [[("step-9", JNull)]] 0 0 (-1))
                   (example_db (example_job "STARTED" None [[("step-9", JNull)]] 0 0 (-1)) [])
                   [("step-9", JNull)] "step-9" eq_refl _ _ _ eq_refl)).
  - apply list_elem_of_here.
  - apply list_elem_of_here.
  - discriminate.
Defined.

(** ** RunJob: what the collateral phase dispatches *)








(** ** RunJob: the revert of a failed collateral phase *)

Lemma mark_none {A} `{EqDecision K} (key : A → K) (f : A → A) (keys : list K)
    (rows : list A) :
  Forall (λ row, key row ∉ keys) rows →
  (λ row, if bool_decide (key row ∈ keys) then f row else row) <$> rows = rows.
Proof.
  induction 1 as [| row rows Hrow _ IH]; [done |].
  cbn. by rewrite (bool_decide_eq_false_2 _ Hrow), IH.
Qed.

Lemma mark_all {A} `{EqDecision K} (key : A → K) (f : A → A) (keys : list K)
    (rows : list A) :
  Forall (λ row, key row ∈ keys) rows →
  (λ row, if bool_decide (key row ∈ keys) then f row else row) <$> rows = f <$> rows.
Proof.
  induction 1 as [| row rows Hrow _ IH]; [done |].
  cbn. by rewrite (bool_decide_eq_true_2 _ Hrow), IH.
Qed.

Lemma pending_steps_of_tasks (tasks : list (string * Pipeline.t)) :
  Forall (λ step, PipelineRunStep.run_uuid step ∈ tasks.*1)
    (concat (pending_steps <$> tasks)).
Proof.
  induction tasks as [| task rest IH]; [constructor |].
  cbn [fmap list_fmap concat]. apply Forall_app. split.
  - unfold pending_steps. apply Forall_fmap, Forall_forall. intros step_uuid _.
    cbn. apply list_elem_of_here.
  - eapply Forall_impl; [exact IH |]. intros step Hstep. by apply list_elem_of_further.
Qed.

(** X15. When the collateral phase of a [RunJob] invocation fails, [_revert] marks
    FAILURE the runs and the steps the invocation created and only those (the
    uuids drawn for the invocation being new to the two tables); a job without
    a schedule is marked FAILURE too, a cron job keeps its status; the
    counters stay advanced. *)
Theorem RunJob_revert_fails_the_attempt E uuid4 job_uuid job db kw db' :
  jobs db !! job_uuid = Some job →
  Job.uuid job = job_uuid →
  RunJob_transaction E uuid4 job_uuid db = Returned kw db' →
  Forall (λ run, NonInteractivePipelineRun.uuid run
                 ∉ uuid4 <$> seq 0 (length (Job.parameters job))) (pipeline_runs db) →
  Forall (λ step, PipelineRunStep.run_uuid step
                  ∉ uuid4 <$> seq 0 (length (Job.parameters job)))
    (pipeline_run_steps db) →
  ∃ created,
    pipeline_runs db' = pipeline_runs db ++ created
    ∧ pipeline_runs (RunJob_revert kw db')
      = pipeline_runs db ++ (NonInteractivePipelineRun.set_status "FAILURE" <$> created)
    ∧ pipeline_run_steps (RunJob_revert kw db')
      = pipeline_run_steps db
        ++ (PipelineRunStep.set_status "FAILURE"
              <$> concat (pending_steps <$> RunJob.tasks_to_launch kw))
    ∧ jobs (RunJob_revert kw db') !! job_uuid
      = Some (if bool_decide (Job.schedule job = None)
              then Job.set_status "FAILURE" (job_after_RunJob job)
              else job_after_RunJob job).
Proof.
  intros Hjob Hkey Hrun Hfresh_runs Hfresh_steps.
  destruct (RunJob_transaction_returned _ _ _ _ _ _ _ Hjob Hrun)
    as (created & Hruns & Hjobs & _ & _ & _ & Hkwjob & Huuids & Hids).
  destruct (RunJob_transaction_rows _ _ _ _ _ _ _ Hjob Hrun) as (_ & Hsteps & _).
  exists created. split; [exact Hruns |].
  assert (Hafter : Job.uuid (job_after_RunJob job) = job_uuid
                   ∧ Job.schedule (job_after_RunJob job) = Job.schedule job).
  { unfold job_after_RunJob. rewrite <- Hkey.
    destruct (bool_decide (Job.status job = "PENDING")); by destruct job. }
  destruct Hafter as [Hafter_uuid Hafter_schedule].
  unfold RunJob_revert. rewrite Hkwjob, Hafter_uuid, Hafter_schedule.
  cbn [pipeline_runs pipeline_run_steps jobs set_pipeline_runs set_pipeline_run_steps].
  assert (Hrows : ∀ (db1 : DB) , pipeline_runs db1 = pipeline_runs db' →
            pipeline_run_steps db1 = pipeline_run_steps db' →
            (λ run, if bool_decide (NonInteractivePipelineRun.uuid run
                                    ∈ (RunJob.tasks_to_launch kw).*1)
                    then NonInteractivePipelineRun.set_status "FAILURE" run else run)
              <$> pipeline_runs db1
            = pipeline_runs db
              ++ (NonInteractivePipelineRun.set_status "FAILURE" <$> created)
            ∧ (λ step, if bool_decide (PipelineRunStep.run_uuid step
                                       ∈ (RunJob.tasks_to_launch kw).*1)
                       then PipelineRunStep.set_status "FAILURE" step else step)
                <$> pipeline_run_steps db1
              = pipeline_run_steps db
                ++ (PipelineRunStep.set_status "FAILURE"
                      <$> concat (pending_steps <$> RunJob.tasks_to_launch kw))).
  { intros db1 -> ->. rewrite Hruns, Hsteps, !fmap_app. split; f_equal.
    - apply mark_none. by rewrite Hids.
    - apply mark_all. rewrite Huuids. apply Forall_forall. intros run Hin.
      by apply list_elem_of_fmap_2.
    - apply mark_none. by rewrite Hids.
    - apply mark_all, pending_steps_of_tasks. }
  case_bool_decide.
  - destruct (Hrows (set_jobs (alter (Job.set_status "FAILURE") job_uuid (jobs db')) db')
                eq_refl eq_refl) as [-> ->].
    split; [done |]. split; [done |]. cbn.
    by rewrite Hjobs, lookup_alter_eq, lookup_insert_eq.
  - destruct (Hrows db' eq_refl eq_refl) as [-> ->].
    split; [done |]. split; [done |]. by rewrite Hjobs, lookup_insert_eq.
Qed.

Lemma RunJob_revert_fails_the_attempt_witness :
  ∃ kw db',
    RunJob_transaction example_externals example_uuid4 "job-1" db_before_first_run
    = Returned kw db'
    ∧ NonInteractivePipelineRun.status <$> pipeline_runs (RunJob_revert kw db')
      = ["FAILURE"; "FAILURE"]
    ∧ Job.status <$> jobs (RunJob_revert kw db') !! "job-1" = Some "FAILURE".
Proof.
  destruct (RunJob_transaction example_externals example_uuid4 "job-1"
              db_before_first_run) as [kw db' | e] eqn:Hrun;
    [| vm_compute in Hrun; discriminate Hrun].
  exists kw, db'. split; [reflexivity |].
  destruct (RunJob_revert_fails_the_attempt example_externals example_uuid4 "job-1"
              (example_job "PENDING" None [[]; []] 0 0 (-1)) db_before_first_run kw db'
              eq_refl eq_refl Hrun ltac:(constructor) ltac:(constructor))
    as (created & Hruns & -> & _ & ->).
  vm_compute in Hrun. injection Hrun as _ <-.
  cbn in Hruns. subst created. split; reflexivity.
Defined.

Lemma bind_query_job_missing {B} job_uuid (k : Job.t → M B) db :
  jobs db !! job_uuid = None →
  bind (query_job_one job_uuid) k db = Raised NoResultFound.
Proof. intros Hjob. unfold query_job_one, bind, get_db. by rewrite Hjob. Qed.

(** ** UpdateJob: what an accepted update has passed *)

Lemma UpdateJob_transaction_checks E now uuid4 job_uuid job db name cron_schedule
    parameters env_variables next_scheduled_time strategy_json
    max_retained_pipeline_runs confirm_draft r db' :
  jobs db !! job_uuid = Some job →
  UpdateJob_transaction E now uuid4 job_uuid name cron_schedule parameters
    env_variables next_scheduled_time strategy_json max_retained_pipeline_runs
    confirm_draft db
  = Returned r db' →
  match cron_schedule with
  | Some cron_schedule => croniter_is_valid E cron_schedule = true
  | None => True
  end
  ∧ match env_variables with
    | Some env_variables => are_environment_variables_valid E env_variables = true
    | None => True
    end
  ∧ match next_scheduled_time with
    | Some next_scheduled_time =>
      Job.status job = "DRAFT" ∧ cron_schedule = None
      ∧ ∃ time, fromisoformat E next_scheduled_time = inr time
    | None => True
    end
  ∧ match max_retained_pipeline_runs with
    | Some max_retained_pipeline_runs => -1 ≤ max_retained_pipeline_runs
    | None => True
    end
  ∧ (if confirm_draft then Job.status job = "DRAFT" else True).
Proof.
  intros Hjob H.
  unfold UpdateJob_transaction in H. rewrite (bind_query_job_one _ _ _ _ Hjob) in H.
  cbv zeta in H.
  set (job1 := match name with Some name => Job.set_name name job | None => job end) in *.
  assert (Hstatus1 : Job.status job1 = Job.status job)
    by (subst job1; destruct name; by destruct job).
  (* cron schedule *)
  apply bind_returned in H as (job2 & db2 & Hblock & H).
  assert (Hstage :
    db2 = db ∧ Job.status job2 = Job.status job
    ∧ match cron_schedule with
      | Some cron_schedule =>
        croniter_is_valid E cron_schedule = true ∧ Job.schedule job2 ≠ None
      | None => True
      end).
  { destruct cron_schedule; run_block Hblock; [| done].
    split; [done |]. split; [by destruct job1 |]. split; [done | by destruct job1]. }
  destruct Hstage as (-> & Hstatus2 & Hcron). clear Hblock.
  (* parameters *)
  apply bind_returned in H as (job3 & db3 & Hblock & H).
  assert (Hstage : db3 = db ∧ Job.status job3 = Job.status job
                   ∧ Job.schedule job3 = Job.schedule job2).
  { destruct parameters; run_block Hblock; [| done].
    split; [done |]. split; by destruct job2. }
  destruct Hstage as (-> & Hstatus3 & Hschedule3). clear Hblock.
  (* env variables *)
  apply bind_returned in H as (job4 & db4 & Hblock & H).
  assert (Hstage :
    db4 = db ∧ Job.status job4 = Job.status job
    ∧ Job.schedule job4 = Job.schedule job2
    ∧ match env_variables with
      | Some env_variables => are_environment_variables_valid E env_variables = true
      | None => True
      end).
  { destruct env_variables; run_block Hblock; [| done].
    split; [done |]. split; [by destruct job3 |]. split; [by destruct job3 | done]. }
  destruct Hstage as (-> & Hstatus4 & Hschedule4 & Henv). clear Hblock.
  (* next scheduled time *)
  apply bind_returned in H as (job5 & db5 & Hblock & H).
  assert (Hstage :
    db5 = db ∧ Job.status job5 = Job.status job
    ∧ match next_scheduled_time with
      | Some next_scheduled_time =>
        Job.status job = "DRAFT" ∧ ¬ (Job.schedule job4 ≠ None ∧ cron_schedule ≠ None)
        ∧ ∃ time, fromisoformat E next_scheduled_time = inr time
      | None => True
      end).
  { destruct next_scheduled_time; run_block Hblock; [| done].
    split; [done |]. split.
    - rewrite <- Hstatus4.
      destruct (bool_decide (cron_schedule = None)); by destruct job4.
    - split; [| by eauto]. rewrite <- Hstatus4.
      by destruct (decide (Job.status job4 = "DRAFT")). }
  destruct Hstage as (-> & Hstatus5 & Hnext). clear Hblock.
  set (job6 := if bool_decide (Job.status job5 = "DRAFT" ∧ _) then _ else _) in *.
  assert (Hstatus6 : Job.status job6 = Job.status job).
  { subst job6. rewrite <- Hstatus5.
    destruct (decide (Job.status job5 = "DRAFT"
                      ∧ next_scheduled_time = None ∧ cron_schedule = None)) as [Hc | Hc];
      [rewrite (bool_decide_eq_true_2 _ Hc) | rewrite (bool_decide_eq_false_2 _ Hc)];
      by destruct job5. }
  (* strategy json *)
  apply bind_returned in H as (job7 & db7 & Hblock & H).
  assert (Hstage : db7 = db ∧ Job.status job7 = Job.status job).
  { destruct strategy_json; run_block Hblock; [| done].
    split; [done | by destruct job6]. }
  destruct Hstage as (-> & Hstatus7). clear Hblock.
  (* retention *)
  apply bind_returned in H as (job8 & db8 & Hblock & H).
  assert (Hstage :
    db8 = db ∧ Job.status job8 = Job.status job
    ∧ match max_retained_pipeline_runs with
      | Some max_retained_pipeline_runs => -1 ≤ max_retained_pipeline_runs
      | None => True
      end).
  { destruct max_retained_pipeline_runs; run_block Hblock; [| done].
    split; [done |]. split; [by destruct job7 | lia]. }
  destruct Hstage as (-> & Hstatus8 & Hretained). clear Hblock.
  split; [by destruct cron_schedule; [destruct Hcron |] |].
  split; [exact Henv |].
  split.
  { destruct next_scheduled_time; [| done].
    destruct Hnext as (Hdraft & Hnot_both & Hiso). split; [done |]. split; [| done].
    destruct cron_schedule; [| done]. destruct Hcron as [_ Hcron].
    rewrite Hschedule4 in Hnot_both. by destruct Hnot_both. }
  split; [exact Hretained |].
  destruct confirm_draft; [| done].
  destruct (decide (Job.status job8 ≠ "DRAFT")) as [Hnot | Hdraft].
  { rewrite (bool_decide_eq_true_2 _ Hnot) in H. discriminate H. }
  rewrite <- Hstatus8. by destruct (decide (Job.status job8 = "DRAFT")).
Qed.

(** X16. An update that [UpdateJob] accepts has passed every check of the fields it
    brings: the cron schedule is one [croniter] takes, the env variables are
    valid, a next scheduled time comes in ISO format, for a DRAFT, and without
    a cron schedule, [max_retained_pipeline_runs] is at least -1, and a
    confirmation is for a DRAFT. *)
Theorem UpdateJob_accepts_only_valid_input E now uuid4 job_uuid job db name
    cron_schedule parameters env_variables next_scheduled_time strategy_json
    max_retained_pipeline_runs confirm_draft r db' :
  jobs db !! job_uuid = Some job →
  UpdateJob_transaction E now uuid4 job_uuid name cron_schedule parameters
    env_variables next_scheduled_time strategy_json max_retained_pipeline_runs
    confirm_draft db
  = Returned r db' →
  (∀ schedule, cron_schedule = Some schedule → croniter_is_valid E schedule = true)
  ∧ (∀ variables, env_variables = Some variables →
       are_environment_variables_valid E variables = true)
  ∧ (∀ start, next_scheduled_time = Some start →
       Job.status job = "DRAFT" ∧ cron_schedule = None
       ∧ ∃ time, fromisoformat E start = inr time)
  ∧ (∀ retained, max_retained_pipeline_runs = Some retained → -1 ≤ retained)
  ∧ (confirm_draft = true → Job.status job = "DRAFT").
Proof.
  intros Hjob Hreturned.
  destruct (UpdateJob_transaction_checks _ _ _ _ _ _ _ _ _ _ _ _ _ _ _ _
              Hjob Hreturned) as (Hcron & Henv & Hnext & Hretained & Hconfirm).
  split; [by intros schedule -> |]. split; [by intros variables -> |].
  split; [by intros start -> |]. split; [by intros retained -> |].
  by intros ->.
Qed.

(** X17. A request that brings both a cron schedule and a next scheduled time is
    never accepted, whatever the job and the other fields. *)
Theorem UpdateJob_rejects_schedule_with_start E now uuid4 job_uuid db name
    cron_schedule parameters env_variables next_scheduled_time strategy_json
    max_retained_pipeline_runs confirm_draft :
  ∃ e,
    UpdateJob_transaction E now uuid4 job_uuid name (Some cron_schedule) parameters
      env_variables (Some next_scheduled_time) strategy_json
      max_retained_pipeline_runs confirm_draft db
    = Raised e.
Proof.
  destruct (UpdateJob_transaction E now uuid4 job_uuid name (Some cron_schedule)
              parameters env_variables (Some next_scheduled_time) strategy_json
              max_retained_pipeline_runs confirm_draft db)
    as [r db' | e] eqn:Hupdate; [| by eauto].
  destruct (jobs db !! job_uuid) as [job |] eqn:Hjob.
  - by destruct (UpdateJob_transaction_checks _ _ _ _ _ _ _ _ _ _ _ _ _ _ _ _
                   Hjob Hupdate) as (_ & _ & (_ & Hnone & _) & _).
  - unfold UpdateJob_transaction in Hupdate.
    by rewrite (bind_query_job_missing _ _ _ Hjob) in Hupdate.
Qed.

Lemma UpdateJob_accepts_only_valid_input_witness :
  (∀ schedule, Some "0 * * * *" = Some schedule →
     croniter_is_valid example_externals schedule = true)
  ∧ (∀ retained, Some 3 = Some retained → -1 ≤ retained).
Proof.
  destruct (UpdateJob_transaction example_externals 0 example_uuid4 "job-1"
              None (Some "0 * * * *") None None None None (Some 3) false
              db_draft_of_cron_job) as [r db' | e] eqn:Hreturned;
    [| vm_compute in Hreturned; discriminate Hreturned].
  destruct (UpdateJob_accepts_only_valid_input example_externals 0 example_uuid4 "job-1"
              draft_of_cron_job db_draft_of_cron_job
              None (Some "0 * * * *") None None None None (Some 3) false r db'
              eq_refl Hreturned) as (Hcron & _ & _ & Hretained & _).
  split; [exact Hcron | exact Hretained].
Defined.

(** ** UpdateJob: the confirmation of a draft *)

(** X18. What the confirmation of a draft leaves.  With a cron schedule the job is
    STARTED with that schedule and its next occurrence after now; with a next
    scheduled time it is a PENDING job without a schedule that waits for that
    time; in both cases [last_scheduled_time] is the next scheduled time and no
    run is created.  With neither, the job is run at once by the [RunJob]
    inside the transaction: it is STARTED, was last scheduled now, its
    execution counter advanced by one and its parameter sets each got a run. *)
Theorem UpdateJob_confirms_a_draft E now uuid4 job_uuid job db name cron_schedule
    parameters env_variables next_scheduled_time strategy_json
    max_retained_pipeline_runs r db' :
  jobs db !! job_uuid = Some job →
  Job.uuid job = job_uuid →
  UpdateJob_transaction E now uuid4 job_uuid name cron_schedule parameters
    env_variables next_scheduled_time strategy_json max_retained_pipeline_runs
    true db
  = Returned r db' →
  ∃ job',
    jobs db' !! job_uuid = Some job'
    ∧ match cron_schedule, next_scheduled_time with
      | Some cron_schedule, _ =>
        r = None
        ∧ Job.status job' = "STARTED"
        ∧ Job.schedule job' = Some cron_schedule
        ∧ Job.next_scheduled_time job' = Some (croniter_get_next E cron_schedule now)
        ∧ Job.last_scheduled_time job' = Job.next_scheduled_time job'
        ∧ pipeline_runs db' = pipeline_runs db
      | None, Some next_scheduled_time =>
        r = None
        ∧ Job.status job' = "PENDING"
        ∧ Job.schedule job' = None
        ∧ (∃ time, fromisoformat E next_scheduled_time = inr time
                   ∧ Job.next_scheduled_time job' = Some time)
        ∧ Job.last_scheduled_time job' = Job.next_scheduled_time job'
        ∧ pipeline_runs db' = pipeline_runs db
      | None, None =>
        is_Some r
        ∧ Job.status job' = "STARTED"
        ∧ Job.schedule job' = None
        ∧ Job.next_scheduled_time job' = None
        ∧ Job.last_scheduled_time job' = Some now
        ∧ Job.total_scheduled_executions job' = Job.total_scheduled_executions job + 1
        ∧ length (pipeline_runs db')
          = (length (pipeline_runs db)
             + length (default (Job.parameters job) parameters))%nat
      end.
Proof.
  intros Hjob Hkey Hreturned.
  pose proof (UpdateJob_transaction_returned _ _ _ _ _ _ _ _ _ _ _ _ _ _ _ _
                Hjob Hreturned) as Hstate.
  pose proof (UpdateJob_transaction_checks _ _ _ _ _ _ _ _ _ _ _ _ _ _ _ _
                Hjob Hreturned) as (_ & _ & Hnext & _ & Hdraft).
  pose proof (edited_job_plain_fields E now job name cron_schedule parameters
                env_variables next_scheduled_time strategy_json
                max_retained_pipeline_runs)
    as (_ & Hparams & _ & _ & _ & _ & _ & Hexecutions & _ & Huuid).
  pose proof (edited_job_schedule_fields E now job name cron_schedule parameters
                env_variables next_scheduled_time strategy_json
                max_retained_pipeline_runs) as [Hschedule Hnst].
  cbn zeta in *.
  set (job' := edited_job E now job name cron_schedule parameters env_variables
                 next_scheduled_time strategy_json max_retained_pipeline_runs) in *.
  destruct Hstate as [_ Hstate].
  rewrite (bool_decide_eq_true_2 _ Hdraft) in Hschedule, Hnst.
  destruct cron_schedule as [cron_schedule |].
  - rewrite bool_decide_eq_false_2 in Hstate by (by rewrite Hschedule).
    destruct Hstate as [-> ->]. eexists. split; [cbn; apply lookup_insert_eq |].
    assert (Hnone : next_scheduled_time = None).
    { destruct next_scheduled_time; [| done]. by destruct Hnext as (_ & ? & _). }
    subst next_scheduled_time.
    split; [done |]. split; [by destruct job' |].
    split; [rewrite <- Hschedule; by destruct job' |].
    split; [rewrite <- Hnst; by destruct job' |]. split; [by destruct job' | done].
  - destruct next_scheduled_time as [next_scheduled_time |].
    + destruct Hnext as (_ & _ & time & Hiso). rewrite Hiso in Hnst.
      rewrite bool_decide_eq_true_2 in Hstate by done.
      rewrite bool_decide_eq_false_2 in Hstate by (by rewrite Hnst).
      destruct Hstate as [-> ->]. eexists. split; [cbn; apply lookup_insert_eq |].
      split; [done |]. split; [by destruct job' |].
      split; [rewrite <- Hschedule; by destruct job' |].
      split; [exists time; split; [done |]; rewrite <- Hnst; by destruct job' |].
      split; [by destruct job' | done].
    + rewrite bool_decide_eq_true_2 in Hstate by done.
      rewrite bool_decide_eq_true_2 in Hstate by done.
      destruct Hstate as (kw & -> & Hrun).
      rewrite Huuid, Hkey in Hrun.
      eapply RunJob_transaction_returned in Hrun
        as (created & Hruns & Hjobs & Hindices & _);
        [| cbn; apply lookup_insert_eq].
      eexists. split; [rewrite Hjobs; apply lookup_insert_eq |].
      split; [done |].
      assert (Hlength : length created = length (default (Job.parameters job) parameters)).
      { apply (f_equal length) in Hindices.
        rewrite length_fmap, length_seqZ in Hindices. rewrite <- Hparams.
        rewrite Hindices. destruct job'; cbn. lia. }
      unfold job_after_RunJob.
      rewrite bool_decide_eq_true_2 by (by destruct job').
      split; [by destruct job' |].
      split; [rewrite <- Hschedule; by destruct job' |].
      split; [rewrite <- Hnst; by destruct job' |].
      split; [by destruct job' |].
      split; [rewrite <- Hexecutions; by destruct job' |].
      rewrite Hruns, length_app. cbn. by rewrite Hlength.
Qed.

Lemma UpdateJob_confirms_a_draft_witness :
  ∃ job',
    jobs (committed db_draft_of_cron_job
            (UpdateJob_transaction example_externals 0 example_uuid4 "job-1"
               None (Some "0 * * * *") None None None None None true
               db_draft_of_cron_job)) !! "job-1" = Some job'
    ∧ Job.status job' = "STARTED"
    ∧ Job.last_scheduled_time job' = Job.next_scheduled_time job'.
Proof.
  destruct (UpdateJob_transaction example_externals 0 example_uuid4 "job-1"
              None (Some "0 * * * *") None None None None None true
              db_draft_of_cron_job) as [r db' | e] eqn:Hreturned;
    [| vm_compute in Hreturned; discriminate Hreturned].
  destruct (UpdateJob_confirms_a_draft example_externals 0 example_uuid4 "job-1"
              draft_of_cron_job db_draft_of_cron_job
              None (Some "0 * * * *") None None None None None r db'
              eq_refl eq_refl Hreturned)
    as (job' & Hjob' & _ & Hstatus & _ & _ & Hlast & _).
  exists job'. split; [exact Hjob' |]. split; [exact Hstatus | exact Hlast].
Defined.

(** ** UpdateJobPipelineRun: when the job is looked at *)

(** X19. A status update that is not an end state only goes through
    [update_status_db] on the run: the job is not read (the request is answered
    200 even when the job does not exist), the job and step tables are as
    before, and the collateral phase does nothing.  An end state needs the job:
    when it does not exist the request is answered 500 and the store is the one
    before the request, the status of the run included. *)
Theorem UpdateJobPipelineRun_reads_the_job_at_end_states E job_uuid run_uuid
    status_update db :
  if bool_decide (StatusUpdate.status status_update ∈ ["SUCCESS"; "FAILURE"; "ABORTED"])
  then
    match jobs db !! job_uuid with
    | None =>
      PipelineRun_put E job_uuid run_uuid status_update db
      = ((message "No row was found when one was required", 500), db, [])
    | Some _ => True
    end
  else
    PipelineRun_put E job_uuid run_uuid status_update db
    = ((message "Status was updated successfully", 200),
       set_pipeline_runs
         (update_status_db_runs E status_update
            (λ run, bool_decide (NonInteractivePipelineRun.job_uuid run = job_uuid
                                  ∧ NonInteractivePipelineRun.uuid run = run_uuid))
            (pipeline_runs db)) db,
       []).
Proof.
  unfold PipelineRun_put, TwoPhaseExecutor, UpdateJobPipelineRun_transaction.
  rewrite bind_modify_db. case_bool_decide as Hend.
  - destruct (jobs db !! job_uuid) eqn:Hjob; [done |]. unfold bind at 1.
    by rewrite bind_query_job_missing by exact Hjob.
  - reflexivity.
Qed.

(** ** DeleteJobPipelineRun *)

(** X20. [DeleteJobPipelineRun] returns [False], with the store as it was and
    without calling [AbortPipelineRun], exactly when the job or the run does
    not exist; the run is found by its uuid alone, whichever job it belongs to.
    When it returns [True], whatever [AbortPipelineRun] did, no run and no step
    of that run uuid is left.  It raises only when both the job and the run
    exist. *)
Theorem DeleteJobPipelineRun_outcomes E AbortPipelineRun job_uuid run_uuid db :
  match DeleteJobPipelineRun_transaction E AbortPipelineRun job_uuid run_uuid db with
  | Returned (false, kw) db' =>
    db' = db ∧ kw = None
    ∧ (jobs db !! job_uuid = None
       ∨ run_uuid ∉ NonInteractivePipelineRun.uuid <$> pipeline_runs db)
  | Returned (true, kw) db' =>
    is_Some (jobs db !! job_uuid)
    ∧ (run_uuid ∈ NonInteractivePipelineRun.uuid <$> pipeline_runs db)
    ∧ (run_uuid ∉ NonInteractivePipelineRun.uuid <$> pipeline_runs db')
    ∧ (run_uuid ∉ PipelineRunStep.run_uuid <$> pipeline_run_steps db')
  | Raised e =>
    is_Some (jobs db !! job_uuid)
    ∧ (run_uuid ∈ NonInteractivePipelineRun.uuid <$> pipeline_runs db)
  end.
Proof.
  unfold DeleteJobPipelineRun_transaction. rewrite bind_get_db.
  destruct (jobs db !! job_uuid) as [job |] eqn:Hjob.
  2: { rewrite bool_decide_eq_false_2 by (by intros [? ?]). cbn. auto. }
  rewrite bool_decide_eq_true_2 by done. cbn [negb].
  destruct (filter (λ run, NonInteractivePipelineRun.uuid run = run_uuid)
              (pipeline_runs db)) as [| run [| run' rows]] eqn:Hrows.
  - cbn. split; [done |]. split; [done |]. right.
    intros Hin. apply list_elem_of_fmap in Hin as (run & Huuid & Hin).
    assert (Hfound : run ∈ filter (λ run, NonInteractivePipelineRun.uuid run = run_uuid)
                           (pipeline_runs db)) by (by apply list_elem_of_filter).
    rewrite Hrows in Hfound. by apply elem_of_nil in Hfound.
  - assert (Hrun : run ∈ pipeline_runs db
                   ∧ NonInteractivePipelineRun.uuid run = run_uuid).
    { assert (Hfound : run ∈ filter (λ run, NonInteractivePipelineRun.uuid run = run_uuid)
                             (pipeline_runs db))
        by (rewrite Hrows; apply list_elem_of_here).
      apply list_elem_of_filter in Hfound. tauto. }
    destruct Hrun as [Hin Huuid].
    cbn [one_or_none]. rewrite bind_ret. unfold bind at 1.
    destruct (AbortJobPipelineRun_transaction E AbortPipelineRun job_uuid run_uuid db)
      as [[aborted kw] db1 | e];
      [| split; [done |]; rewrite <- Huuid; by apply list_elem_of_fmap_2].
    rewrite bind_modify_db. cbn.
    split; [done |]. split; [rewrite <- Huuid; by apply list_elem_of_fmap_2 |].
    rewrite Huuid. split.
    + intros Hleft. apply list_elem_of_fmap in Hleft as (left & Hleft_uuid & Hleft).
      apply list_elem_of_filter in Hleft as [Hother _]. by destruct Hother.
    + intros Hleft. apply list_elem_of_fmap in Hleft as (left & Hleft_uuid & Hleft).
      apply list_elem_of_filter in Hleft as [Hother _]. by destruct Hother.
  - cbn. split; [done |].
    assert (Hfound : run ∈ filter (λ run, NonInteractivePipelineRun.uuid run = run_uuid)
                           (pipeline_runs db))
      by (rewrite Hrows; apply list_elem_of_here).
    apply list_elem_of_filter in Hfound as [Huuid Hin].
    rewrite <- Huuid. by apply list_elem_of_fmap_2.
Qed.

(** ** PipelineRunsList *)

#[local] Instance newer_first_total : Total newer_first.
Proof. intros run run'. unfold newer_first. lia. Qed.

#[local] Instance newer_first_transitive : Transitive newer_first.
Proof. intros run1 run2 run3. unfold newer_first. lia. Qed.

(** X21. The request is answered 400 exactly when one of [page] and [page_size]
    comes without the other or when one of them is not positive, whatever the
    store holds: the arguments are checked before the job is looked up. *)
Theorem PipelineRunsList_get_checks_the_arguments page_to_pagination_data page
    page_size job_uuid db :
  (∃ msg, PipelineRunsList_get page_to_pagination_data page page_size job_uuid db
          = runs_400 msg)
  ↔ (is_Some page ∧ page_size = None) ∨ (page = None ∧ is_Some page_size)
    ∨ (∃ n, page = Some n ∧ n ≤ 0) ∨ (∃ n, page_size = Some n ∧ n ≤ 0).
Proof.
  unfold PipelineRunsList_get.
  destruct page as [page |], page_size as [page_size |].
  - rewrite bool_decide_eq_false_2 by (intros [[_ ?] | [? _]]; done).
    destruct (decide (page ≤ 0)) as [Hpage | Hpage].
    { rewrite (bool_decide_eq_true_2 _ Hpage).
      split; [intros _; right; right; left; by eauto | by eauto]. }
    rewrite (bool_decide_eq_false_2 _ Hpage).
    destruct (decide (page_size ≤ 0)) as [Hsize | Hsize].
    { rewrite (bool_decide_eq_true_2 _ Hsize).
      split; [intros _; right; right; right; by eauto | by eauto]. }
    rewrite (bool_decide_eq_false_2 _ Hsize).
    split.
    + intros [msg Hmsg]. destruct (jobs db !! job_uuid); discriminate Hmsg.
    + intros [[_ ?] | [[? _] | [(n & [= <-] & ?) | (n & [= <-] & ?)]]]; done.
  - rewrite bool_decide_eq_true_2 by (left; done).
    split; [intros _; left; by eauto | by eauto].
  - rewrite bool_decide_eq_true_2 by (right; done).
    split; [intros _; right; left; by eauto | by eauto].
  - rewrite bool_decide_eq_false_2 by (intros [[? _] | [_ ?]]; done).
    split.
    + intros [msg Hmsg]. destruct (jobs db !! job_uuid); discriminate Hmsg.
    + intros [[[? ?] _] | [[_ [? ?]] | [(n & ? & _) | (n & ? & _)]]]; done.
Qed.

Lemma PipelineRunsList_get_all page_to_pagination_data job_uuid job db :
  jobs db !! job_uuid = Some job →
  PipelineRunsList_get page_to_pagination_data None None job_uuid db
  = runs_200
      (merge_sort newer_first
         (filter (λ run, NonInteractivePipelineRun.job_uuid run = job_uuid)
            (pipeline_runs db))) None.
Proof.
  intros Hjob. unfold PipelineRunsList_get.
  rewrite bool_decide_eq_false_2 by (intros [[? _] | [_ ?]]; done).
  by rewrite Hjob.
Qed.

Lemma PipelineRunsList_get_page page_to_pagination_data page page_size job_uuid job db :
  jobs db !! job_uuid = Some job →
  0 < page → 0 < page_size →
  page_rows page_to_pagination_data (Some page) (Some page_size) job_uuid db
  = take (Z.to_nat page_size)
      (drop (Z.to_nat ((page - 1) * page_size))
         (page_rows page_to_pagination_data None None job_uuid db)).
Proof.
  intros Hjob Hpage Hsize. unfold page_rows.
  rewrite (PipelineRunsList_get_all _ _ _ _ Hjob). unfold PipelineRunsList_get.
  rewrite bool_decide_eq_false_2 by (intros [[_ ?] | [? _]]; done).
  rewrite !bool_decide_eq_false_2 by lia. by rewrite Hjob.
Qed.

(** X22. Without pagination the request of an existing job answers with the runs of
    that job and no others, each once, the newest first: by [job_run_index]
    and then by [job_run_pipeline_run_index], both descending. *)
Theorem PipelineRunsList_get_newest_first page_to_pagination_data job_uuid job db :
  jobs db !! job_uuid = Some job →
  ∃ rows,
    PipelineRunsList_get page_to_pagination_data None None job_uuid db
    = runs_200 rows None
    ∧ rows ≡ₚ filter (λ run, NonInteractivePipelineRun.job_uuid run = job_uuid)
                (pipeline_runs db)
    ∧ ∀ (i j : nat) run run',
        rows !! i = Some run → rows !! j = Some run' → (i < j)%nat →
        NonInteractivePipelineRun.job_run_index run'
        < NonInteractivePipelineRun.job_run_index run
        ∨ (NonInteractivePipelineRun.job_run_index run'
           = NonInteractivePipelineRun.job_run_index run
           ∧ NonInteractivePipelineRun.job_run_pipeline_run_index run'
             ≤ NonInteractivePipelineRun.job_run_pipeline_run_index run).
Proof.
  intros Hjob. eexists. split; [by apply (PipelineRunsList_get_all _ _ job) |].
  split; [apply merge_sort_Permutation |].
  intros i j run run' Hi Hj Hlt.
  pose proof (StronglySorted_merge_sort newer_first
                (filter (λ run, NonInteractivePipelineRun.job_uuid run = job_uuid)
                   (pipeline_runs db))) as Hsorted.
  revert i j Hi Hj Hlt.
  induction Hsorted as [| first rest _ IH Hfirst]; intros i j Hi Hj Hlt;
    [by rewrite lookup_nil in Hi |].
  destruct j as [| j]; [lia |]. cbn in Hj.
  destruct i as [| i].
  - cbn in Hi. injection Hi as <-.
    rewrite Forall_forall in Hfirst. apply Hfirst.
    by eapply list_elem_of_lookup_2.
  - cbn in Hi. apply (IH i j Hi Hj). lia.
Qed.

Lemma PipelineRunsList_get_newest_first_witness :
  ∃ rows,
    PipelineRunsList_get (λ _, JNull) None None "job-1" db_two_jobs = runs_200 rows None
    ∧ rows ≡ₚ filter (λ run, NonInteractivePipelineRun.job_uuid run = "job-1")
                (pipeline_runs db_two_jobs).
Proof.
  destruct (PipelineRunsList_get_newest_first (λ _, JNull) "job-1"
              (job_named "job-1" "STARTED") db_two_jobs eq_refl)
    as (rows & Hget & Hsame & _).
  exists rows. split; [exact Hget | exact Hsame].
Defined.

(** X23. The pages of a request follow one another in the list without pagination:
    the rows of the pages 1 to [n] of size [page_size], one after the other,
    are the first [n * page_size] rows of that list, so that no run is skipped
    or served twice and the pages after the last run are empty. *)
Theorem PipelineRunsList_get_pages_partition page_to_pagination_data page_size n
    job_uuid job db :
  jobs db !! job_uuid = Some job →
  0 < page_size →
  concat ((λ page : nat, page_rows page_to_pagination_data (Some (Z.of_nat page))
                           (Some page_size) job_uuid db) <$> seq 1 n)
  = take (n * Z.to_nat page_size)
      (page_rows page_to_pagination_data None None job_uuid db).
Proof.
  intros Hjob Hsize. induction n as [| n IH]; [done |].
  rewrite seq_S, fmap_app, concat_app, IH. cbn [fmap list_fmap concat Nat.add].
  rewrite app_nil_r, (PipelineRunsList_get_page _ _ _ _ _ _ Hjob) by lia.
  replace (Z.to_nat ((Z.of_nat (S n) - 1) * page_size)) with (n * Z.to_nat page_size)%nat
    by nia.
  rewrite take_take_drop. f_equal. lia.
Qed.

Lemma PipelineRunsList_get_pages_partition_witness :
  page_rows (λ _, JNull) (Some 1) (Some 1) "job-1" db_two_jobs
  ++ page_rows (λ _, JNull) (Some 2) (Some 1) "job-1" db_two_jobs
  = page_rows (λ _, JNull) None None "job-1" db_two_jobs.
Proof.
  pose proof (PipelineRunsList_get_pages_partition (λ _, JNull) 1 2 "job-1"
                (job_named "job-1" "STARTED") db_two_jobs eq_refl eq_refl) as Hpages.
  cbn [seq fmap list_fmap concat] in Hpages. rewrite app_nil_r in Hpages.
  change (Z.of_nat 1) with 1 in Hpages. change (Z.of_nat 2) with 2 in Hpages.
  rewrite Hpages. vm_compute. reflexivity.
Defined.

(** * Image builds *)

(** ** The loop over the pod log *)

(** In development mode the loop writes every event, as it is, to both logs
    and looks at nothing else: neither the flags count nor the error flag
    changes, whatever the events end with. *)
Lemma follow_log_dev B st events :
  IS_DEV B = true →
  follow_log B st events
  = LogFilter.mk (LogFilter.flags_count st) (LogFilter.found_error_flag st)
      (foldl (λ logs event, _log event true logs) (LogFilter.logs st) events).
Proof.
  intros Hdev. revert st.
  induction events as [| event rest IH]; intros st; [by destruct st |].
  cbn [follow_log foldl]. unfold on_event. rewrite Hdev. by rewrite IH.
Qed.

(** Outside of development mode, an event that ends with the error flag ends
    the loop with [found_error_flag] set and without being written; nothing
    after it is read. *)
Lemma follow_log_error B st event rest :
  IS_DEV B = false →
  endswith event (BUILD_IMAGE_ERROR_FLAG B) = true →
  follow_log B st (event :: rest)
  = LogFilter.mk (LogFilter.flags_count st) true (LogFilter.logs st).
Proof.
  intros Hdev Herror. cbn [follow_log]. unfold on_event. by rewrite Hdev, Herror.
Qed.

Lemma on_event_filtered B st event :
  IS_DEV B = false →
  endswith event (BUILD_IMAGE_ERROR_FLAG B) = false →
  on_event B st event
  = (LogFilter.mk
       (if flag_line B event then S (LogFilter.flags_count st)
        else LogFilter.flags_count st)
       false
       (match written_for B (LogFilter.flags_count st) event with
        | Some line => _log line true (LogFilter.logs st)
        | None => LogFilter.logs st
        end),
     negb (flag_line B event && bool_decide (LogFilter.flags_count st = 1%nat))).
Proof.
  intros Hdev Herror. unfold on_event, written_for, flag_line, without_runtime.
  rewrite Hdev, Herror. fold (cached_layer event).
  destruct (cached_layer event); [done |]. cbn [negb andb].
  destruct (endswith event (BUILD_IMAGE_LOG_FLAG B)).
  - cbn [negb andb]. f_equal. f_equal.
    destruct (LogFilter.flags_count st) as [| [| n]]; done.
  - by case_bool_decide.
Qed.

Lemma omap_cons_eq {A B} (f : A → option B) x l :
  omap f (x :: l) = match f x with Some y => y :: omap f l | None => omap f l end.
Proof. reflexivity. Qed.

Lemma follow_log_no_flags B n events :
  IS_DEV B = false →
  Forall (λ event, endswith event (BUILD_IMAGE_ERROR_FLAG B) = false
                   ∧ flag_line B event = false) events →
  ∀ rest logs,
    follow_log B (LogFilter.mk n false logs) (events ++ rest)
    = follow_log B
        (LogFilter.mk n false (log_lines (omap (written_for B n) events) logs)) rest.
Proof.
  intros Hdev. induction 1 as [| event events [Herror Hflag] _ IH]; intros rest logs;
    [done |].
  cbn [app follow_log]. rewrite (on_event_filtered _ _ _ Hdev Herror), Hflag.
  cbn [andb negb LogFilter.flags_count LogFilter.logs].
  rewrite IH, omap_cons_eq. by destruct (written_for B n event).
Qed.

Lemma follow_log_flag B n event rest logs :
  IS_DEV B = false →
  endswith event (BUILD_IMAGE_ERROR_FLAG B) = false →
  flag_line B event = true →
  follow_log B (LogFilter.mk n false logs) (event :: rest)
  = if bool_decide (n = 1%nat) then LogFilter.mk 2 false logs
    else follow_log B (LogFilter.mk (S n) false logs) rest.
Proof.
  intros Hdev Herror Hflag. cbn [follow_log].
  rewrite (on_event_filtered _ _ _ Hdev Herror), Hflag.
  cbn [andb negb LogFilter.flags_count LogFilter.logs].
  assert (Hnone : written_for B n event = None).
  { unfold written_for. unfold flag_line in Hflag.
    destruct (cached_layer event); [done |]. cbn in Hflag. by rewrite Hflag. }
  rewrite Hnone. case_bool_decide as Hn; [by subst n | done].
Qed.

Lemma written_before_the_first_flag B events :
  Forall (λ event, flag_line B event = false) events →
  omap (written_for B 0) events
  = (λ _, "Found cached layer.") <$> filter (λ event, cached_layer event = true) events.
Proof.
  induction 1 as [| event events Hflag _ IH]; [done |].
  rewrite omap_cons_eq, filter_cons, IH. unfold written_for at 1.
  unfold flag_line in Hflag.
  destruct (cached_layer event); [by rewrite decide_True |].
  rewrite decide_False by done. cbn in Hflag. by rewrite Hflag.
Qed.

Lemma written_after_the_first_flag B events :
  Forall (λ event, flag_line B event = false) events →
  omap (written_for B 1) events = shown B <$> events.
Proof.
  induction 1 as [| event events Hflag _ IH]; [done |].
  rewrite omap_cons_eq, fmap_cons, IH. unfold written_for, shown.
  unfold flag_line in Hflag.
  destruct (cached_layer event); [done |]. cbn in Hflag. rewrite Hflag. by cbn.
Qed.

(** X24. Outside of development mode, of a pod log that runs without error flag
    from a first flag of the build script to a second one, the loop shows the
    events between the two flags, each without its runtime prefix (a cached
    layer as its notice) and followed by a line feed, in both logs; of what
    comes before the first flag it shows nothing but the notices of cached
    layers; the flags are not shown; what comes after the second flag is not
    read. *)
Theorem log_is_shown_between_the_flags B before first body second after logs :
  IS_DEV B = false →
  Forall (λ event, endswith event (BUILD_IMAGE_ERROR_FLAG B) = false)
    (before ++ first :: body ++ [second]) →
  Forall (λ event, flag_line B event = false) (before ++ body) →
  flag_line B first = true →
  flag_line B second = true →
  follow_log B (LogFilter.mk 0 false logs) (before ++ first :: body ++ second :: after)
  = LogFilter.mk 2 false
      (log_lines (shown B <$> body)
         (log_lines ((λ _, "Found cached layer.")
                       <$> filter (λ event, cached_layer event = true) before)
            logs)).
Proof.
  intros Hdev Herrors Hflags Hfirst Hsecond.
  apply Forall_app in Herrors as [Herrors_before Herrors].
  apply Forall_cons in Herrors as [Herror_first Herrors].
  apply Forall_app in Herrors as [Herrors_body Herror_second].
  apply Forall_cons in Herror_second as [Herror_second _].
  apply Forall_app in Hflags as [Hflags_before Hflags_body].
  rewrite (follow_log_no_flags B 0 before Hdev)
    by (apply Forall_and; split; done).
  rewrite (follow_log_flag _ _ _ _ _ Hdev Herror_first Hfirst).
  rewrite bool_decide_eq_false_2 by done.
  rewrite (follow_log_no_flags B 1 body Hdev)
    by (apply Forall_and; split; done).
  rewrite (follow_log_flag _ _ _ _ _ Hdev Herror_second Hsecond).
  rewrite bool_decide_eq_true_2 by done.
  by rewrite written_before_the_first_flag, written_after_the_first_flag.
Qed.

(** ** The storing loop *)

Lemma storing_loop_reached B pod_name n :
  ∀ fuel attempt st,
    (∀ i, (i < n)%nat →
          wait_for_stored B pod_name (attempt + i)
          = Some PodNeverReachedExpectedStatusError) →
    wait_for_stored B pod_name (attempt + n) = None →
    (n < fuel)%nat →
    storing_loop B pod_name fuel attempt st
    = Some (Build.mk (Build.user_logs st ++ replicate n "." ++ [newline])
              (Build.all_logs st) (Build.workflows st), inr tt).
Proof.
  induction n as [| n IH]; intros fuel attempt st Hwaits Hreached Hfuel;
    (destruct fuel as [| fuel]; [lia |]); cbn [storing_loop].
  - rewrite Nat.add_0_r in Hreached. by rewrite Hreached.
  - pose proof (Hwaits 0%nat ltac:(lia)) as Hfirst.
    rewrite Nat.add_0_r in Hfirst. rewrite Hfirst.
    rewrite (IH fuel (S attempt)); [| | | lia].
    + cbn. by rewrite <- !app_assoc.
    + intros i Hi. replace (S attempt + i)%nat with (attempt + S i)%nat by lia.
      apply Hwaits. lia.
    + by replace (S attempt + n)%nat with (attempt + S n)%nat by lia.
Qed.

Lemma storing_loop_waiting B pod_name :
  ∀ fuel attempt st,
    (∀ i, (i < fuel)%nat →
          wait_for_stored B pod_name (attempt + i)
          = Some PodNeverReachedExpectedStatusError) →
    storing_loop B pod_name fuel attempt st = None.
Proof.
  induction fuel as [| fuel IH]; intros attempt st Hwaits; [done |].
  cbn [storing_loop].
  pose proof (Hwaits 0%nat ltac:(lia)) as Hfirst.
  rewrite Nat.add_0_r in Hfirst. rewrite Hfirst. apply IH.
  intros i Hi. replace (S attempt + i)%nat with (attempt + S i)%nat by lia.
  apply Hwaits. lia.
Qed.

(** X28. The storing loop writes one dot to the user logs for each wait that times
    out and a line feed when the pod is reached, and nothing to the complete
    logs: when the [n]-th wait is the first that reaches the pod, the loop ends
    after [n + 1] iterations with [n] dots and the line feed written; as long
    as the waits time out it has not ended, whatever the number of iterations
    it is given. *)
Theorem storing_loop_writes_a_dot_per_timeout B pod_name n fuel st :
  (∀ i, (i < n)%nat →
        wait_for_stored B pod_name i = Some PodNeverReachedExpectedStatusError) →
  (wait_for_stored B pod_name n = None →
   (n < fuel)%nat →
   storing_loop B pod_name fuel 0 st
   = Some (Build.mk (Build.user_logs st ++ replicate n "." ++ [newline])
             (Build.all_logs st) (Build.workflows st), inr tt))
  ∧ ((fuel ≤ n)%nat → storing_loop B pod_name fuel 0 st = None).
Proof.
  intros Hwaits. split.
  - intros Hreached Hfuel. by apply storing_loop_reached.
  - intros Hfuel. apply storing_loop_waiting. intros i Hi. apply Hwaits. lia.
Qed.

Lemma storing_loop_writes_a_dot_per_timeout_witness :
  storing_loop (example_build false "Succeeded" []) "image-build-task-1" 5 0
    (Build.mk [] [] [])
  = Some (Build.mk ["."; "."; newline] [] [], inr tt).
Proof.
  apply (proj1 (storing_loop_writes_a_dot_per_timeout
                  (example_build false "Succeeded" []) "image-build-task-1" 2 5
                  (Build.mk [] [] [])
                  ltac:(intros i Hi; cbn; by rewrite bool_decide_eq_true_2))).
  - reflexivity.
  - lia.
Defined.

(** ** [_build_image] and [build_image] *)

Lemma _log_agrees user_logs msg newline_after st :
  logs_agree user_logs st → logs_agree user_logs (_log msg newline_after st).
Proof.
  unfold logs_agree, _log. intros Hagree.
  destruct newline_after; cbn; rewrite Hagree, <- ?app_assoc; done.
Qed.

Lemma add_workflow_agrees user_logs manifest st :
  logs_agree user_logs st → logs_agree user_logs (Build.add_workflow manifest st).
Proof. done. Qed.

Lemma new_logs_agree user_logs :
  logs_agree user_logs (Build.mk user_logs [] []).
Proof. unfold logs_agree. cbn. by rewrite app_nil_r. Qed.

Lemma on_event_agrees B user_logs st event :
  logs_agree user_logs (LogFilter.logs st) →
  logs_agree user_logs (LogFilter.logs (on_event B st event).1).
Proof.
  intros Hagree. unfold on_event.
  repeat (case_match; cbn [fst LogFilter.logs]); try done; by apply _log_agrees.
Qed.

Lemma follow_log_agrees B user_logs events :
  ∀ st,
    logs_agree user_logs (LogFilter.logs st) →
    logs_agree user_logs (LogFilter.logs (follow_log B st events))
    ∧ Build.workflows (LogFilter.logs (follow_log B st events))
      = Build.workflows (LogFilter.logs st).
Proof.
  induction events as [| event rest IH]; intros st Hagree; [done |].
  cbn [follow_log].
  pose proof (on_event_agrees B user_logs st event Hagree) as Hstep.
  assert (Hworkflows : Build.workflows (LogFilter.logs (on_event B st event).1)
                       = Build.workflows (LogFilter.logs st)).
  { unfold on_event, _log.
    repeat (case_match; cbn [fst LogFilter.logs]); done. }
  destruct (on_event B st event) as [st' go_on]. cbn [fst] in *.
  destruct go_on; [| done].
  destruct (IH st' Hstep) as [Hrest Hkept]. by rewrite Hkept.
Qed.

Lemma follow_log_without_error B events :
  IS_DEV B = true
  ∨ Forall (λ event, endswith event (BUILD_IMAGE_ERROR_FLAG B) = false) events →
  ∀ st,
    LogFilter.found_error_flag st = false →
    LogFilter.found_error_flag (follow_log B st events) = false.
Proof.
  intros [Hdev | Hnone] st Hst.
  - by rewrite (follow_log_dev _ _ _ Hdev).
  - destruct (IS_DEV B) eqn:Hdev; [by rewrite (follow_log_dev _ _ _ Hdev) |].
    revert st Hst. induction Hnone as [| event rest Herror _ IH]; intros st Hst;
      [done |].
    cbn [follow_log]. rewrite (on_event_filtered _ _ _ Hdev Herror).
    case_match; [by apply IH | done].
Qed.

Lemma storing_loop_of_a_cluster_that_answers B pod_name :
  (∀ attempt, wait_for_stored B pod_name attempt = None
              ∨ wait_for_stored B pod_name attempt
                = Some PodNeverReachedExpectedStatusError) →
  ∀ fuel attempt st st' r,
    storing_loop B pod_name fuel attempt st = Some (st', r) →
    r = inr tt
    ∧ Build.all_logs st' = Build.all_logs st
    ∧ Build.workflows st' = Build.workflows st
    ∧ ∃ dots, Build.user_logs st' = Build.user_logs st ++ replicate dots "." ++ [newline].
Proof.
  intros Hwaits. induction fuel as [| fuel IH]; intros attempt st st' r; [done |].
  cbn [storing_loop]. destruct (Hwaits attempt) as [-> | ->].
  - intros [= <- <-]. split; [done |]. split; [done |]. split; [done |].
    by exists 0%nat.
  - intros Hloop. apply IH in Hloop as (-> & Hall & Hworkflows & dots & Huser).
    split; [done |]. split; [done |]. split; [done |].
    exists (S dots). rewrite Huser. cbn. by rewrite <- app_assoc.
Qed.

(** X26. When the cluster answers and no event of the pod log ends with the error
    flag, a [build_image] that returns gives "FAILURE" exactly when the pod has
    ended in the phase Failed, and "SUCCESS" otherwise; in development mode
    this holds whatever the pod log is, since the loop does not look for the
    error flag there. *)
Theorem build_image_fails_with_the_pod B fuel task_uuid image_name image_tag
    build_context user_logs phase st r :
  cluster_answers B task_uuid →
  IS_DEV B = true
  ∨ Forall (λ event, endswith event (BUILD_IMAGE_ERROR_FLAG B) = false)
      (pod_log B ("image-build-task-" +:+ task_uuid)) →
  pod_phase B ("image-build-task-" +:+ task_uuid) = inr phase →
  build_image B fuel task_uuid image_name image_tag build_context user_logs
  = Some (st, r) →
  r = inr (if bool_decide (phase = "Failed") then "FAILURE" else "SUCCESS").
Proof.
  intros (Hcreate & Hstarted & _ & Hwaits) Hquiet Hphase.
  unfold build_image, _build_image. cbv zeta.
  rewrite Hcreate, Hstarted, Hphase.
  rewrite (follow_log_without_error B _ Hquiet) by done. cbn [orb].
  case_bool_decide as Hfailed; [by intros [= <- <-] |].
  destruct (storing_loop B _ fuel 0 _) as [[st' [e | []]] |] eqn:Hloop; [| | done].
  - by apply (storing_loop_of_a_cluster_that_answers B _ Hwaits) in Hloop as [? _].
  - by intros [= <- <-].
Qed.

Lemma build_image_fails_with_the_pod_witness :
  ∃ st,
    build_image (example_build true "Succeeded" ["_ORCHEST_RESERVED_ERROR_FLAG_"]) 5
      "1" "image" "latest" example_build_context []
    = Some (st, inr "SUCCESS").
Proof.
  destruct (build_image (example_build true "Succeeded" ["_ORCHEST_RESERVED_ERROR_FLAG_"])
              5 "1" "image" "latest" example_build_context [])
    as [[st r] |] eqn:Hbuilt; [| vm_compute in Hbuilt; discriminate Hbuilt].
  exists st. f_equal. f_equal.
  refine (build_image_fails_with_the_pod
            (example_build true "Succeeded" ["_ORCHEST_RESERVED_ERROR_FLAG_"]) 5 "1"
            "image" "latest" example_build_context [] "Succeeded" st r _ _ eq_refl Hbuilt).
  - split; [done |]. split; [done |]. split; [by eexists |].
    intros attempt. cbn. case_bool_decide; auto.
  - by left.
Defined.

Lemma follow_log_up_to B before :
  IS_DEV B = false →
  Forall (λ event, endswith event (BUILD_IMAGE_ERROR_FLAG B) = false) before →
  ∀ n logs rest,
    (n + length (filter (λ event, flag_line B event = true) before) ≤ 1)%nat →
    ∃ n' logs',
      follow_log B (LogFilter.mk n false logs) (before ++ rest)
      = follow_log B (LogFilter.mk n' false logs') rest.
Proof.
  intros Hdev. induction 1 as [| event before Herror _ IH]; intros n logs rest Hflags;
    [by eauto |].
  rewrite filter_cons in Hflags. cbn [app follow_log].
  rewrite (on_event_filtered _ _ _ Hdev Herror).
  cbn [LogFilter.flags_count LogFilter.logs].
  destruct (flag_line B event) eqn:Hflag.
  - rewrite decide_True in Hflags by done. cbn [length] in Hflags.
    rewrite bool_decide_eq_false_2 by lia. cbn [andb negb].
    apply IH. lia.
  - rewrite decide_False in Hflags by done. cbn [andb negb].
    apply IH. lia.
Qed.

(** X25. Outside of development mode, an event that ends with the error flag fails
    the build when it comes before the second flag of the build script and is
    the first such event: whatever the phase of the pod and whatever follows in
    the pod log, [build_image] returns "FAILURE" without waiting for the
    storing; the last thing written to the complete logs is the text of the
    exception, and before it the complete logs hold exactly what the build has
    added to the user logs. *)
Theorem error_flag_fails_the_build B fuel task_uuid image_name image_tag
    build_context user_logs before failed after phase :
  IS_DEV B = false →
  (∀ manifest, create_workflow_outcome B manifest = None) →
  wait_for_started B ("image-build-task-" +:+ task_uuid) = None →
  pod_phase B ("image-build-task-" +:+ task_uuid) = inr phase →
  pod_log B ("image-build-task-" +:+ task_uuid) = before ++ failed :: after →
  Forall (λ event, endswith event (BUILD_IMAGE_ERROR_FLAG B) = false) before →
  (length (filter (λ event, flag_line B event = true) before) ≤ 1)%nat →
  endswith failed (BUILD_IMAGE_ERROR_FLAG B) = true →
  ∃ written,
    build_image B fuel task_uuid image_name image_tag build_context user_logs
    = Some (Build.mk (user_logs ++ written)
              (written ++ [str_build_exn B ImageBuildFailedError])
              [Workflow.mk ("image-build-task-" +:+ task_uuid) image_name image_tag
                 (BuildContext.snapshot_path build_context)
                 (BuildContext.dockerfile_path build_context)
                 (before_colon (BuildContext.base_image build_context))],
            inr "FAILURE").
Proof.
  intros Hdev Hcreate Hstarted Hphase Hlog Hquiet Hflags Herror.
  unfold build_image, _build_image. cbv zeta.
  rewrite Hcreate, Hstarted, Hphase, Hlog, Hdev.
  set (st1 := _log "Building image..." true _).
  assert (Hagree1 :
    logs_agree user_logs st1
    ∧ Build.workflows st1
      = [Workflow.mk ("image-build-task-" +:+ task_uuid) image_name image_tag
                (BuildContext.snapshot_path build_context)
                (BuildContext.dockerfile_path build_context)
                (before_colon (BuildContext.base_image build_context))]).
  { split; [| reflexivity].
    apply _log_agrees, add_workflow_agrees, _log_agrees, new_logs_agree. }
  destruct (follow_log_up_to B before Hdev Hquiet 0 st1 (failed :: after) Hflags)
    as (n' & logs' & Hfollowed).
  pose proof (follow_log_agrees B user_logs (before ++ failed :: after)
                (LogFilter.mk 0 false st1) (proj1 Hagree1)) as [Hagree Hworkflows].
  rewrite Hfollowed, (follow_log_error _ _ _ _ Hdev Herror) in *.
  cbn [LogFilter.found_error_flag LogFilter.logs orb] in *.
  exists (Build.all_logs logs'
          ++ ["There was a problem building the image. The building script had a non 0 "
              +:+ "exit code, build failed." +:+ newline]).
  unfold logs_agree in Hagree. destruct logs' as [user all workflows].
  cbn in Hagree, Hworkflows. subst user workflows.
  unfold _log, Build.write_all, Build.write_user.
  cbn [Build.user_logs Build.all_logs Build.workflows].
  by rewrite <- !app_assoc.
Qed.

Lemma error_flag_fails_the_build_witness :
  ∃ st,
    build_image
      (example_build false "Succeeded"
         ["_ORCHEST_RESERVED_LOG_FLAG_"; "make: error _ORCHEST_RESERVED_ERROR_FLAG_"; "more"])
      5 "1" "image" "latest" example_build_context []
    = Some (st, inr "FAILURE").
Proof.
  destruct (error_flag_fails_the_build
              (example_build false "Succeeded"
                 ["_ORCHEST_RESERVED_LOG_FLAG_";
                  "make: error _ORCHEST_RESERVED_ERROR_FLAG_"; "more"])
              5 "1" "image" "latest" example_build_context []
              ["_ORCHEST_RESERVED_LOG_FLAG_"]
              "make: error _ORCHEST_RESERVED_ERROR_FLAG_" ["more"] "Succeeded"
              eq_refl ltac:(done) eq_refl eq_refl eq_refl
              ltac:(repeat constructor) ltac:(vm_compute; lia) ltac:(vm_compute; reflexivity))
    as [written Hbuilt].
  eexists. exact Hbuilt.
Defined.

(** X27. A build that succeeds: when the cluster answers, the loop over the pod log
    has met no error flag, the phase of the pod is not Failed and the [n]-th
    wait of the storing loop is the first that reaches the pod, [build_image]
    returns "SUCCESS" after having asked for one workflow, named after the task
    and with the base image without its tag as cache key; the complete logs end
    with "Storing image..." and "Done!" and hold everything the build has added
    to the user logs except the [n] progress dots and the line feed after
    them. *)
Theorem build_image_stores_the_image B fuel task_uuid image_name image_tag
    build_context user_logs phase n :
  (∀ manifest, create_workflow_outcome B manifest = None) →
  wait_for_started B ("image-build-task-" +:+ task_uuid) = None →
  pod_phase B ("image-build-task-" +:+ task_uuid) = inr phase →
  phase ≠ "Failed" →
  IS_DEV B = true
  ∨ Forall (λ event, endswith event (BUILD_IMAGE_ERROR_FLAG B) = false)
      (pod_log B ("image-build-task-" +:+ task_uuid)) →
  (∀ i, (i < n)%nat →
        wait_for_stored B ("image-build-task-" +:+ task_uuid) i
        = Some PodNeverReachedExpectedStatusError) →
  wait_for_stored B ("image-build-task-" +:+ task_uuid) n = None →
  (n < fuel)%nat →
  ∃ written,
    build_image B fuel task_uuid image_name image_tag build_context user_logs
    = Some (Build.mk
              (user_logs ++ written ++ ["Storing image..."] ++ replicate n "."
               ++ [newline; "Done!"])
              (written ++ ["Storing image..."; "Done!"])
              [Workflow.mk ("image-build-task-" +:+ task_uuid) image_name image_tag
                 (BuildContext.snapshot_path build_context)
                 (BuildContext.dockerfile_path build_context)
                 (before_colon (BuildContext.base_image build_context))],
            inr "SUCCESS").
Proof.
  intros Hcreate Hstarted Hphase Hfailed Hquiet Hwaits Hreached Hfuel.
  unfold build_image, _build_image. cbv zeta.
  rewrite Hcreate, Hstarted, Hphase.
  set (st1 := _log "Building image..." true _).
  assert (Hagree1 :
    logs_agree user_logs st1
    ∧ Build.workflows st1
      = [Workflow.mk ("image-build-task-" +:+ task_uuid) image_name image_tag
                (BuildContext.snapshot_path build_context)
                (BuildContext.dockerfile_path build_context)
                (before_colon (BuildContext.base_image build_context))]).
  { split; [| subst st1; by destruct (IS_DEV B)].
    apply _log_agrees, add_workflow_agrees, _log_agrees.
    destruct (IS_DEV B); [apply _log_agrees |]; apply new_logs_agree. }
  pose proof (follow_log_agrees B user_logs
                (pod_log B ("image-build-task-" +:+ task_uuid))
                (LogFilter.mk 0 false st1) (proj1 Hagree1)) as [Hagree Hworkflows].
  cbn [LogFilter.logs] in Hworkflows. rewrite (proj2 Hagree1) in Hworkflows.
  rewrite (follow_log_without_error B _ Hquiet) by done. cbn [orb].
  rewrite bool_decide_eq_false_2 by done.
  rewrite (storing_loop_reached B _ n fuel 0 _ Hwaits Hreached Hfuel).
  destruct (LogFilter.logs (follow_log B _ _)) as [user all workflows].
  unfold logs_agree in Hagree. cbn in Hagree, Hworkflows. subst user workflows.
  exists all. unfold _log, Build.write_all, Build.write_user.
  cbn [Build.user_logs Build.all_logs Build.workflows].
  by rewrite <- !app_assoc.
Qed.

Lemma build_image_stores_the_image_witness :
  ∃ written,
    build_image
      (example_build false "Succeeded"
         ["#1 load"; "_ORCHEST_RESERVED_LOG_FLAG_"; "#7 0.1 hello";
          "_ORCHEST_RESERVED_LOG_FLAG_"; "#9 exporting"])
      5 "1" "image" "latest" example_build_context ["earlier"]
    = Some (Build.mk
              (["earlier"] ++ written ++ ["Storing image..."] ++ replicate 2 "."
               ++ [newline; "Done!"])
              (written ++ ["Storing image..."; "Done!"])
              [Workflow.mk "image-build-task-1" "image" "latest" "/snapshot" "Dockerfile"
                 "orchest/base-kernel-py"],
            inr "SUCCESS").
Proof.
  exact (build_image_stores_the_image
           (example_build false "Succeeded"
              ["#1 load"; "_ORCHEST_RESERVED_LOG_FLAG_"; "#7 0.1 hello";
               "_ORCHEST_RESERVED_LOG_FLAG_"; "#9 exporting"])
           5 "1" "image" "latest" example_build_context ["earlier"] "Succeeded" 2
           ltac:(done) eq_refl eq_refl ltac:(done)
           ltac:(right; repeat constructor)
           ltac:(intros i Hi; cbn; by rewrite bool_decide_eq_true_2)
           eq_refl ltac:(lia)).
Defined.

Lemma log_is_shown_between_the_flags_witness :
  follow_log (example_build false "Succeeded" [])
    (LogFilter.mk 0 false (Build.mk [] [] []))
    ["#1 load"; "#2 CACHED"; "_ORCHEST_RESERVED_LOG_FLAG_"; "#7 0.1 hello";
     "_ORCHEST_RESERVED_LOG_FLAG_"; "#9 exporting"]
  = LogFilter.mk 2 false
      (Build.mk ["Found cached layer."; newline; "hello"; newline]
         ["Found cached layer."; newline; "hello"; newline] []).
Proof.
  etransitivity;
    [exact (log_is_shown_between_the_flags (example_build false "Succeeded" [])
              ["#1 load"; "#2 CACHED"] "_ORCHEST_RESERVED_LOG_FLAG_" ["#7 0.1 hello"]
              "_ORCHEST_RESERVED_LOG_FLAG_" ["#9 exporting"] (Build.mk [] [] [])
              eq_refl ltac:(repeat constructor) ltac:(repeat constructor)
              eq_refl eq_refl)
    | vm_compute; reflexivity].
Defined.

(** * Environment images *)

#[local] Instance greater_tag_first_total : Total greater_tag_first.
Proof. intros image image'. unfold greater_tag_first. lia. Qed.

#[local] Instance greater_tag_first_transitive : Transitive greater_tag_first.
Proof. intros image1 image2 image3. unfold greater_tag_first. lia. Qed.

Lemma foldr_max_greatest (tag : Z) (tags : list Z) :
  foldr Z.max tag tags ∈ tag :: tags
  ∧ ∀ other, other ∈ tag :: tags → other ≤ foldr Z.max tag tags.
Proof.
  induction tags as [| first tags [Hin Hmax]]; cbn [foldr].
  - split; [apply list_elem_of_here |].
    intros other [-> | Hother%elem_of_nil]%elem_of_cons; [lia | done].
  - split.
    + destruct (Z.max_spec first (foldr Z.max tag tags)) as [[_ ->] | [_ ->]].
      * apply elem_of_cons in Hin as [-> | Hin];
          [apply list_elem_of_here | by do 2 apply list_elem_of_further].
      * apply list_elem_of_further, list_elem_of_here.
    + intros other [-> | [-> | Hother]%elem_of_cons]%elem_of_cons.
      * specialize (Hmax tag (list_elem_of_here _ _)). lia.
      * lia.
      * specialize (Hmax other (list_elem_of_further _ _ _ Hother)). lia.
Qed.

Lemma latest_image_found project_uuid environment_uuid images image :
  LatestProjectEnvironmentEnvironmentImage_get project_uuid environment_uuid images
  = inr image →
  image ∈ images
  ∧ EnvironmentImage.project_uuid image = project_uuid
  ∧ EnvironmentImage.environment_uuid image = environment_uuid
  ∧ ∀ image',
      image' ∈ images →
      EnvironmentImage.project_uuid image' = project_uuid →
      EnvironmentImage.environment_uuid image' = environment_uuid →
      EnvironmentImage.tag image' ≤ EnvironmentImage.tag image.
Proof.
  unfold LatestProjectEnvironmentEnvironmentImage_get. cbv zeta.
  destruct (head (merge_sort greater_tag_first _)) as [latest |] eqn:Hhead; [| done].
  intros [= <-].
  apply head_merge_sort_least in Hhead as [Hin Hleast]; [| apply _ ..].
  apply list_elem_of_filter in Hin as [[Hproject Henvironment] Hin].
  repeat split; try done.
  intros image' Hin' Hproject' Henvironment'.
  apply (Hleast image'). by apply list_elem_of_filter.
Qed.

Lemma latest_image_missing project_uuid environment_uuid images answer image :
  LatestProjectEnvironmentEnvironmentImage_get project_uuid environment_uuid images
  = inl answer →
  image ∈ images →
  ¬ (EnvironmentImage.project_uuid image = project_uuid
     ∧ EnvironmentImage.environment_uuid image = environment_uuid).
Proof.
  unfold LatestProjectEnvironmentEnvironmentImage_get. cbv zeta.
  destruct (head (merge_sort greater_tag_first _)) as [latest |] eqn:Hhead; [done |].
  intros _ Hin Hsame. apply head_merge_sort_none in Hhead.
  assert (Hfound : image ∈ filter
                     (λ image, EnvironmentImage.project_uuid image = project_uuid
                               ∧ EnvironmentImage.environment_uuid image
                                 = environment_uuid) images)
    by (by apply list_elem_of_filter).
  rewrite Hhead in Hfound. by apply elem_of_nil in Hfound.
Qed.

(** X29. The latest image of an environment is an image of that project and
    environment whose tag is not smaller than the tag of any other image of
    the environment; the request is answered 404 exactly when the environment
    has no image. *)
Theorem latest_image_has_the_greatest_tag project_uuid environment_uuid images :
  match LatestProjectEnvironmentEnvironmentImage_get project_uuid environment_uuid
          images with
  | inr image =>
    image ∈ images
    ∧ EnvironmentImage.project_uuid image = project_uuid
    ∧ EnvironmentImage.environment_uuid image = environment_uuid
    ∧ ∀ image',
        image' ∈ images →
        EnvironmentImage.project_uuid image' = project_uuid →
        EnvironmentImage.environment_uuid image' = environment_uuid →
        EnvironmentImage.tag image' ≤ EnvironmentImage.tag image
  | inl (msg, code) =>
    code = 404
    ∧ ∀ image,
        image ∈ images →
        ¬ (EnvironmentImage.project_uuid image = project_uuid
           ∧ EnvironmentImage.environment_uuid image = environment_uuid)
  end.
Proof.
  unfold LatestProjectEnvironmentEnvironmentImage_get. cbv zeta.
  destruct (head (merge_sort greater_tag_first _)) as [image |] eqn:Hhead.
  - apply head_merge_sort_least in Hhead as [Hin Hleast]; [| apply _ ..].
    apply list_elem_of_filter in Hin as [[Hproject Henvironment] Hin].
    repeat split; try done.
    intros image' Hin' Hproject' Henvironment'.
    apply (Hleast image'). by apply list_elem_of_filter.
  - apply head_merge_sort_none in Hhead. split; [done |].
    intros image Hin Hsame.
    assert (Hfound : image ∈ filter
                       (λ image, EnvironmentImage.project_uuid image = project_uuid
                                 ∧ EnvironmentImage.environment_uuid image
                                   = environment_uuid) images)
      by (by apply list_elem_of_filter).
    rewrite Hhead in Hfound. by apply elem_of_nil in Hfound.
Qed.

Lemma tags_of_group (images : list EnvironmentImage.t) project_uuid environment_uuid other :
  other ∈ EnvironmentImage.tag
            <$> filter (λ image, EnvironmentImage.project_uuid image = project_uuid
                                 ∧ EnvironmentImage.environment_uuid image
                                   = environment_uuid) images
  ↔ ∃ image, image ∈ images
             ∧ EnvironmentImage.project_uuid image = project_uuid
             ∧ EnvironmentImage.environment_uuid image = environment_uuid
             ∧ EnvironmentImage.tag image = other.
Proof.
  rewrite list_elem_of_fmap. split.
  - intros (image & -> & Hin). apply list_elem_of_filter in Hin as [[? ?] ?].
    by exists image.
  - intros (image & Hin & Hproject & Henvironment & <-).
    exists image. split; [done |]. by apply list_elem_of_filter.
Qed.

Lemma latest_env_images_row images project_uuid environment_uuid tag :
  (project_uuid, environment_uuid, tag) ∈ latest_env_images images
  ↔ (∃ image, image ∈ images
              ∧ EnvironmentImage.project_uuid image = project_uuid
              ∧ EnvironmentImage.environment_uuid image = environment_uuid
              ∧ EnvironmentImage.tag image = tag)
    ∧ ∀ image,
        image ∈ images →
        EnvironmentImage.project_uuid image = project_uuid →
        EnvironmentImage.environment_uuid image = environment_uuid →
        EnvironmentImage.tag image ≤ tag.
Proof.
  unfold latest_env_images. rewrite list_elem_of_omap.
  split.
  - intros ([p e] & _ & Hrow). cbn [fst snd] in Hrow.
    pose proof (tags_of_group images p e) as Htags.
    destruct (EnvironmentImage.tag <$> filter _ images) as [| first tags];
      [done |].
    injection Hrow as -> -> <-.
    destruct (foldr_max_greatest first tags) as [Hin Hmax]. split.
    + by apply Htags.
    + intros image Hin' Hproject Henvironment. apply Hmax, Htags. by exists image.
  - intros [(image & Hin & Hproject & Henvironment & Htag) Hmax].
    exists (project_uuid, environment_uuid). split.
    + apply elem_of_remove_dups, list_elem_of_fmap. exists image.
      by rewrite Hproject, Henvironment.
    + cbn [fst snd].
      pose proof (tags_of_group images project_uuid environment_uuid) as Htags.
      destruct (EnvironmentImage.tag <$> filter _ images) as [| first tags].
      * assert (Hnone : tag ∈ @nil Z) by (apply Htags; by exists image).
        by apply elem_of_nil in Hnone.
      * destruct (foldr_max_greatest first tags) as [Hin' Hmax'].
        apply Htags in Hin' as (image' & Hin' & Hproject' & Henvironment' & Htag').
        f_equal. f_equal.
        assert (tag ∈ first :: tags) as Hamong by (apply Htags; by exists image).
        specialize (Hmax' tag Hamong). specialize (Hmax image' Hin' Hproject' Henvironment').
        lia.
Qed.

Lemma latest_env_images_groups images :
  NoDup ((λ row : string * string * Z, row.1) <$> latest_env_images images).
Proof.
  unfold latest_env_images.
  pose proof (NoDup_remove_dups
                ((λ image, (EnvironmentImage.project_uuid image,
                            EnvironmentImage.environment_uuid image)) <$> images))
    as Hgroups.
  induction Hgroups as [| group groups Hnew _ IH]; [constructor |].
  rewrite omap_cons_eq. cbn [fst snd].
  destruct (EnvironmentImage.tag <$> filter _ images) as [| first tags]; [exact IH |].
  cbn [fmap list_fmap]. constructor; [| exact IH].
  intros Hin. apply list_elem_of_fmap in Hin as ([[p e] t] & Hkey & Hin).
  apply list_elem_of_omap in Hin as ([p' e'] & Hin & Hrow). cbn [fst snd] in *.
  destruct (EnvironmentImage.tag <$> filter _ images); [done |].
  injection Hrow as <- <- _. destruct group as [p0 e0]. cbn in Hkey.
  injection Hkey as -> ->. done.
Qed.

(** X30. The three endpoints agree.  The list of the latest images has one row per
    project and environment, and a row is in it exactly when the endpoint for
    that project and environment answers with an image of that tag; the images
    to pre-pull are the names, under the address of the registry, of these
    environments with these tags. *)
Theorem latest_images_agree ENVIRONMENT_IMAGE_NAME registry_ip images :
  NoDup ((λ row : string * string * Z, row.1) <$> latest_env_images images)
  ∧ (∀ project_uuid environment_uuid tag,
       (project_uuid, environment_uuid, tag) ∈ latest_env_images images
       ↔ ∃ image,
           LatestProjectEnvironmentEnvironmentImage_get project_uuid environment_uuid
             images = inr image
           ∧ EnvironmentImage.tag image = tag)
  ∧ ∀ name,
      name ∈ EnvironmentImagesToPrePull_get ENVIRONMENT_IMAGE_NAME registry_ip images
      ↔ ∃ image,
          LatestProjectEnvironmentEnvironmentImage_get
            (EnvironmentImage.project_uuid image)
            (EnvironmentImage.environment_uuid image) images = inr image
          ∧ name = registry_ip +:+ "/"
                   +:+ (ENVIRONMENT_IMAGE_NAME (EnvironmentImage.project_uuid image)
                          (EnvironmentImage.environment_uuid image)
                        +:+ ":" +:+ pretty (EnvironmentImage.tag image)).
Proof.
  assert (Hrows : ∀ project_uuid environment_uuid tag,
    (project_uuid, environment_uuid, tag) ∈ latest_env_images images
    ↔ ∃ image,
        LatestProjectEnvironmentEnvironmentImage_get project_uuid environment_uuid
          images = inr image
        ∧ EnvironmentImage.tag image = tag).
  { intros project_uuid environment_uuid tag. rewrite latest_env_images_row.
    destruct (LatestProjectEnvironmentEnvironmentImage_get project_uuid
                environment_uuid images) as [answer | latest] eqn:Hlatest.
    - split.
      + intros [(image & Hin & Hproject & Henvironment & _) _].
        by destruct (latest_image_missing _ _ _ _ image Hlatest Hin).
      + by intros (image & Himage & _).
    - destruct (latest_image_found _ _ _ _ Hlatest)
        as (Hin & Hproject & Henvironment & Hmax).
      split.
      + intros [(image & Hin' & Hproject' & Henvironment' & Htag) Hmax'].
        exists latest. split; [done |].
        specialize (Hmax image Hin' Hproject' Henvironment').
        specialize (Hmax' latest Hin Hproject Henvironment). lia.
      + intros (image & [= <-] & <-). split; [by exists latest | exact Hmax]. }
  split; [apply latest_env_images_groups |]. split; [exact Hrows |].
  intros name. unfold EnvironmentImagesToPrePull_get. rewrite list_elem_of_fmap. split.
  - intros ([[project_uuid environment_uuid] tag] & -> & Hrow).
    apply Hrows in Hrow as (image & Hlatest & <-).
    destruct (latest_image_found _ _ _ _ Hlatest) as (_ & <- & <- & _).
    by exists image.
  - intros (image & Hlatest & ->).
    exists (EnvironmentImage.project_uuid image,
            EnvironmentImage.environment_uuid image, EnvironmentImage.tag image).
    split; [done |]. apply Hrows. by exists image.
Qed.
